(** * Coin machine firmware: edge detector and state controller

    A shallow embedding of [coin_machine_firmware.ino], [hardware_functions.h]
    and [config.h].  The firmware's global variables become the fields of one
    record, [Machine]; every firmware function becomes a function on that
    record, under the name it has in the source.

    Conventions of the embedding:
    - [unsigned long] values are integers in [0, 2^32); subtraction and the
      millisecond clock wrap around modulo 2^32 ([ulong_sub], [to_ulong]);
    - [int] counters are incremented with two's-complement wrap-around
      ([to_int]);
    - [millis()] reads the field [uptime]; [delay(n)] advances it by [n];
      every other statement takes no time;
    - the serial console is the list [serial] of printed tokens, in the order
      they were printed;
    - servos, status LED and camera lights are represented by the last value
      written to them;
    - what the environment decides during one pass of [loop] (the outcome of
      a capture, a line typed on the console) is an argument, [Env];
    - the optical sensor's interrupt is delivered between two passes of
      [loop], never in the middle of one;
    - the SPIFFS file system is outside the model: [cleanupOldImages] and
      the bytes written by [captureAndSaveImage] are left out. *)

From Stdlib Require Import ZArith List String Ascii Bool Lia DecimalString.
From Stdlib Require DecimalZ DecimalPos.
Import ListNotations.
Open Scope string_scope.
Open Scope list_scope.
Open Scope Z_scope.

(** ** config.h *)

Module Config.

(* Servo timing (milliseconds) *)
Definition TRAPDOOR_OPEN_TIME : Z := 2000.
Definition SERVO_MOVE_DELAY : Z := 500.
Definition FLIPPER_PHOTO_DELAY : Z := 300.

(* Sensor timing *)
Definition SENSOR_DEBOUNCE_TIME : Z := 50.
Definition MULTI_COIN_TIMEOUT : Z := 1000.

(* Camera timing *)
Definition CAMERA_FLASH_DURATION : Z := 200.
Definition CAMERA_WARMUP_TIME : Z := 100.

(* State timeouts *)
Definition PROCESSING_TIMEOUT : Z := 10000.
Definition RESET_TIMEOUT : Z := 30000.

(* Servo positions (degrees) *)
Definition TRAPDOOR_CLOSED : Z := 0.
Definition TRAPDOOR_OPEN : Z := 90.
Definition FLIPPER_HOME : Z := 0.
Definition FLIPPER_SIDE_1 : Z := 90.
Definition FLIPPER_SIDE_2 : Z := 180.

(* Sensor thresholds *)
Definition MULTI_COIN_THRESHOLD : Z := 2.

(* File storage *)
Definition IMAGE_FILENAME_PREFIX : string := "/coin_".
Definition IMAGE_FILENAME_SUFFIX : string := ".jpg".

End Config.
Export Config.

Inductive CoinMachineState : Type :=
  | STATE_INIT
  | STATE_WAITING_FOR_COIN
  | STATE_COIN_DETECTED
  | STATE_PROCESSING
  | STATE_PHOTOGRAPHING
  | STATE_REJECTING
  | STATE_ERROR.

Inductive StatusCode : Type :=
  | STATUS_OK
  | STATUS_MULTIPLE_COINS
  | STATUS_COIN_DURING_PROCESSING
  | STATUS_CAMERA_ERROR
  | STATUS_STORAGE_ERROR
  | STATUS_TIMEOUT_ERROR.

Record RGBColor : Type := mkRGB { r : Z; g : Z; b : Z }.

Definition LED_READY : RGBColor := mkRGB 0 255 0.
Definition LED_PROCESSING : RGBColor := mkRGB 255 255 0.
Definition LED_BUSY : RGBColor := mkRGB 255 0 0.
Definition LED_ERROR : RGBColor := mkRGB 255 0 255.
Definition LED_OFF : RGBColor := mkRGB 0 0 0.

Definition state_eqb (a b : CoinMachineState) : bool :=
  match a, b with
  | STATE_INIT, STATE_INIT
  | STATE_WAITING_FOR_COIN, STATE_WAITING_FOR_COIN
  | STATE_COIN_DETECTED, STATE_COIN_DETECTED
  | STATE_PROCESSING, STATE_PROCESSING
  | STATE_PHOTOGRAPHING, STATE_PHOTOGRAPHING
  | STATE_REJECTING, STATE_REJECTING
  | STATE_ERROR, STATE_ERROR => true
  | _, _ => false
  end.

(** ** Machine integers *)

Definition ULONG_RANGE : Z := 2 ^ 32.

(** Reduction of a result to [unsigned long]. *)
Definition to_ulong (z : Z) : Z := z mod ULONG_RANGE.

(** [a - b] on [unsigned long]. *)
Definition ulong_sub (a b : Z) : Z := to_ulong (a - b).

(** Reduction of a result to [int] (32 bits, two's complement). *)
Definition to_int (z : Z) : Z := (z + 2 ^ 31) mod ULONG_RANGE - 2 ^ 31.

(** ** Serial console *)

Inductive SerialTok : Type :=
  | Print (text : string)
  | PrintNum (n : Z)
  | Println (text : string)
  | PrintlnNum (n : Z).

(** ** The firmware's variables *)

(** The globals of [coin_machine_firmware.ino] ([lastStateTime] and
    [photographSequenceTime] are never read or written and are left out),
    the two function-local statics ([lastErrorReport] of [handleError],
    [imageCounter] of [generateImageFilename]), the sensor variables of
    [hardware_functions.h], and the devices.  The projections are primitive,
    so that a field read out of a chain of assignments reduces at once. *)
#[projections(primitive)]
Record Machine : Type := mkMachine {
  currentState : CoinMachineState;
  previousState : CoinMachineState;
  stateStartTime : Z;
  trapdoorOpenTime : Z;
  flipperMoveTime : Z;
  processingCoin : bool;
  currentPhotoStep : Z;
  currentImageFilename1 : string;
  currentImageFilename2 : string;
  lastError : StatusCode;
  errorCount : Z;
  lastErrorReport : Z;
  imageCounter : Z;
  sensorTriggered : bool;
  lastSensorTrigger : Z;
  sensorTriggerCount : Z;
  sensorWindowStart : Z;
  sensorAttached : bool;
  trapdoorServo : Z;
  flipperServo : Z;
  statusLED : RGBColor;
  cameraLights : bool;
  uptime : Z;
  serial : list SerialTok
}.

Definition set_currentState (v : CoinMachineState) (m : Machine) : Machine :=
  mkMachine v (previousState m) (stateStartTime m) (trapdoorOpenTime m)
    (flipperMoveTime m) (processingCoin m) (currentPhotoStep m)
    (currentImageFilename1 m) (currentImageFilename2 m) (lastError m)
    (errorCount m) (lastErrorReport m) (imageCounter m) (sensorTriggered m)
    (lastSensorTrigger m) (sensorTriggerCount m) (sensorWindowStart m)
    (sensorAttached m) (trapdoorServo m) (flipperServo m) (statusLED m)
    (cameraLights m) (uptime m) (serial m).

Definition set_previousState (v : CoinMachineState) (m : Machine) : Machine :=
  mkMachine (currentState m) v (stateStartTime m) (trapdoorOpenTime m)
    (flipperMoveTime m) (processingCoin m) (currentPhotoStep m)
    (currentImageFilename1 m) (currentImageFilename2 m) (lastError m)
    (errorCount m) (lastErrorReport m) (imageCounter m) (sensorTriggered m)
    (lastSensorTrigger m) (sensorTriggerCount m) (sensorWindowStart m)
    (sensorAttached m) (trapdoorServo m) (flipperServo m) (statusLED m)
    (cameraLights m) (uptime m) (serial m).

Definition set_stateStartTime (v : Z) (m : Machine) : Machine :=
  mkMachine (currentState m) (previousState m) v (trapdoorOpenTime m)
    (flipperMoveTime m) (processingCoin m) (currentPhotoStep m)
    (currentImageFilename1 m) (currentImageFilename2 m) (lastError m)
    (errorCount m) (lastErrorReport m) (imageCounter m) (sensorTriggered m)
    (lastSensorTrigger m) (sensorTriggerCount m) (sensorWindowStart m)
    (sensorAttached m) (trapdoorServo m) (flipperServo m) (statusLED m)
    (cameraLights m) (uptime m) (serial m).

Definition set_trapdoorOpenTime (v : Z) (m : Machine) : Machine :=
  mkMachine (currentState m) (previousState m) (stateStartTime m) v
    (flipperMoveTime m) (processingCoin m) (currentPhotoStep m)
    (currentImageFilename1 m) (currentImageFilename2 m) (lastError m)
    (errorCount m) (lastErrorReport m) (imageCounter m) (sensorTriggered m)
    (lastSensorTrigger m) (sensorTriggerCount m) (sensorWindowStart m)
    (sensorAttached m) (trapdoorServo m) (flipperServo m) (statusLED m)
    (cameraLights m) (uptime m) (serial m).

Definition set_flipperMoveTime (v : Z) (m : Machine) : Machine :=
  mkMachine (currentState m) (previousState m) (stateStartTime m)
    (trapdoorOpenTime m) v (processingCoin m) (currentPhotoStep m)
    (currentImageFilename1 m) (currentImageFilename2 m) (lastError m)
    (errorCount m) (lastErrorReport m) (imageCounter m) (sensorTriggered m)
    (lastSensorTrigger m) (sensorTriggerCount m) (sensorWindowStart m)
    (sensorAttached m) (trapdoorServo m) (flipperServo m) (statusLED m)
    (cameraLights m) (uptime m) (serial m).

Definition set_processingCoin (v : bool) (m : Machine) : Machine :=
  mkMachine (currentState m) (previousState m) (stateStartTime m)
    (trapdoorOpenTime m) (flipperMoveTime m) v (currentPhotoStep m)
    (currentImageFilename1 m) (currentImageFilename2 m) (lastError m)
    (errorCount m) (lastErrorReport m) (imageCounter m) (sensorTriggered m)
    (lastSensorTrigger m) (sensorTriggerCount m) (sensorWindowStart m)
    (sensorAttached m) (trapdoorServo m) (flipperServo m) (statusLED m)
    (cameraLights m) (uptime m) (serial m).

Definition set_currentPhotoStep (v : Z) (m : Machine) : Machine :=
  mkMachine (currentState m) (previousState m) (stateStartTime m)
    (trapdoorOpenTime m) (flipperMoveTime m) (processingCoin m) v
    (currentImageFilename1 m) (currentImageFilename2 m) (lastError m)
    (errorCount m) (lastErrorReport m) (imageCounter m) (sensorTriggered m)
    (lastSensorTrigger m) (sensorTriggerCount m) (sensorWindowStart m)
    (sensorAttached m) (trapdoorServo m) (flipperServo m) (statusLED m)
    (cameraLights m) (uptime m) (serial m).

Definition set_currentImageFilename1 (v : string) (m : Machine) : Machine :=
  mkMachine (currentState m) (previousState m) (stateStartTime m)
    (trapdoorOpenTime m) (flipperMoveTime m) (processingCoin m)
    (currentPhotoStep m) v (currentImageFilename2 m) (lastError m)
    (errorCount m) (lastErrorReport m) (imageCounter m) (sensorTriggered m)
    (lastSensorTrigger m) (sensorTriggerCount m) (sensorWindowStart m)
    (sensorAttached m) (trapdoorServo m) (flipperServo m) (statusLED m)
    (cameraLights m) (uptime m) (serial m).

Definition set_currentImageFilename2 (v : string) (m : Machine) : Machine :=
  mkMachine (currentState m) (previousState m) (stateStartTime m)
    (trapdoorOpenTime m) (flipperMoveTime m) (processingCoin m)
    (currentPhotoStep m) (currentImageFilename1 m) v (lastError m)
    (errorCount m) (lastErrorReport m) (imageCounter m) (sensorTriggered m)
    (lastSensorTrigger m) (sensorTriggerCount m) (sensorWindowStart m)
    (sensorAttached m) (trapdoorServo m) (flipperServo m) (statusLED m)
    (cameraLights m) (uptime m) (serial m).

Definition set_lastError (v : StatusCode) (m : Machine) : Machine :=
  mkMachine (currentState m) (previousState m) (stateStartTime m)
    (trapdoorOpenTime m) (flipperMoveTime m) (processingCoin m)
    (currentPhotoStep m) (currentImageFilename1 m) (currentImageFilename2 m) v
    (errorCount m) (lastErrorReport m) (imageCounter m) (sensorTriggered m)
    (lastSensorTrigger m) (sensorTriggerCount m) (sensorWindowStart m)
    (sensorAttached m) (trapdoorServo m) (flipperServo m) (statusLED m)
    (cameraLights m) (uptime m) (serial m).

Definition set_errorCount (v : Z) (m : Machine) : Machine :=
  mkMachine (currentState m) (previousState m) (stateStartTime m)
    (trapdoorOpenTime m) (flipperMoveTime m) (processingCoin m)
    (currentPhotoStep m) (currentImageFilename1 m) (currentImageFilename2 m)
    (lastError m) v (lastErrorReport m) (imageCounter m) (sensorTriggered m)
    (lastSensorTrigger m) (sensorTriggerCount m) (sensorWindowStart m)
    (sensorAttached m) (trapdoorServo m) (flipperServo m) (statusLED m)
    (cameraLights m) (uptime m) (serial m).

Definition set_lastErrorReport (v : Z) (m : Machine) : Machine :=
  mkMachine (currentState m) (previousState m) (stateStartTime m)
    (trapdoorOpenTime m) (flipperMoveTime m) (processingCoin m)
    (currentPhotoStep m) (currentImageFilename1 m) (currentImageFilename2 m)
    (lastError m) (errorCount m) v (imageCounter m) (sensorTriggered m)
    (lastSensorTrigger m) (sensorTriggerCount m) (sensorWindowStart m)
    (sensorAttached m) (trapdoorServo m) (flipperServo m) (statusLED m)
    (cameraLights m) (uptime m) (serial m).

Definition set_imageCounter (v : Z) (m : Machine) : Machine :=
  mkMachine (currentState m) (previousState m) (stateStartTime m)
    (trapdoorOpenTime m) (flipperMoveTime m) (processingCoin m)
    (currentPhotoStep m) (currentImageFilename1 m) (currentImageFilename2 m)
    (lastError m) (errorCount m) (lastErrorReport m) v (sensorTriggered m)
    (lastSensorTrigger m) (sensorTriggerCount m) (sensorWindowStart m)
    (sensorAttached m) (trapdoorServo m) (flipperServo m) (statusLED m)
    (cameraLights m) (uptime m) (serial m).

Definition set_sensorTriggered (v : bool) (m : Machine) : Machine :=
  mkMachine (currentState m) (previousState m) (stateStartTime m)
    (trapdoorOpenTime m) (flipperMoveTime m) (processingCoin m)
    (currentPhotoStep m) (currentImageFilename1 m) (currentImageFilename2 m)
    (lastError m) (errorCount m) (lastErrorReport m) (imageCounter m) v
    (lastSensorTrigger m) (sensorTriggerCount m) (sensorWindowStart m)
    (sensorAttached m) (trapdoorServo m) (flipperServo m) (statusLED m)
    (cameraLights m) (uptime m) (serial m).

Definition set_lastSensorTrigger (v : Z) (m : Machine) : Machine :=
  mkMachine (currentState m) (previousState m) (stateStartTime m)
    (trapdoorOpenTime m) (flipperMoveTime m) (processingCoin m)
    (currentPhotoStep m) (currentImageFilename1 m) (currentImageFilename2 m)
    (lastError m) (errorCount m) (lastErrorReport m) (imageCounter m)
    (sensorTriggered m) v (sensorTriggerCount m) (sensorWindowStart m)
    (sensorAttached m) (trapdoorServo m) (flipperServo m) (statusLED m)
    (cameraLights m) (uptime m) (serial m).

Definition set_sensorTriggerCount (v : Z) (m : Machine) : Machine :=
  mkMachine (currentState m) (previousState m) (stateStartTime m)
    (trapdoorOpenTime m) (flipperMoveTime m) (processingCoin m)
    (currentPhotoStep m) (currentImageFilename1 m) (currentImageFilename2 m)
    (lastError m) (errorCount m) (lastErrorReport m) (imageCounter m)
    (sensorTriggered m) (lastSensorTrigger m) v (sensorWindowStart m)
    (sensorAttached m) (trapdoorServo m) (flipperServo m) (statusLED m)
    (cameraLights m) (uptime m) (serial m).

Definition set_sensorWindowStart (v : Z) (m : Machine) : Machine :=
  mkMachine (currentState m) (previousState m) (stateStartTime m)
    (trapdoorOpenTime m) (flipperMoveTime m) (processingCoin m)
    (currentPhotoStep m) (currentImageFilename1 m) (currentImageFilename2 m)
    (lastError m) (errorCount m) (lastErrorReport m) (imageCounter m)
    (sensorTriggered m) (lastSensorTrigger m) (sensorTriggerCount m) v
    (sensorAttached m) (trapdoorServo m) (flipperServo m) (statusLED m)
    (cameraLights m) (uptime m) (serial m).

Definition set_sensorAttached (v : bool) (m : Machine) : Machine :=
  mkMachine (currentState m) (previousState m) (stateStartTime m)
    (trapdoorOpenTime m) (flipperMoveTime m) (processingCoin m)
    (currentPhotoStep m) (currentImageFilename1 m) (currentImageFilename2 m)
    (lastError m) (errorCount m) (lastErrorReport m) (imageCounter m)
    (sensorTriggered m) (lastSensorTrigger m) (sensorTriggerCount m)
    (sensorWindowStart m) v (trapdoorServo m) (flipperServo m) (statusLED m)
    (cameraLights m) (uptime m) (serial m).

Definition set_trapdoorServo (v : Z) (m : Machine) : Machine :=
  mkMachine (currentState m) (previousState m) (stateStartTime m)
    (trapdoorOpenTime m) (flipperMoveTime m) (processingCoin m)
    (currentPhotoStep m) (currentImageFilename1 m) (currentImageFilename2 m)
    (lastError m) (errorCount m) (lastErrorReport m) (imageCounter m)
    (sensorTriggered m) (lastSensorTrigger m) (sensorTriggerCount m)
    (sensorWindowStart m) (sensorAttached m) v (flipperServo m) (statusLED m)
    (cameraLights m) (uptime m) (serial m).

Definition set_flipperServo (v : Z) (m : Machine) : Machine :=
  mkMachine (currentState m) (previousState m) (stateStartTime m)
    (trapdoorOpenTime m) (flipperMoveTime m) (processingCoin m)
    (currentPhotoStep m) (currentImageFilename1 m) (currentImageFilename2 m)
    (lastError m) (errorCount m) (lastErrorReport m) (imageCounter m)
    (sensorTriggered m) (lastSensorTrigger m) (sensorTriggerCount m)
    (sensorWindowStart m) (sensorAttached m) (trapdoorServo m) v (statusLED m)
    (cameraLights m) (uptime m) (serial m).

Definition set_statusLED (v : RGBColor) (m : Machine) : Machine :=
  mkMachine (currentState m) (previousState m) (stateStartTime m)
    (trapdoorOpenTime m) (flipperMoveTime m) (processingCoin m)
    (currentPhotoStep m) (currentImageFilename1 m) (currentImageFilename2 m)
    (lastError m) (errorCount m) (lastErrorReport m) (imageCounter m)
    (sensorTriggered m) (lastSensorTrigger m) (sensorTriggerCount m)
    (sensorWindowStart m) (sensorAttached m) (trapdoorServo m)
    (flipperServo m) v (cameraLights m) (uptime m) (serial m).

Definition set_cameraLights (v : bool) (m : Machine) : Machine :=
  mkMachine (currentState m) (previousState m) (stateStartTime m)
    (trapdoorOpenTime m) (flipperMoveTime m) (processingCoin m)
    (currentPhotoStep m) (currentImageFilename1 m) (currentImageFilename2 m)
    (lastError m) (errorCount m) (lastErrorReport m) (imageCounter m)
    (sensorTriggered m) (lastSensorTrigger m) (sensorTriggerCount m)
    (sensorWindowStart m) (sensorAttached m) (trapdoorServo m)
    (flipperServo m) (statusLED m) v (uptime m) (serial m).

Definition set_uptime (v : Z) (m : Machine) : Machine :=
  mkMachine (currentState m) (previousState m) (stateStartTime m)
    (trapdoorOpenTime m) (flipperMoveTime m) (processingCoin m)
    (currentPhotoStep m) (currentImageFilename1 m) (currentImageFilename2 m)
    (lastError m) (errorCount m) (lastErrorReport m) (imageCounter m)
    (sensorTriggered m) (lastSensorTrigger m) (sensorTriggerCount m)
    (sensorWindowStart m) (sensorAttached m) (trapdoorServo m)
    (flipperServo m) (statusLED m) (cameraLights m) v (serial m).

Definition set_serial (v : list SerialTok) (m : Machine) : Machine :=
  mkMachine (currentState m) (previousState m) (stateStartTime m)
    (trapdoorOpenTime m) (flipperMoveTime m) (processingCoin m)
    (currentPhotoStep m) (currentImageFilename1 m) (currentImageFilename2 m)
    (lastError m) (errorCount m) (lastErrorReport m) (imageCounter m)
    (sensorTriggered m) (lastSensorTrigger m) (sensorTriggerCount m)
    (sensorWindowStart m) (sensorAttached m) (trapdoorServo m)
    (flipperServo m) (statusLED m) (cameraLights m) (uptime m) v.
(** ** What the environment decides *)

Inductive CaptureOutcome : Type :=
  | CaptureOk
  | FrameBufferFailed     (* esp_camera_fb_get() returned NULL *)
  | FileOpenFailed.       (* SPIFFS.open(filename, FILE_WRITE) failed *)

(** Readings taken from the outside world during one pass of [loop]:
    the outcome of the capture, should one be requested (a pass requests at
    most one); the line waiting on the console, already trimmed; the
    directory of SPIFFS and the free heap, which the console commands print. *)
Record Env : Type := mkEnv {
  capture : CaptureOutcome;
  serialLine : option string;
  spiffsDir : list (string * Z);
  freeHeap : Z
}.

(** A quiet pass: nothing on the console, the camera works. *)
Definition quiet : Env := mkEnv CaptureOk None [] 0.

(** The outcome of the two fallible initialisations of [setup]. *)
Record BootEnv : Type := mkBootEnv {
  storageBegins : bool;      (* SPIFFS.begin(true) *)
  cameraInits : bool         (* esp_camera_init(&config) == ESP_OK *)
}.

(** ** Arduino primitives *)

Definition millis (s : Machine) : Z := uptime s.

Definition delay (ms : Z) (s : Machine) : Machine :=
  set_uptime (to_ulong (uptime s + ms)) s.

Definition emit (t : SerialTok) (s : Machine) : Machine :=
  set_serial (serial s ++ [t]) s.

Definition DEBUG_PRINT (text : string) : Machine -> Machine := emit (Print text).
Definition DEBUG_PRINTLN (text : string) : Machine -> Machine := emit (Println text).
Definition DEBUG_PRINT_NUM (n : Z) : Machine -> Machine := emit (PrintNum n).
Definition DEBUG_PRINTLN_NUM (n : Z) : Machine -> Machine := emit (PrintlnNum n).

(** [String(n)] for a non-negative number. *)
Definition string_of_Z (n : Z) : string := NilZero.string_of_int (Z.to_int n).

(** ** hardware_functions.h *)

(** *** Camera *)

Definition setCameraLights (on : bool) (s : Machine) : Machine :=
  set_cameraLights on s.

Definition initializeCamera (ok : bool) (s : Machine) : bool * Machine :=
  if ok then (true, DEBUG_PRINTLN "Camera initialized successfully" s)
  else (false, DEBUG_PRINTLN "Camera init failed" s).

Definition captureAndSaveImage (out : CaptureOutcome) (filename : string)
    (s : Machine) : bool * Machine :=
  let s := setCameraLights true s in
  let s := delay CAMERA_WARMUP_TIME s in
  match out with
  | FrameBufferFailed =>
      let s := DEBUG_PRINTLN "Camera capture failed" s in
      let s := setCameraLights false s in
      (false, s)
  | FileOpenFailed =>
      let s := DEBUG_PRINTLN "Failed to open file for writing" s in
      let s := setCameraLights false s in
      (false, s)
  | CaptureOk =>
      let s := setCameraLights false s in
      let s := DEBUG_PRINT "Image saved: " s in
      let s := DEBUG_PRINTLN filename s in
      (true, s)
  end.

(** *** Servos *)

Definition setTrapdoorPosition (angle : Z) (s : Machine) : Machine :=
  let s := set_trapdoorServo angle s in
  let s := DEBUG_PRINT "Trapdoor moved to: " s in
  DEBUG_PRINTLN_NUM angle s.

Definition setFlipperPosition (angle : Z) (s : Machine) : Machine :=
  let s := set_flipperServo angle s in
  let s := DEBUG_PRINT "Flipper moved to: " s in
  DEBUG_PRINTLN_NUM angle s.

Definition openTrapdoor : Machine -> Machine := setTrapdoorPosition TRAPDOOR_OPEN.
Definition closeTrapdoor : Machine -> Machine := setTrapdoorPosition TRAPDOOR_CLOSED.
Definition moveFlipperHome : Machine -> Machine := setFlipperPosition FLIPPER_HOME.
Definition moveFlipperToSide1 : Machine -> Machine := setFlipperPosition FLIPPER_SIDE_1.
Definition moveFlipperToSide2 : Machine -> Machine := setFlipperPosition FLIPPER_SIDE_2.

Definition initializeServos (s : Machine) : bool * Machine :=
  let s := set_trapdoorServo TRAPDOOR_CLOSED s in
  let s := set_flipperServo FLIPPER_HOME s in
  let s := delay 1000 s in
  (true, DEBUG_PRINTLN "Servos initialized" s).

(** *** LEDs *)

Definition setStatusLED (color : RGBColor) (s : Machine) : Machine :=
  set_statusLED color s.

Definition initializeLEDs (s : Machine) : bool * Machine :=
  let s := setStatusLED LED_OFF s in
  let s := setCameraLights false s in
  (true, DEBUG_PRINTLN "LEDs initialized" s).

(** *** Sensor *)

Definition sensorInterrupt (s : Machine) : Machine :=
  let currentTime := millis s in
  (* Debounce check *)
  if ulong_sub currentTime (lastSensorTrigger s) <? SENSOR_DEBOUNCE_TIME then s
  else
    let s := set_lastSensorTrigger currentTime s in
    (* Start new detection window if needed *)
    let s := if sensorTriggerCount s =? 0
             then set_sensorWindowStart currentTime s else s in
    let s := set_sensorTriggerCount (to_int (sensorTriggerCount s + 1)) s in
    let s := set_sensorTriggered true s in
    let s := DEBUG_PRINT "Sensor triggered, count: " s in
    DEBUG_PRINTLN_NUM (sensorTriggerCount s) s.

Definition initializeSensor (s : Machine) : bool * Machine :=
  let s := set_sensorAttached true s in
  (true, DEBUG_PRINTLN "Optical sensor initialized" s).

Definition isSensorTriggered (s : Machine) : bool := sensorTriggered s.

Definition clearSensorTrigger (s : Machine) : Machine :=
  set_sensorTriggered false s.

Definition getSensorTriggerCount (s : Machine) : Z := sensorTriggerCount s.

Definition resetSensorCount (s : Machine) : Machine :=
  let s := set_sensorTriggerCount 0 s in
  set_sensorWindowStart 0 s.

Definition isMultipleCoinDetected (s : Machine) : bool * Machine :=
  let currentTime := millis s in
  (* Check if we're within the detection window *)
  if (0 <? sensorTriggerCount s)
     && (MULTI_COIN_TIMEOUT <? ulong_sub currentTime (sensorWindowStart s))
  then
    let multipleCoins := MULTI_COIN_THRESHOLD <=? sensorTriggerCount s in
    let s := DEBUG_PRINT "Coin detection complete. Count: " s in
    let s := DEBUG_PRINT_NUM (sensorTriggerCount s) s in
    let s := DEBUG_PRINT ", Multiple: " s in
    let s := DEBUG_PRINTLN (if multipleCoins then "YES" else "NO") s in
    (multipleCoins, s)
  else (false, s).

(** *** Storage *)

Definition initializeStorage (ok : bool) (s : Machine) : bool * Machine :=
  if ok then (true, DEBUG_PRINTLN "SPIFFS initialized" s)
  else (false, DEBUG_PRINTLN "SPIFFS initialization failed" s).

Definition generateImageFilename (s : Machine) : string * Machine :=
  let s := set_imageCounter (to_int (imageCounter s + 1)) s in
  let filename := IMAGE_FILENAME_PREFIX in
  let filename := (filename ++ string_of_Z (millis s))%string in
  let filename := (filename ++ "_")%string in
  let filename := (filename ++ string_of_Z (imageCounter s))%string in
  let filename := (filename ++ IMAGE_FILENAME_SUFFIX)%string in
  (filename, s).

(** *** Utilities *)

Definition systemReset (s : Machine) : Machine :=
  let s := DEBUG_PRINTLN "Performing system reset..." s in
  (* Reset all hardware to safe states *)
  let s := closeTrapdoor s in
  let s := moveFlipperHome s in
  let s := setStatusLED LED_OFF s in
  let s := setCameraLights false s in
  let s := resetSensorCount s in
  let s := delay 1000 s in
  DEBUG_PRINTLN "System reset complete" s.

Definition performSystemTest (s : Machine) : bool * Machine :=
  let s := DEBUG_PRINTLN "Starting system test..." s in
  (* Test status LED *)
  let s := setStatusLED LED_READY s in
  let s := delay 500 s in
  let s := setStatusLED LED_PROCESSING s in
  let s := delay 500 s in
  let s := setStatusLED LED_BUSY s in
  let s := delay 500 s in
  let s := setStatusLED LED_ERROR s in
  let s := delay 500 s in
  let s := setStatusLED LED_OFF s in
  (* Test servos *)
  let s := DEBUG_PRINTLN "Testing servos..." s in
  let s := setTrapdoorPosition 45 s in
  let s := delay 1000 s in
  let s := closeTrapdoor s in
  let s := delay 1000 s in
  let s := setFlipperPosition 45 s in
  let s := delay 1000 s in
  let s := setFlipperPosition 90 s in
  let s := delay 1000 s in
  let s := moveFlipperHome s in
  let s := delay 1000 s in
  (* Test camera lights *)
  let s := DEBUG_PRINTLN "Testing camera lights..." s in
  let s := setCameraLights true s in
  let s := delay 1000 s in
  let s := setCameraLights false s in
  (true, DEBUG_PRINTLN "System test complete" s).

(** ** coin_machine_firmware.ino *)

Definition getStateName (state : CoinMachineState) : string :=
  match state with
  | STATE_INIT => "INIT"
  | STATE_WAITING_FOR_COIN => "WAITING_FOR_COIN"
  | STATE_COIN_DETECTED => "COIN_DETECTED"
  | STATE_PROCESSING => "PROCESSING"
  | STATE_PHOTOGRAPHING => "PHOTOGRAPHING"
  | STATE_REJECTING => "REJECTING"
  | STATE_ERROR => "ERROR"
  end.

Definition changeState (newState : CoinMachineState) (s : Machine) : Machine :=
  if negb (state_eqb newState (currentState s)) then
    let s := set_previousState (currentState s) s in
    let s := set_currentState newState s in
    let s := set_stateStartTime (millis s) s in
    let s := DEBUG_PRINT "State change: " s in
    let s := DEBUG_PRINT (getStateName (previousState s)) s in
    let s := DEBUG_PRINT " -> " s in
    let s := DEBUG_PRINTLN (getStateName (currentState s)) s in
    (* Reset variables when changing states *)
    if state_eqb newState STATE_WAITING_FOR_COIN then
      let s := set_processingCoin false s in
      let s := resetSensorCount s in
      set_lastError STATUS_OK s
    else s
  else s.

Definition handleWaitingForCoin (s : Machine) : Machine :=
  (* Set ready status *)
  let s := setStatusLED LED_READY s in
  (* Check for sensor trigger *)
  if isSensorTriggered s then
    let s := DEBUG_PRINTLN "Coin detected!" s in
    let s := changeState STATE_COIN_DETECTED s in
    clearSensorTrigger s
  else s.

Definition handleCoinDetected (s : Machine) : Machine :=
  let s := setStatusLED LED_PROCESSING s in
  let timeInState := ulong_sub (millis s) (stateStartTime s) in
  (* Wait for the detection window to complete *)
  if MULTI_COIN_TIMEOUT <=? timeInState then
    (* Check if multiple coins were detected *)
    let '(multiple, s) := isMultipleCoinDetected s in
    let s :=
      if multiple then
        let s := DEBUG_PRINTLN "Multiple coins detected - rejecting" s in
        let s := changeState STATE_REJECTING s in
        set_lastError STATUS_MULTIPLE_COINS s
      else
        let s := DEBUG_PRINTLN "Single coin detected - processing" s in
        changeState STATE_PROCESSING s in
    resetSensorCount s
  else s.

Definition handleProcessing (s : Machine) : Machine :=
  let s := setStatusLED LED_PROCESSING s in
  (* Check for additional coins during processing *)
  if isSensorTriggered s then
    let s := DEBUG_PRINTLN "Additional coin detected during processing - rejecting" s in
    let s := clearSensorTrigger s in
    let s := resetSensorCount s in
    let s := changeState STATE_REJECTING s in
    set_lastError STATUS_COIN_DURING_PROCESSING s
  else
    let timeInState := ulong_sub (millis s) (stateStartTime s) in
    (* Brief settling time before starting photography *)
    if 500 <=? timeInState then
      let s := DEBUG_PRINTLN "Starting photography sequence" s in
      let s := changeState STATE_PHOTOGRAPHING s in
      set_currentPhotoStep 0 s
    else s.

Definition errorText (error : StatusCode) : string :=
  match error with
  | STATUS_MULTIPLE_COINS => "Multiple coins detected"
  | STATUS_COIN_DURING_PROCESSING => "Coin detected during processing"
  | STATUS_CAMERA_ERROR => "Camera error"
  | STATUS_STORAGE_ERROR => "Storage error"
  | STATUS_TIMEOUT_ERROR => "Timeout error"
  | STATUS_OK => "Unknown error"
  end.

Definition handleError (error : StatusCode) (s : Machine) : Machine :=
  let s := setStatusLED LED_ERROR s in
  let currentTime := millis s in
  (* Report error periodically *)
  let s :=
    if 5000 <? ulong_sub currentTime (lastErrorReport s) then
      let s := DEBUG_PRINT "ERROR STATE: " s in
      let s := DEBUG_PRINTLN (errorText error) s in
      let s := set_lastErrorReport currentTime s in
      set_errorCount (to_int (errorCount s + 1)) s
    else s in
  (* Auto-recovery after multiple error reports *)
  if 3 <=? errorCount s then
    let s := DEBUG_PRINTLN "Attempting system recovery..." s in
    let s := systemReset s in
    let s := set_errorCount 0 s in
    changeState STATE_WAITING_FOR_COIN s
  else s.

(** How a block of statements ends: it falls through to the statement after
    it, or it executes [return]. *)
Inductive Flow : Type :=
  | Next (s : Machine)
  | Return (s : Machine).

(** The [switch (currentPhotoStep)] of [handlePhotographing]. *)
Definition photoStep (out : CaptureOutcome) (s : Machine) : Flow :=
  match currentPhotoStep s with
  | 0 => (* Move flipper to first position (90 degrees) *)
      let s := DEBUG_PRINTLN "Moving flipper to first position" s in
      let s := moveFlipperToSide1 s in
      let s := set_flipperMoveTime (millis s) s in
      Next (set_currentPhotoStep 1 s)
  | 1 => (* Wait for flipper to reach position, then take first photo *)
      if SERVO_MOVE_DELAY <=? ulong_sub (millis s) (flipperMoveTime s) then
        let s := DEBUG_PRINTLN "Taking first photo" s in
        let '(name, s) := generateImageFilename s in
        let s := set_currentImageFilename1 name s in
        let '(ok, s) := captureAndSaveImage out (currentImageFilename1 s) s in
        if ok then
          let s := DEBUG_PRINTLN "First photo captured successfully" s in
          let s := set_currentPhotoStep 2 s in
          Next (set_flipperMoveTime (millis s) s)
        else
          let s := DEBUG_PRINTLN "ERROR: First photo capture failed" s in
          Return (handleError STATUS_CAMERA_ERROR s)
      else Next s
  | 2 => (* Move flipper to second position (180 degrees) *)
      if FLIPPER_PHOTO_DELAY <=? ulong_sub (millis s) (flipperMoveTime s) then
        let s := DEBUG_PRINTLN "Moving flipper to second position" s in
        let s := moveFlipperToSide2 s in
        let s := set_flipperMoveTime (millis s) s in
        Next (set_currentPhotoStep 3 s)
      else Next s
  | 3 => (* Wait for flipper to reach position, then take second photo *)
      if SERVO_MOVE_DELAY <=? ulong_sub (millis s) (flipperMoveTime s) then
        let s := DEBUG_PRINTLN "Taking second photo" s in
        let '(name, s) := generateImageFilename s in
        let s := set_currentImageFilename2 name s in
        let '(ok, s) := captureAndSaveImage out (currentImageFilename2 s) s in
        if ok then
          let s := DEBUG_PRINTLN "Second photo captured successfully" s in
          let s := set_currentPhotoStep 4 s in
          Next (set_flipperMoveTime (millis s) s)
        else
          let s := DEBUG_PRINTLN "ERROR: Second photo capture failed" s in
          Return (handleError STATUS_CAMERA_ERROR s)
      else Next s
  | 4 => (* Return flipper to home position *)
      if FLIPPER_PHOTO_DELAY <=? ulong_sub (millis s) (flipperMoveTime s) then
        let s := DEBUG_PRINTLN "Returning flipper to home position" s in
        let s := moveFlipperHome s in
        let s := set_flipperMoveTime (millis s) s in
        Next (set_currentPhotoStep 5 s)
      else Next s
  | 5 => (* Wait for flipper to reach home, then complete *)
      if SERVO_MOVE_DELAY <=? ulong_sub (millis s) (flipperMoveTime s) then
        let s := DEBUG_PRINTLN "Photography sequence complete" s in
        let s := DEBUG_PRINT "Images saved: " s in
        let s := DEBUG_PRINT (currentImageFilename1 s) s in
        let s := DEBUG_PRINT ", " s in
        let s := DEBUG_PRINTLN (currentImageFilename2 s) s in
        (* Reset for next coin *)
        let s := set_currentPhotoStep 0 s in
        Next (changeState STATE_WAITING_FOR_COIN s)
      else Next s
  | _ => Next s
  end.

Definition handlePhotographing (out : CaptureOutcome) (s : Machine) : Machine :=
  let s := setStatusLED LED_BUSY s in
  let timeInState := ulong_sub (millis s) (stateStartTime s) in
  match photoStep out s with
  | Return s => s
  | Next s =>
      (* Timeout protection for photography sequence *)
      if PROCESSING_TIMEOUT <? timeInState then
        let s := DEBUG_PRINTLN "ERROR: Photography sequence timeout" s in
        handleError STATUS_TIMEOUT_ERROR s
      else s
  end.

Definition handleRejecting (s : Machine) : Machine :=
  let s := setStatusLED LED_ERROR s in
  let timeInState := ulong_sub (millis s) (stateStartTime s) in
  (* Open trapdoor immediately when entering rejection state *)
  let s :=
    if timeInState <? 100 then
      let s := DEBUG_PRINTLN "Opening rejection trapdoor" s in
      let s := openTrapdoor s in
      set_trapdoorOpenTime (millis s) s
    else s in
  (* Close trapdoor after specified time *)
  if TRAPDOOR_OPEN_TIME <=? timeInState then
    let s := DEBUG_PRINTLN "Closing rejection trapdoor" s in
    let s := closeTrapdoor s in
    (* Wait a bit more for trapdoor to close, then return to waiting *)
    if TRAPDOOR_OPEN_TIME + 1000 <=? timeInState then
      let s := DEBUG_PRINTLN "Rejection complete, ready for next coin" s in
      changeState STATE_WAITING_FOR_COIN s
    else s
  else s.

Definition printSystemStatus (e : Env) (s : Machine) : Machine :=
  let s := DEBUG_PRINTLN "=== System Status ===" s in
  let s := DEBUG_PRINT "Current State: " s in
  let s := DEBUG_PRINTLN (getStateName (currentState s)) s in
  let s := DEBUG_PRINT "Time in State: " s in
  let s := DEBUG_PRINT_NUM (ulong_sub (millis s) (stateStartTime s)) s in
  let s := DEBUG_PRINTLN "ms" s in
  let s := DEBUG_PRINT "Sensor Trigger Count: " s in
  let s := DEBUG_PRINTLN_NUM (getSensorTriggerCount s) s in
  let s := DEBUG_PRINT "Error Count: " s in
  let s := DEBUG_PRINTLN_NUM (errorCount s) s in
  let s := DEBUG_PRINT "Free Heap: " s in
  let s := DEBUG_PRINTLN_NUM (freeHeap e) s in
  DEBUG_PRINTLN "==================" s.

(** The listing printed by the [photos] command, one entry of the directory
    at a time. *)
Fixpoint listPhotos (dir : list (string * Z)) (s : Machine) : Machine :=
  match dir with
  | [] => s
  | (name, size) :: rest =>
      let s :=
        if String.prefix IMAGE_FILENAME_PREFIX name then
          let s := DEBUG_PRINT "- " s in
          let s := DEBUG_PRINT name s in
          let s := DEBUG_PRINT " (" s in
          let s := DEBUG_PRINT_NUM size s in
          DEBUG_PRINTLN " bytes)" s
        else s in
      listPhotos rest s
  end.

Definition processSerialCommands (e : Env) (s : Machine) : Machine :=
  match serialLine e with
  | None => s
  | Some command =>
      if (command =? "status")%string then printSystemStatus e s
      else if (command =? "test")%string then snd (performSystemTest s)
      else if (command =? "reset")%string then
        let s := systemReset s in
        changeState STATE_WAITING_FOR_COIN s
      else if (command =? "photos")%string then
        let s := DEBUG_PRINTLN "=== Stored Images ===" s in
        let s := listPhotos (spiffsDir e) s in
        DEBUG_PRINTLN "==================" s
      else DEBUG_PRINTLN "Available commands: status, test, reset, photos" s
  end.

Definition loop (e : Env) (s : Machine) : Machine :=
  let currentTime := millis s in
  (* Update state timing *)
  let timeInState := ulong_sub currentTime (stateStartTime s) in
  (* Handle timeout protection *)
  if RESET_TIMEOUT <? timeInState then
    let s := DEBUG_PRINTLN "WARNING: State timeout, performing reset" s in
    handleError STATUS_TIMEOUT_ERROR s
  else
    (* State machine dispatcher *)
    let s :=
      match currentState s with
      | STATE_INIT => changeState STATE_WAITING_FOR_COIN s
      | STATE_WAITING_FOR_COIN => handleWaitingForCoin s
      | STATE_COIN_DETECTED => handleCoinDetected s
      | STATE_PROCESSING => handleProcessing s
      | STATE_PHOTOGRAPHING => handlePhotographing (capture e) s
      | STATE_REJECTING => handleRejecting s
      | STATE_ERROR => handleError (lastError s) s
      end in
    (* Process serial commands for debugging *)
    let s := processSerialCommands e s in
    (* Small delay to prevent excessive CPU usage *)
    delay 10 s.

Definition setup (e : BootEnv) (s : Machine) : Machine :=
  let s := delay 1000 s in
  let s := DEBUG_PRINTLN "=== Automated Coin Machine Starting ===" s in
  let s := DEBUG_PRINTLN "Initializing hardware..." s in
  (* Initialize all hardware components *)
  let initSuccess := true in
  let '(ok, s) := initializeStorage (storageBegins e) s in
  let '(initSuccess, s) :=
    if negb ok
    then (false, DEBUG_PRINTLN "ERROR: Storage initialization failed" s)
    else (initSuccess, s) in
  let '(ok, s) := initializeCamera (cameraInits e) s in
  let '(initSuccess, s) :=
    if negb ok
    then (false, DEBUG_PRINTLN "ERROR: Camera initialization failed" s)
    else (initSuccess, s) in
  let '(ok, s) := initializeServos s in
  let '(initSuccess, s) :=
    if negb ok
    then (false, DEBUG_PRINTLN "ERROR: Servo initialization failed" s)
    else (initSuccess, s) in
  let '(ok, s) := initializeLEDs s in
  let '(initSuccess, s) :=
    if negb ok
    then (false, DEBUG_PRINTLN "ERROR: LED initialization failed" s)
    else (initSuccess, s) in
  let '(ok, s) := initializeSensor s in
  let '(initSuccess, s) :=
    if negb ok
    then (false, DEBUG_PRINTLN "ERROR: Sensor initialization failed" s)
    else (initSuccess, s) in
  (* Check initialization results *)
  if negb initSuccess then
    let s := set_currentState STATE_ERROR s in
    let s := setStatusLED LED_ERROR s in
    DEBUG_PRINTLN "FATAL: Hardware initialization failed" s
  else
    (* Perform system test *)
    let s := DEBUG_PRINTLN "Performing system test..." s in
    let s := snd (performSystemTest s) in
    (* Initialize state machine *)
    let s := changeState STATE_WAITING_FOR_COIN s in
    let s := DEBUG_PRINTLN "=== System Ready ===" s in
    DEBUG_PRINTLN "Waiting for coins..." s.

(** The variables as the C++ initialisers leave them, at power-on. *)
Definition poweron : Machine :=
  {| currentState := STATE_INIT;
     previousState := STATE_INIT;
     stateStartTime := 0;
     trapdoorOpenTime := 0;
     flipperMoveTime := 0;
     processingCoin := false;
     currentPhotoStep := 0;
     currentImageFilename1 := "";
     currentImageFilename2 := "";
     lastError := STATUS_OK;
     errorCount := 0;
     lastErrorReport := 0;
     imageCounter := 0;
     sensorTriggered := false;
     lastSensorTrigger := 0;
     sensorTriggerCount := 0;
     sensorWindowStart := 0;
     sensorAttached := false;
     trapdoorServo := 0;
     flipperServo := 0;
     statusLED := LED_OFF;
     cameraLights := false;
     uptime := 0;
     serial := [] |}.

(** ** Runs of the machine *)

(** What happens to the machine, one event at a time: time passes, the
    optical gate sees a falling edge, or the main loop makes one pass. *)
Inductive Event : Type :=
  | Tick (ms : Z)
  | Edge
  | Poll (e : Env).

Definition step (s : Machine) (ev : Event) : Machine :=
  match ev with
  | Tick ms => delay ms s
  | Edge => if sensorAttached s then sensorInterrupt s else s
  | Poll e => loop e s
  end.

Definition run (evs : list Event) (s : Machine) : Machine :=
  fold_left step evs s.

(** ** Vocabulary of the properties *)

(** The age of the current state, as [loop] and the handlers compute it. *)
Definition timeInState (s : Machine) : Z :=
  ulong_sub (millis s) (stateStartTime s).

(** The age of the detection window: the time since its first edge. *)
Definition windowAge (s : Machine) : Z :=
  ulong_sub (millis s) (sensorWindowStart s).

(** The test on which [sensorInterrupt] counts an edge rather than
    dropping it as a bounce. *)
Definition pastDebounce (s : Machine) : Prop :=
  SENSOR_DEBOUNCE_TIME <= ulong_sub (millis s) (lastSensorTrigger s).

(** The test on which [handleError] prints a report. *)
Definition reportDue (s : Machine) : bool :=
  5000 <? ulong_sub (millis s) (lastErrorReport s).

(** The value of [errorCount] that [handleError] compares with 3. *)
Definition reportsAfter (s : Machine) : Z :=
  if reportDue s then to_int (errorCount s + 1) else errorCount s.

(** What [systemReset] leaves behind: trapdoor closed, flipper home, status
    LED and camera lights off, edge count and window start cleared. *)
Definition safeHardware (s : Machine) : Prop :=
  trapdoorServo s = TRAPDOOR_CLOSED /\
  flipperServo s = FLIPPER_HOME /\
  statusLED s = LED_OFF /\
  cameraLights s = false /\
  sensorTriggerCount s = 0 /\
  sensorWindowStart s = 0.

(** What entering [STATE_WAITING_FOR_COIN] establishes. *)
Definition recovered (s : Machine) : Prop :=
  lastError s = STATUS_OK /\
  sensorTriggerCount s = 0 /\
  processingCoin s = false.

(** A machine that is waiting for a coin is [recovered]: every function of
    the main loop keeps this true. *)
Definition funnel (s : Machine) : Prop :=
  currentState s = STATE_WAITING_FOR_COIN -> recovered s.

(** The tokens printed on the console between [s] and a later [s']. *)
Definition logged (s s' : Machine) : list SerialTok :=
  skipn (List.length (serial s)) (serial s').

(** A capture is attempted by this pass of [handlePhotographing]. *)
Definition captureAttempted (s : Machine) : Prop :=
  (currentPhotoStep s = 1 \/ currentPhotoStep s = 3) /\
  SERVO_MOVE_DELAY <= ulong_sub (millis s) (flipperMoveTime s).

(** *** Scenarios *)

(** The machine after a successful [setup]: waiting for a coin, 10 s after
    power-on. *)
Definition ready : Machine := setup (mkBootEnv true true) poweron.

(** The machine after a [setup] in which the camera failed to initialise. *)
Definition bootFailed : Machine := setup (mkBootEnv true false) poweron.

(** [n] quiet passes of the main loop, 10 ms apart. *)
Definition polls (n : nat) : list Event := repeat (Poll quiet) n.

(** A pass during which the camera returns no frame. *)
Definition cameraDown : Env := mkEnv FrameBufferFailed None [] 0.

(** Edges following one another, each [g] milliseconds after the one before. *)
Definition burst (gaps : list Z) : list Event :=
  flat_map (fun g => [Tick g; Edge]) gaps.

Definition total (gaps : list Z) : Z := fold_right Z.add 0 gaps.

(** *** The timeout of the main loop, as the specification words it *)

(** "Any state occupied for time >= RESET_TIMEOUT forces Error with
    TimeoutError, from every non-Init state." *)
Definition stated_timeout_forces_error (e : Env) (s : Machine) : Prop :=
  currentState s <> STATE_INIT ->
  RESET_TIMEOUT <= timeInState s ->
  currentState (loop e s) = STATE_ERROR /\
  lastError (loop e s) = STATUS_TIMEOUT_ERROR.

(** A coin is detected, and the loop then stalls for a little more than
    [RESET_TIMEOUT]. *)
Definition overdue : Machine :=
  run [Edge; Tick 3; Poll quiet; Tick 30001] ready.

(** The same, the stall ending exactly [RESET_TIMEOUT] after the state was
    entered. *)
Definition onTheDot : Machine :=
  run [Edge; Tick 3; Poll quiet; Tick 29990] ready.

(** Two more passes of the main loop after [overdue], 5 s apart. *)
Definition overdueTwice : Machine :=
  run [Poll quiet; Tick 5001; Poll quiet; Tick 5001] overdue.



(** *** The single/multiple decision, as the specification words it *)

(** "window age >= MULTI_COIN_TIMEOUT: if count >= threshold -> Rejecting
    (error=MultipleCoins), else -> Processing; Edge Detector reset on either
    branch", the window age being the time since the window's first edge. *)
Definition stated_window_decision (e : Env) (s : Machine) : Prop :=
  currentState s = STATE_COIN_DETECTED ->
  MULTI_COIN_TIMEOUT <= windowAge s ->
  (MULTI_COIN_THRESHOLD <= sensorTriggerCount s ->
   currentState (loop e s) = STATE_REJECTING /\
   lastError (loop e s) = STATUS_MULTIPLE_COINS /\
   sensorTriggerCount (loop e s) = 0) /\
  (sensorTriggerCount s = 1 ->
   currentState (loop e s) = STATE_PROCESSING /\
   sensorTriggerCount (loop e s) = 0).

(** Two coins 59 ms apart; the loop notices the first one 9 ms after its
    edge; the machine is looked at 1000 ms after that edge. *)
Definition lateNotice : Machine :=
  run [Edge; Tick 9; Poll quiet; Tick 40; Edge; Tick 941] ready.

(** *** A failed capture, as the specification words it *)


(** A single coin, accepted, with the flipper at the first position and the
    servo delay elapsed: the next pass takes the first photo. *)
Definition atFirstPhoto : Machine :=
  run [Edge; Tick 3; Poll quiet; Tick 1000; Poll quiet; Tick 500; Poll quiet;
       Poll quiet; Tick 500] ready.


(** A machine that is photographing is at the start of the photo sequence:
    every function of the main loop other than [handlePhotographing] keeps
    this true. *)
Definition atSequenceStart (s : Machine) : Prop :=
  currentState s = STATE_PHOTOGRAPHING -> currentPhotoStep s = 0.

(** *** The timeout of the photo sequence *)

(** The pass of [handlePhotographing] reaches its timeout test and takes the
    error path there: the photo step falls through to the test, which calls
    [handleError] with [STATUS_TIMEOUT_ERROR]. *)
Definition timeoutPathTaken (out : CaptureOutcome) (s : Machine) : Prop :=
  exists x : Machine,
    photoStep out (setStatusLED LED_BUSY s) = Next x /\
    handlePhotographing out s =
      handleError STATUS_TIMEOUT_ERROR
        (DEBUG_PRINTLN "ERROR: Photography sequence timeout" x).

(** "Whenever time in Photographing exceeds PROCESSING_TIMEOUT, the timeout
    error path is invoked with TimeoutError." *)
Definition stated_photo_timeout (out : CaptureOutcome) (s : Machine) : Prop :=
  currentState s = STATE_PHOTOGRAPHING ->
  PROCESSING_TIMEOUT < timeInState s ->
  timeoutPathTaken out s.

(** The camera has returned no frame for ten seconds: 87 passes of the
    loop, each one a failed attempt at the first photo. *)
Definition staleCapture : Machine :=
  run (repeat (Poll cameraDown) 87) atFirstPhoto.

(** The photo sequence complete but for its last step, the machine having
    been photographing for more than ten seconds. *)
Definition slowSequence : Machine :=
  run [Poll quiet; Tick 300; Poll quiet; Tick 500; Poll quiet; Tick 300;
       Poll quiet; Tick 9000] atFirstPhoto.

(** *** The worked example *)


(** The same with no second edge. *)
Definition oneEdge : Machine :=
  run ([Edge; Tick 3; Poll quiet; Tick 7] ++ polls 98) ready.


(** *** Debouncing, as the specification words it *)

(** "For all edges spaced less than the debounce interval apart, only the
    first is counted." *)
Definition stated_bounces_count_once (gaps : list Z) (s : Machine) : Prop :=
  Forall (fun g => 0 <= g < SENSOR_DEBOUNCE_TIME) gaps ->
  sensorTriggerCount (run (Edge :: burst gaps) s) = 1.

(** *** The transitions of the controller *)

(** The changes of state that one pass of the main loop can make: none, a
    return to [STATE_WAITING_FOR_COIN] from anywhere, or a step forward
    along the path of a coin. *)
Definition allowed (from to : CoinMachineState) : bool :=
  state_eqb from to ||
  match from, to with
  | _, STATE_WAITING_FOR_COIN => true
  | STATE_WAITING_FOR_COIN, STATE_COIN_DETECTED => true
  | STATE_COIN_DETECTED, STATE_PROCESSING => true
  | STATE_COIN_DETECTED, STATE_REJECTING => true
  | STATE_PROCESSING, STATE_PHOTOGRAPHING => true
  | STATE_PROCESSING, STATE_REJECTING => true
  | _, _ => false
  end.

(** The machine is in a state that a pass started in [from] may end in. *)
Definition reaches (from : CoinMachineState) (s : Machine) : Prop :=
  allowed from (currentState s) = true.

(** *** The idle machine *)


(** *** Who writes what *)

(** The variables that belong to the controller and to the devices: all of
    the machine but the four sensor variables and the console. *)
Definition controller (s : Machine) :=
  (currentState s, previousState s, stateStartTime s, trapdoorOpenTime s,
   flipperMoveTime s, processingCoin s, currentPhotoStep s,
   currentImageFilename1 s, currentImageFilename2 s, lastError s,
   errorCount s, lastErrorReport s, imageCounter s, sensorAttached s,
   trapdoorServo s, flipperServo s, statusLED s, cameraLights s, uptime s).

(** The detector of [x] is the detector of [s] but for resets: the count
    and the window start are those of [s] or 0, the triggered flag is that
    of [s] or cleared, the time of the last counted edge is that of [s],
    and the interrupt is attached in [x] as it is in [s]. *)
Definition onlyReset (s x : Machine) : Prop :=
  lastSensorTrigger x = lastSensorTrigger s /\
  (sensorTriggerCount x = sensorTriggerCount s \/ sensorTriggerCount x = 0) /\
  (sensorWindowStart x = sensorWindowStart s \/ sensorWindowStart x = 0) /\
  (sensorTriggered x = sensorTriggered s \/ sensorTriggered x = false) /\
  sensorAttached x = sensorAttached s.

(** *** The report counter *)

(** Between two passes of the loop fewer than three reports are pending. *)
Definition countInRange (s : Machine) : Prop := 0 <= errorCount s < 3.

(** The four variables of the edge detector. *)
Definition detector (s : Machine) :=
  (sensorTriggered s, lastSensorTrigger s, sensorTriggerCount s,
   sensorWindowStart s).

(** *** The flipper during the photo sequence *)

(** While a photo is awaited or has just been taken the flipper is at the
    side being photographed, and at the last step it is home. *)
Definition flipperInPlace (s : Machine) : Prop :=
  currentState s = STATE_PHOTOGRAPHING ->
  (currentPhotoStep s = 1 \/ currentPhotoStep s = 2 ->
   flipperServo s = FLIPPER_SIDE_1) /\
  (currentPhotoStep s = 3 \/ currentPhotoStep s = 4 ->
   flipperServo s = FLIPPER_SIDE_2) /\
  (currentPhotoStep s = 5 -> flipperServo s = FLIPPER_HOME).

(** [s'] has left the photo sequence for [STATE_WAITING_FOR_COIN], or is
    where [s] is in it. *)
Definition inert (s s' : Machine) : Prop :=
  currentState s' = STATE_WAITING_FOR_COIN \/
  (currentState s' = currentState s /\
   currentPhotoStep s' = currentPhotoStep s /\
   flipperServo s' = flipperServo s).


(** An event that does not run the self test of the console. *)
Definition noSelfTest (ev : Event) : Prop :=
  match ev with
  | Poll e => serialLine e <> Some "test"
  | _ => True
  end.


(** *** Image file names *)

(** The character [c] occurs in the string [t]. *)
Fixpoint occurs (c : Ascii.ascii) (t : string) : bool :=
  match t with
  | EmptyString => false
  | String x t => Ascii.eqb x c || occurs c t
  end.


(** *** The devices between two passes *)

(** The camera lights are off; the trapdoor is closed unless a coin is being
    rejected; the flipper is home unless a photo sequence is between its
    first and its last step. *)
Definition atRest (s : Machine) : Prop :=
  cameraLights s = false /\
  (currentState s <> STATE_REJECTING -> trapdoorServo s = TRAPDOOR_CLOSED) /\
  (currentState s <> STATE_PHOTOGRAPHING \/
   currentPhotoStep s = 0 \/ currentPhotoStep s = 5 ->
   flipperServo s = FLIPPER_HOME).


(** *** The schedule of the photo sequence *)

(** The time since the flipper was last moved or a photo last taken. *)
Definition waited (s : Machine) : Z :=
  ulong_sub (millis s) (flipperMoveTime s).

(** The delay that the photo step [k] waits out before it acts. *)
Definition stepDelay (k : Z) : Z :=
  match k with
  | 1 | 3 | 5 => SERVO_MOVE_DELAY
  | 2 | 4 => FLIPPER_PHOTO_DELAY
  | _ => 0
  end.


(** The photo steps that take a photo. *)
Definition shoots (k : Z) : bool := (k =? 1) || (k =? 3).

(** The file name built from a clock reading and a counter. *)
Definition imageName (t c : Z) : string :=
  ((((IMAGE_FILENAME_PREFIX ++ string_of_Z t) ++ "_") ++ string_of_Z c)
   ++ IMAGE_FILENAME_SUFFIX)%string.


(** *** A rejection about to end *)

(** Two coins 60 ms apart, rejected as multiple; a third edge arrives while
    the trapdoor is open; the machine is looked at 3120 ms after it entered
    [STATE_REJECTING].  The processing flag, which the firmware never sets,
    is set by hand. *)
Definition rejectedCoins : Machine :=
  set_processingCoin true
    (run ([Edge; Tick 3; Poll quiet; Tick 57; Edge] ++ polls 96
          ++ [Tick 100; Edge; Tick 3000]) ready).


(** *** What a report and a failed capture print *)




(** *** The debounce rule *)

(** The number of edges of a burst that are counted when an edge is dropped
    exactly if it arrives less than [SENSOR_DEBOUNCE_TIME] after the last
    counted edge; [since] is the time that has passed since that edge, and
    the gaps are the times between one edge and the next. *)
Fixpoint counted (since : Z) (gaps : list Z) : Z :=
  match gaps with
  | [] => 0
  | g :: rest =>
      if since + g <? SENSOR_DEBOUNCE_TIME then counted (since + g) rest
      else 1 + counted 0 rest
  end.


(** *** The worked example, for every phase of the loop *)





(** *** Recovery, as the specification words it *)



(** ** Reasoning tools *)

Arguments to_ulong : simpl never.
Arguments ulong_sub : simpl never.
Arguments to_int : simpl never.

(** Splits a conjunction into its parts, and nothing else. *)
Ltac split_ands :=
  repeat match goal with |- _ /\ _ => split end.

(** Settles an equation between closed terms by running both sides. *)
Ltac by_run :=
  lazymatch goal with
  | |- _ = _ => vm_compute; reflexivity
  end.

(** Names for the fields of a machine taken apart. *)
Ltac open_machine s :=
  destruct s as [cs ps sst tot fmt pc stp f1 f2 le ec ler ic trig lst cnt ws
                 att td fl led cam up ser].

(** Evaluation of the firmware's functions, leaving integer arithmetic,
    strings and the console alone. *)
Ltac reduce :=
  cbv -[to_ulong ulong_sub to_int Z.ltb Z.leb Z.eqb Z.add Z.sub Z.lt Z.le
        Z.modulo Z.pow String.eqb String.append String.prefix string_of_Z
        List.app List.length List.skipn logged].

Ltac reduce_in H :=
  cbv -[to_ulong ulong_sub to_int Z.ltb Z.leb Z.eqb Z.add Z.sub Z.lt Z.le
        Z.modulo Z.pow String.eqb String.append String.prefix string_of_Z
        List.app List.length List.skipn logged] in H.

Lemma leb_true (a b : Z) : a <= b -> (a <=? b) = true.
Proof. apply Z.leb_le. Qed.

Lemma ltb_true (a b : Z) : a < b -> (a <? b) = true.
Proof. apply Z.ltb_lt. Qed.

Lemma ltb_false (a b : Z) : b <= a -> (a <? b) = false.
Proof. apply Z.ltb_ge. Qed.

Lemma leb_false (a b : Z) : b < a -> (a <=? b) = false.
Proof. apply Z.leb_gt. Qed.

(** *** The 32-bit clock *)

Lemma to_ulong_range (z : Z) : 0 <= to_ulong z < ULONG_RANGE.
Proof. unfold to_ulong, ULONG_RANGE. apply Z.mod_pos_bound. lia. Qed.

Lemma to_ulong_small (z : Z) : 0 <= z < ULONG_RANGE -> to_ulong z = z.
Proof. unfold to_ulong. apply Z.mod_small. Qed.

Lemma ulong_sub_diag (a : Z) : ulong_sub a a = 0.
Proof. unfold ulong_sub, to_ulong. now rewrite Z.sub_diag. Qed.

(** Time that passes is added to every age, modulo the clock's range. *)
Lemma ulong_sub_later (a b d : Z) :
  ulong_sub (to_ulong (a + d)) b = to_ulong (ulong_sub a b + d).
Proof.
  unfold ulong_sub, to_ulong, ULONG_RANGE.
  rewrite Zminus_mod_idemp_l, Zplus_mod_idemp_l. f_equal. lia.
Qed.

Lemma ulong_sub_elapsed (a d : Z) :
  0 <= d < ULONG_RANGE -> ulong_sub (to_ulong (a + d)) a = d.
Proof.
  intros H. rewrite ulong_sub_later, ulong_sub_diag. now apply to_ulong_small.
Qed.

(** *** What [changeState] does *)

Lemma state_eqb_eq (a b : CoinMachineState) : state_eqb a b = true <-> a = b.
Proof. destruct a, b; simpl; split; congruence. Qed.

Lemma state_eqb_refl (a : CoinMachineState) : state_eqb a a = true.
Proof. now destruct a. Qed.

Lemma state_eqb_neq (a b : CoinMachineState) : a <> b -> state_eqb a b = false.
Proof. destruct a, b; simpl; congruence. Qed.

Lemma changeState_same (n : CoinMachineState) (s : Machine) :
  currentState s = n -> changeState n s = s.
Proof. intros <-. unfold changeState. now rewrite state_eqb_refl. Qed.

Lemma changeState_currentState (n : CoinMachineState) (s : Machine) :
  currentState (changeState n s) = n.
Proof.
  unfold changeState. destruct (state_eqb n (currentState s)) eqn:E; simpl.
  - symmetry. now apply state_eqb_eq.
  - now destruct (state_eqb n STATE_WAITING_FOR_COIN).
Qed.

(** ** The recovery funnel *)

Section Funnel.

Variable s : Machine.
Hypothesis F : funnel s.

Lemma funnel_emit (t : SerialTok) : funnel (emit t s).
Proof. exact F. Qed.

Lemma funnel_delay (ms : Z) : funnel (delay ms s).
Proof. exact F. Qed.

Lemma funnel_setStatusLED (c : RGBColor) : funnel (setStatusLED c s).
Proof. exact F. Qed.

Lemma funnel_setCameraLights (on : bool) : funnel (setCameraLights on s).
Proof. exact F. Qed.

Lemma funnel_setTrapdoorPosition (a : Z) : funnel (setTrapdoorPosition a s).
Proof. exact F. Qed.

Lemma funnel_setFlipperPosition (a : Z) : funnel (setFlipperPosition a s).
Proof. exact F. Qed.

Lemma funnel_set_trapdoorOpenTime (v : Z) : funnel (set_trapdoorOpenTime v s).
Proof. exact F. Qed.

Lemma funnel_set_flipperMoveTime (v : Z) : funnel (set_flipperMoveTime v s).
Proof. exact F. Qed.

Lemma funnel_set_currentPhotoStep (v : Z) : funnel (set_currentPhotoStep v s).
Proof. exact F. Qed.

Lemma funnel_set_imageCounter (v : Z) : funnel (set_imageCounter v s).
Proof. exact F. Qed.

Lemma funnel_set_currentImageFilename1 (v : string) :
  funnel (set_currentImageFilename1 v s).
Proof. exact F. Qed.

Lemma funnel_set_currentImageFilename2 (v : string) :
  funnel (set_currentImageFilename2 v s).
Proof. exact F. Qed.

Lemma funnel_set_errorCount (v : Z) : funnel (set_errorCount v s).
Proof. exact F. Qed.

Lemma funnel_set_lastErrorReport (v : Z) : funnel (set_lastErrorReport v s).
Proof. exact F. Qed.

Lemma funnel_set_trapdoorServo (v : Z) : funnel (set_trapdoorServo v s).
Proof. exact F. Qed.

Lemma funnel_set_flipperServo (v : Z) : funnel (set_flipperServo v s).
Proof. exact F. Qed.

Lemma funnel_set_sensorAttached (v : bool) : funnel (set_sensorAttached v s).
Proof. exact F. Qed.

Lemma funnel_clearSensorTrigger : funnel (clearSensorTrigger s).
Proof. exact F. Qed.

Lemma funnel_resetSensorCount : funnel (resetSensorCount s).
Proof. intros H. destruct (F H) as (? & ? & ?). now repeat split. Qed.

Lemma funnel_systemReset : funnel (systemReset s).
Proof. intros H. destruct (F H) as (? & ? & ?). now repeat split. Qed.

Lemma funnel_performSystemTest : funnel (snd (performSystemTest s)).
Proof. exact F. Qed.

Lemma funnel_changeState (n : CoinMachineState) : funnel (changeState n s).
Proof.
  unfold changeState.
  destruct (state_eqb n (currentState s)) eqn:E; simpl; [exact F|].
  destruct (state_eqb n STATE_WAITING_FOR_COIN) eqn:W.
  - intros _. now repeat split.
  - intros H. simpl in H. subst n. discriminate W.
Qed.

End Funnel.

(** Away from [STATE_WAITING_FOR_COIN] the funnel asks for nothing. *)
Lemma funnel_elsewhere (s : Machine) :
  currentState s <> STATE_WAITING_FOR_COIN -> funnel s.
Proof. intros H E. now elim H. Qed.

Lemma funnel_set_lastError (e : StatusCode) (n : CoinMachineState) (s : Machine) :
  n <> STATE_WAITING_FOR_COIN -> funnel (set_lastError e (changeState n s)).
Proof.
  intros H. apply funnel_elsewhere.
  change (currentState (changeState n s) <> STATE_WAITING_FOR_COIN).
  now rewrite changeState_currentState.
Qed.

(** One step of a proof that a handler keeps the funnel: a case analysis on
    the next test, or one of the lemmas above. *)
Ltac case_innermost :=
  match goal with
  | |- context [match ?c with _ => _ end] =>
      lazymatch c with
      | context [match _ with _ => _ end] => fail
      | _ => destruct c eqn:?
      end
  end.

Ltac funnel_step :=
  lazymatch goal with
  | H : funnel ?s |- funnel ?s => exact H
  | |- funnel (set_lastError _ (changeState _ _)) =>
      apply funnel_set_lastError; discriminate
  | |- funnel (changeState _ _) => apply funnel_changeState
  | |- funnel (resetSensorCount _) => apply funnel_resetSensorCount
  | |- funnel (systemReset _) => apply funnel_systemReset
  | |- funnel (emit _ _) => apply funnel_emit
  | |- funnel (DEBUG_PRINT _ _) => apply funnel_emit
  | |- funnel (DEBUG_PRINTLN _ _) => apply funnel_emit
  | |- funnel (DEBUG_PRINT_NUM _ _) => apply funnel_emit
  | |- funnel (DEBUG_PRINTLN_NUM _ _) => apply funnel_emit
  | |- funnel (delay _ _) => apply funnel_delay
  | |- funnel (setStatusLED _ _) => apply funnel_setStatusLED
  | |- funnel (setCameraLights _ _) => apply funnel_setCameraLights
  | |- funnel (setTrapdoorPosition _ _) => apply funnel_setTrapdoorPosition
  | |- funnel (openTrapdoor _) => apply funnel_setTrapdoorPosition
  | |- funnel (closeTrapdoor _) => apply funnel_setTrapdoorPosition
  | |- funnel (setFlipperPosition _ _) => apply funnel_setFlipperPosition
  | |- funnel (moveFlipperHome _) => apply funnel_setFlipperPosition
  | |- funnel (moveFlipperToSide1 _) => apply funnel_setFlipperPosition
  | |- funnel (moveFlipperToSide2 _) => apply funnel_setFlipperPosition
  | |- funnel (set_trapdoorOpenTime _ _) => apply funnel_set_trapdoorOpenTime
  | |- funnel (set_flipperMoveTime _ _) => apply funnel_set_flipperMoveTime
  | |- funnel (set_currentPhotoStep _ _) => apply funnel_set_currentPhotoStep
  | |- funnel (set_imageCounter _ _) => apply funnel_set_imageCounter
  | |- funnel (set_currentImageFilename1 _ _) =>
      apply funnel_set_currentImageFilename1
  | |- funnel (set_currentImageFilename2 _ _) =>
      apply funnel_set_currentImageFilename2
  | |- funnel (set_errorCount _ _) => apply funnel_set_errorCount
  | |- funnel (set_lastErrorReport _ _) => apply funnel_set_lastErrorReport
  | |- funnel (set_trapdoorServo _ _) => apply funnel_set_trapdoorServo
  | |- funnel (set_flipperServo _ _) => apply funnel_set_flipperServo
  | |- funnel (set_sensorAttached _ _) => apply funnel_set_sensorAttached
  | |- funnel (clearSensorTrigger _) => apply funnel_clearSensorTrigger
  | |- funnel (snd (performSystemTest _)) => apply funnel_performSystemTest
  end.

Ltac funnel_cases :=
  cbv beta iota zeta; repeat (case_innermost; cbv beta iota zeta).

Lemma funnel_handleError (e : StatusCode) (s : Machine) :
  funnel s -> funnel (handleError e s).
Proof.
  intros F. unfold handleError. funnel_cases; repeat funnel_step.
Qed.

Lemma funnel_handleWaitingForCoin (s : Machine) :
  funnel s -> funnel (handleWaitingForCoin s).
Proof.
  intros F. unfold handleWaitingForCoin. funnel_cases; repeat funnel_step.
Qed.

Lemma funnel_handleCoinDetected (s : Machine) :
  funnel s -> funnel (handleCoinDetected s).
Proof.
  intros F. unfold handleCoinDetected, isMultipleCoinDetected.
  funnel_cases; repeat funnel_step.
Qed.

Lemma funnel_handleProcessing (s : Machine) :
  funnel s -> funnel (handleProcessing s).
Proof.
  intros F. unfold handleProcessing. funnel_cases; repeat funnel_step.
Qed.

Lemma funnel_handleRejecting (s : Machine) :
  funnel s -> funnel (handleRejecting s).
Proof.
  intros F. unfold handleRejecting. funnel_cases; repeat funnel_step.
Qed.

Lemma funnel_handlePhotographing (out : CaptureOutcome) (s : Machine) :
  funnel s -> funnel (handlePhotographing out s).
Proof.
  intros F.
  unfold handlePhotographing, photoStep, generateImageFilename,
    captureAndSaveImage.
  funnel_cases;
    repeat first [apply funnel_handleError | funnel_step].
Qed.

Lemma funnel_listPhotos (dir : list (string * Z)) (s : Machine) :
  funnel s -> funnel (listPhotos dir s).
Proof.
  revert s. induction dir as [|[name size] rest IH]; intros s F; simpl.
  - exact F.
  - apply IH. destruct (String.prefix _ _); repeat funnel_step.
Qed.

Lemma funnel_processSerialCommands (e : Env) (s : Machine) :
  funnel s -> funnel (processSerialCommands e s).
Proof.
  intros F. unfold processSerialCommands, printSystemStatus.
  destruct (serialLine e) as [command|]; [|exact F].
  destruct (command =? "status")%string; [cbv zeta; repeat funnel_step|].
  destruct (command =? "test")%string; [repeat funnel_step|].
  destruct (command =? "reset")%string; [cbv zeta; repeat funnel_step|].
  destruct (command =? "photos")%string; cbv zeta.
  - apply funnel_emit, funnel_listPhotos. repeat funnel_step.
  - repeat funnel_step.
Qed.

Lemma funnel_loop (e : Env) (s : Machine) : funnel s -> funnel (loop e s).
Proof.
  intros F. unfold loop. cbv zeta.
  destruct (RESET_TIMEOUT <? _).
  - apply funnel_handleError. repeat funnel_step.
  - apply funnel_delay, funnel_processSerialCommands.
    destruct (currentState s) eqn:E.
    + apply funnel_changeState, F.
    + now apply funnel_handleWaitingForCoin.
    + now apply funnel_handleCoinDetected.
    + now apply funnel_handleProcessing.
    + now apply funnel_handlePhotographing.
    + now apply funnel_handleRejecting.
    + now apply funnel_handleError.
Qed.

Lemma funnel_setup (e : BootEnv) (s : Machine) : funnel s -> funnel (setup e s).
Proof.
  intros F.
  unfold setup, initializeStorage, initializeCamera, initializeServos,
    initializeLEDs, initializeSensor.
  destruct (storageBegins e), (cameraInits e);
    cbv beta iota zeta delta [negb];
    try (apply funnel_elsewhere; discriminate).
  repeat funnel_step.
Qed.
Lemma loop_quiet (e : Env) (s : Machine) :
  serialLine e = None -> timeInState s <= RESET_TIMEOUT ->
  loop e s =
  delay 10
    match currentState s with
    | STATE_INIT => changeState STATE_WAITING_FOR_COIN s
    | STATE_WAITING_FOR_COIN => handleWaitingForCoin s
    | STATE_COIN_DETECTED => handleCoinDetected s
    | STATE_PROCESSING => handleProcessing s
    | STATE_PHOTOGRAPHING => handlePhotographing (capture e) s
    | STATE_REJECTING => handleRejecting s
    | STATE_ERROR => handleError (lastError s) s
    end.
Proof.
  intros Hq Ht. unfold loop, processSerialCommands. rewrite Hq.
  change (ulong_sub (millis s) (stateStartTime s)) with (timeInState s).
  now rewrite (ltb_false _ _ Ht).
Qed.

Lemma loop_timed_out (e : Env) (s : Machine) :
  RESET_TIMEOUT < timeInState s ->
  loop e s =
  handleError STATUS_TIMEOUT_ERROR
    (DEBUG_PRINTLN "WARNING: State timeout, performing reset" s).
Proof.
  intros Ht. unfold loop.
  change (ulong_sub (millis s) (stateStartTime s)) with (timeInState s).
  now rewrite (ltb_true _ _ Ht).
Qed.

Lemma currentState_sensorInterrupt (s : Machine) :
  currentState (sensorInterrupt s) = currentState s.
Proof.
  open_machine s. reduce. repeat (case_innermost; reduce); reflexivity.
Qed.

(** C7. Every transition into [STATE_WAITING_FOR_COIN], whatever the state
    it leaves, clears the active error ([lastError] is [STATUS_OK]), resets
    the edge count to 0 and clears the processing flag: this holds for
    [changeState] itself, for every event of a run (a pass of [loop], an
    edge, time passing) and for [setup]. *)
Theorem entering_waiting_recovers (ev : Event) (e : BootEnv) (s : Machine) :
  currentState s <> STATE_WAITING_FOR_COIN ->
  (currentState (changeState STATE_WAITING_FOR_COIN s) = STATE_WAITING_FOR_COIN /\
   recovered (changeState STATE_WAITING_FOR_COIN s)) /\
  (currentState (step s ev) = STATE_WAITING_FOR_COIN -> recovered (step s ev)) /\
  (currentState (setup e s) = STATE_WAITING_FOR_COIN -> recovered (setup e s)).
Proof.
  intros H. pose proof (funnel_elsewhere s H) as F.
  split; [split|split].
  - apply changeState_currentState.
  - apply (funnel_changeState s F), changeState_currentState.
  - destruct ev as [ms| |env]; simpl; intros E.
    + now elim H.
    + destruct (sensorAttached s); [rewrite currentState_sensorInterrupt in E|];
        now elim H.
    + now apply (funnel_loop env s F).
  - apply (funnel_setup e s F).
Qed.

Lemma entering_waiting_recovers_witness :
  (currentState rejectedCoins = STATE_REJECTING /\
   lastError rejectedCoins = STATUS_MULTIPLE_COINS /\
   sensorTriggerCount rejectedCoins = 1 /\
   processingCoin rejectedCoins = true) /\
  recovered (changeState STATE_WAITING_FOR_COIN rejectedCoins) /\
  (currentState (step rejectedCoins (Poll quiet)) = STATE_WAITING_FOR_COIN /\
   recovered (step rejectedCoins (Poll quiet))) /\
  recovered (setup (mkBootEnv true true) rejectedCoins).
Proof.
  assert (N : currentState rejectedCoins <> STATE_WAITING_FOR_COIN)
    by (vm_compute; discriminate).
  assert (P : currentState (step rejectedCoins (Poll quiet))
              = STATE_WAITING_FOR_COIN) by (vm_compute; reflexivity).
  assert (S : currentState (setup (mkBootEnv true true) rejectedCoins)
              = STATE_WAITING_FOR_COIN) by (vm_compute; reflexivity).
  destruct (entering_waiting_recovers (Poll quiet) (mkBootEnv true true)
              rejectedCoins N) as ((_ & A) & B & C).
  split; [split_ands; vm_compute; reflexivity|].
  split; [exact A|]. split; [split; [exact P | exact (B P)]|].
  exact (C S).
Defined.


(** C9. [resetSensorCount] clears the edge count and the window start and
    leaves the triggered flag as it was.  So when an edge has latched the
    flag before the machine enters [STATE_WAITING_FOR_COIN], the flag is
    still set after the entry, and the next pass of the main loop, with no
    new edge in between, moves the machine to [STATE_COIN_DETECTED]. *)
Theorem reset_keeps_latched_trigger (e : Env) (d : Z) (s : Machine) :
  sensorTriggerCount (resetSensorCount s) = 0 /\
  sensorWindowStart (resetSensorCount s) = 0 /\
  sensorTriggered (resetSensorCount s) = sensorTriggered s /\
  (sensorTriggered s = true ->
   currentState s <> STATE_WAITING_FOR_COIN ->
   serialLine e = None ->
   0 <= d <= RESET_TIMEOUT ->
   let w := changeState STATE_WAITING_FOR_COIN s in
   let s' := run [Tick d; Poll e] w in
   sensorTriggered w = true /\
   sensorTriggerCount w = 0 /\
   currentState s' = STATE_COIN_DETECTED /\
   sensorTriggerCount s' = 0).
Proof.
  split; [reflexivity|]. split; [reflexivity|]. split; [reflexivity|].
  intros Hf Hs Hq Hd w s'. subst w s'.
  unfold run; simpl fold_left; unfold step.
  rewrite loop_quiet;
    [ | assumption
      | unfold timeInState, changeState; rewrite state_eqb_neq by congruence;
        open_machine s; reduce; rewrite ulong_sub_elapsed;
        unfold ULONG_RANGE, RESET_TIMEOUT in *; lia ].
  unfold changeState; rewrite state_eqb_neq by congruence.
  open_machine s. cbn [sensorTriggered] in Hf. subst trig.
  reduce. auto.
Qed.

Lemma reset_keeps_latched_trigger_witness :
  let s := run [Edge; Tick 3; Poll quiet; Tick 50; Edge; Tick 1000; Poll quiet;
                Tick 2990] ready in
  let w := changeState STATE_WAITING_FOR_COIN s in
  let s' := run [Tick 10; Poll quiet] w in
  currentState s = STATE_REJECTING /\
  sensorTriggered w = true /\
  sensorTriggerCount w = 0 /\
  currentState s' = STATE_COIN_DETECTED /\
  sensorTriggerCount s' = 0.
Proof.
  intros s w s'. split; [vm_compute; reflexivity|].
  apply (proj2 (proj2 (proj2 (reset_keeps_latched_trigger quiet 10 s)))).
  - vm_compute. reflexivity.
  - vm_compute. discriminate.
  - reflexivity.
  - unfold RESET_TIMEOUT. lia.
Defined.
Lemma sensorInterrupt_counted (s : Machine) :
  pastDebounce s ->
  sensorInterrupt s =
  DEBUG_PRINTLN_NUM (to_int (sensorTriggerCount s + 1))
    (DEBUG_PRINT "Sensor triggered, count: "
       (set_sensorTriggered true
          (set_sensorTriggerCount (to_int (sensorTriggerCount s + 1))
             ((if sensorTriggerCount s =? 0
               then set_sensorWindowStart (millis s) else fun m => m)
                (set_lastSensorTrigger (millis s) s))))).
Proof.
  unfold pastDebounce, sensorInterrupt. intros H.
  rewrite (ltb_false _ _ H). cbv zeta.
  open_machine s. reduce. now destruct (cnt =? 0).
Qed.

Lemma sensorInterrupt_bounce (s : Machine) :
  ~ pastDebounce s -> sensorInterrupt s = s.
Proof.
  unfold pastDebounce, sensorInterrupt. intros H.
  rewrite ltb_true by lia. reflexivity.
Qed.

Lemma sensorTriggered_sensorInterrupt (s : Machine) :
  pastDebounce s \/ sensorTriggered s = true ->
  sensorTriggered (sensorInterrupt s) = true.
Proof.
  intros [H|H].
  - rewrite (sensorInterrupt_counted s H). reflexivity.
  - unfold sensorInterrupt. cbv zeta. destruct (_ <? _); [exact H|].
    reflexivity.
Qed.

(** C6. An edge that the detector registers while the machine is in
    [STATE_PROCESSING], whatever the edge count and the window start are at
    that moment, makes the next pass of the main loop move the machine to
    [STATE_REJECTING] with [STATUS_COIN_DURING_PROCESSING], and resets the
    detector (count, window start and triggered flag). The edge is registered
    when it is not a bounce, or when the flag is set already. *)
Theorem edge_during_processing (e : Env) (d : Z) (s : Machine) :
  currentState s = STATE_PROCESSING ->
  sensorAttached s = true ->
  pastDebounce s \/ sensorTriggered s = true ->
  serialLine e = None ->
  timeInState (run [Edge; Tick d] s) <= RESET_TIMEOUT ->
  let s' := run [Edge; Tick d; Poll e] s in
  currentState s' = STATE_REJECTING /\
  lastError s' = STATUS_COIN_DURING_PROCESSING /\
  sensorTriggerCount s' = 0 /\
  sensorWindowStart s' = 0 /\
  sensorTriggered s' = false.
Proof.
  intros Hs Ha Hd Hq Ht s'. subst s'.
  unfold run in *. simpl fold_left in *. unfold step in *.
  rewrite Ha in *.
  pose proof (sensorTriggered_sensorInterrupt s Hd) as Hf.
  pose proof (currentState_sensorInterrupt s) as Hc. rewrite Hs in Hc.
  rewrite (loop_quiet e _ Hq Ht).
  change (currentState (delay d (sensorInterrupt s)))
    with (currentState (sensorInterrupt s)).
  rewrite Hc. cbv iota.
  destruct (sensorInterrupt s) as [cs ps sst tot fmt pc stp f1 f2 le ec ler ic
    trig lst cnt ws att td fl led cam up ser].
  simpl in Hf, Hc. subst cs trig. reduce. auto 10.
Qed.

Lemma edge_during_processing_witness :
  let s := run [Edge; Tick 3; Poll quiet; Tick 1000; Poll quiet; Tick 100] ready in
  let s' := run [Edge; Tick 5; Poll quiet] s in
  currentState s = STATE_PROCESSING /\
  sensorTriggerCount s = 0 /\
  currentState s' = STATE_REJECTING /\
  lastError s' = STATUS_COIN_DURING_PROCESSING /\
  sensorTriggerCount s' = 0 /\
  sensorWindowStart s' = 0 /\
  sensorTriggered s' = false.
Proof.
  intros s s'. split; [vm_compute; reflexivity|]. split; [vm_compute; reflexivity|].
  apply (edge_during_processing quiet 5 s).
  - vm_compute. reflexivity.
  - vm_compute. reflexivity.
  - left. vm_compute. discriminate.
  - vm_compute. reflexivity.
  - vm_compute. discriminate.
Defined.
(** ** Running a handler along one path *)

(** Projection of a field out of a chain of assignments, the machine itself
    staying abstract. *)
Ltac fields :=
  cbn [ currentState previousState stateStartTime trapdoorOpenTime
      flipperMoveTime processingCoin currentPhotoStep currentImageFilename1
      currentImageFilename2 lastError errorCount lastErrorReport
      imageCounter sensorTriggered lastSensorTrigger sensorTriggerCount
      sensorWindowStart sensorAttached trapdoorServo flipperServo statusLED
      cameraLights uptime serial set_currentState set_previousState
      set_stateStartTime set_trapdoorOpenTime set_flipperMoveTime
      set_processingCoin set_currentPhotoStep set_currentImageFilename1
      set_currentImageFilename2 set_lastError set_errorCount
      set_lastErrorReport set_imageCounter set_sensorTriggered
      set_lastSensorTrigger set_sensorTriggerCount set_sensorWindowStart
      set_sensorAttached set_trapdoorServo set_flipperServo set_statusLED
      set_cameraLights set_uptime set_serial emit DEBUG_PRINT DEBUG_PRINTLN
      DEBUG_PRINT_NUM DEBUG_PRINTLN_NUM setStatusLED setCameraLights delay
      millis isSensorTriggered clearSensorTrigger resetSensorCount
      getSensorTriggerCount setTrapdoorPosition setFlipperPosition
      openTrapdoor closeTrapdoor moveFlipperHome moveFlipperToSide1
      moveFlipperToSide2 systemReset state_eqb negb andb fst snd].

Ltac fields_in H :=
  cbn [ currentState previousState stateStartTime trapdoorOpenTime
      flipperMoveTime processingCoin currentPhotoStep currentImageFilename1
      currentImageFilename2 lastError errorCount lastErrorReport
      imageCounter sensorTriggered lastSensorTrigger sensorTriggerCount
      sensorWindowStart sensorAttached trapdoorServo flipperServo statusLED
      cameraLights uptime serial set_currentState set_previousState
      set_stateStartTime set_trapdoorOpenTime set_flipperMoveTime
      set_processingCoin set_currentPhotoStep set_currentImageFilename1
      set_currentImageFilename2 set_lastError set_errorCount
      set_lastErrorReport set_imageCounter set_sensorTriggered
      set_lastSensorTrigger set_sensorTriggerCount set_sensorWindowStart
      set_sensorAttached set_trapdoorServo set_flipperServo set_statusLED
      set_cameraLights set_uptime set_serial emit DEBUG_PRINT DEBUG_PRINTLN
      DEBUG_PRINT_NUM DEBUG_PRINTLN_NUM setStatusLED setCameraLights delay
      millis isSensorTriggered clearSensorTrigger resetSensorCount
      getSensorTriggerCount setTrapdoorPosition setFlipperPosition
      openTrapdoor closeTrapdoor moveFlipperHome moveFlipperToSide1
      moveFlipperToSide2 systemReset state_eqb negb andb fst snd] in H.
(** Proof of the outcome of one test of the firmware from the hypotheses
    at hand. *)
Ltac side :=
  fields;
  first
    [ assumption
    | reflexivity
    | apply Z.leb_le; first [assumption | lia]
    | apply Z.ltb_lt; first [assumption | lia]
    | apply Z.leb_gt; first [assumption | lia]
    | apply Z.ltb_ge; first [assumption | lia]
    | apply Z.eqb_eq; first [assumption | lia]
    | apply Z.eqb_neq; first [assumption | lia]
    | match goal with H : currentState _ = _ |- _ => rewrite H; reflexivity end
    | apply andb_true_iff; split; side
    | apply andb_false_iff; first [left; side | right; side] ].

(** Replaces the innermost test of the goal by its outcome. *)
Ltac settle_test :=
  match goal with
  | |- context [match ?c with _ => _ end] =>
      lazymatch c with
      | context [match _ with _ => _ end] => fail
      | _ => idtac
      end;
      let E := fresh "E" in
      first
        [ assert (E : c = true) by side
        | assert (E : c = false) by side
        | match goal with
          | H : currentPhotoStep _ = ?v |- _ =>
              assert (E : c = v) by (fields; exact H)
          end ];
      rewrite E; clear E; cbv beta iota
  end.



(** ** The error handler *)

(** [handleError] below the recovery threshold: the report, if one is due,
    and nothing else. *)
Lemma handleError_below (e : StatusCode) (s : Machine) :
  reportsAfter s < 3 ->
  handleError e s =
  if reportDue s then
    set_errorCount (to_int (errorCount s + 1))
      (set_lastErrorReport (millis s)
         (DEBUG_PRINTLN (errorText e)
            (DEBUG_PRINT "ERROR STATE: " (setStatusLED LED_ERROR s))))
  else setStatusLED LED_ERROR s.
Proof.
  unfold reportsAfter, reportDue, handleError. intros H. cbv zeta.
  change (millis (setStatusLED LED_ERROR s)) with (millis s).
  change (lastErrorReport (setStatusLED LED_ERROR s)) with (lastErrorReport s).
  destruct (5000 <? ulong_sub (millis s) (lastErrorReport s)).
  - change (errorCount (set_errorCount ?v ?m)) with v.
    change (errorCount (set_lastErrorReport ?v ?m)) with (errorCount m).
    change (errorCount (DEBUG_PRINTLN ?v ?m)) with (errorCount m).
    change (errorCount (DEBUG_PRINT ?v ?m)) with (errorCount m).
    change (errorCount (setStatusLED LED_ERROR s)) with (errorCount s).
    now rewrite leb_false by lia.
  - change (errorCount (setStatusLED LED_ERROR s)) with (errorCount s).
    now rewrite leb_false by lia.
Qed.

(** [handleError] at the recovery threshold: the report, if one is due, then
    [systemReset] and the return to [STATE_WAITING_FOR_COIN]. *)
Lemma handleError_recovery (e : StatusCode) (s : Machine) :
  3 <= reportsAfter s ->
  handleError e s =
  changeState STATE_WAITING_FOR_COIN
    (set_errorCount 0
       (systemReset
          (DEBUG_PRINTLN "Attempting system recovery..."
             (if reportDue s then
                set_errorCount (to_int (errorCount s + 1))
                  (set_lastErrorReport (millis s)
                     (DEBUG_PRINTLN (errorText e)
                        (DEBUG_PRINT "ERROR STATE: "
                           (setStatusLED LED_ERROR s))))
              else setStatusLED LED_ERROR s)))).
Proof.
  unfold reportsAfter, reportDue, handleError. intros H. cbv zeta.
  change (millis (setStatusLED LED_ERROR s)) with (millis s).
  change (lastErrorReport (setStatusLED LED_ERROR s)) with (lastErrorReport s).
  destruct (5000 <? ulong_sub (millis s) (lastErrorReport s)).
  - change (errorCount (set_errorCount ?v ?m)) with v.
    change (errorCount (set_lastErrorReport ?v ?m)) with (errorCount m).
    change (errorCount (DEBUG_PRINTLN ?v ?m)) with (errorCount m).
    change (errorCount (DEBUG_PRINT ?v ?m)) with (errorCount m).
    change (errorCount (setStatusLED LED_ERROR s)) with (errorCount s).
    now rewrite leb_true by lia.
  - change (errorCount (setStatusLED LED_ERROR s)) with (errorCount s).
    now rewrite leb_true by lia.
Qed.

(** What a call of [handleError] changes. Below three reports the machine
    keeps its state, its error code and its place in the photo sequence; at
    three it is reset and waits for a coin. *)
Lemma handleError_effect (e : StatusCode) (s : Machine) :
  (reportsAfter s < 3 ->
   currentState (handleError e s) = currentState s /\
   lastError (handleError e s) = lastError s /\
   currentPhotoStep (handleError e s) = currentPhotoStep s /\
   stateStartTime (handleError e s) = stateStartTime s /\
   uptime (handleError e s) = uptime s /\
   errorCount (handleError e s) = reportsAfter s /\
   lastErrorReport (handleError e s) =
     if reportDue s then millis s else lastErrorReport s) /\
  (3 <= reportsAfter s ->
   currentState (handleError e s) = STATE_WAITING_FOR_COIN /\
   errorCount (handleError e s) = 0 /\
   safeHardware (handleError e s) /\
   uptime (handleError e s) = to_ulong (uptime s + 1000) /\
   (currentState s <> STATE_WAITING_FOR_COIN ->
    recovered (handleError e s) /\
    stateStartTime (handleError e s) = to_ulong (uptime s + 1000)) /\
   (currentState s = STATE_WAITING_FOR_COIN ->
    lastError (handleError e s) = lastError s /\
    stateStartTime (handleError e s) = stateStartTime s)).
Proof.
  split; intros H.
  - rewrite (handleError_below e s H). unfold reportsAfter.
    destruct (reportDue s); repeat split; reflexivity.
  - rewrite (handleError_recovery e s H).
    split; [apply changeState_currentState|].
    unfold changeState, safeHardware, recovered.
    destruct (reportDue s); fields;
      destruct (currentState s); fields;
      repeat split; try reflexivity; intros; congruence.
Qed.
(** ** The timeout of the main loop *)

(** Counterexample to C1 as stated. Exactly [RESET_TIMEOUT] after a state
    was entered the loop still dispatches to the state's handler (here the
    coin moves on to [STATE_PROCESSING]); later than that it calls the error
    handler, and the machine is left in the state it was in, with
    [lastError] untouched: it is not in [STATE_ERROR] and the error code is
    not [STATUS_TIMEOUT_ERROR]. *)
Lemma timeout_does_not_force_error :
  (currentState onTheDot = STATE_COIN_DETECTED /\
   timeInState onTheDot = RESET_TIMEOUT /\
   currentState (loop quiet onTheDot) = STATE_PROCESSING /\
   lastError (loop quiet onTheDot) = STATUS_OK /\
   ~ stated_timeout_forces_error quiet onTheDot) /\
  (currentState overdue = STATE_COIN_DETECTED /\
   timeInState overdue = RESET_TIMEOUT + 11 /\
   currentState (loop quiet overdue) = STATE_COIN_DETECTED /\
   lastError (loop quiet overdue) = STATUS_OK /\
   ~ stated_timeout_forces_error quiet overdue).
Proof.
  split_ands; try by_run.
  - intros H. destruct H as [H _]; [discriminate | vm_compute; discriminate |].
    vm_compute in H. discriminate H.
  - intros H. destruct H as [H _]; [discriminate | vm_compute; discriminate |].
    vm_compute in H. discriminate H.
Qed.

(** ** The console log *)

Lemma skipn_length_app {A : Type} (l r : list A) :
  skipn (List.length l) (l ++ r) = r.
Proof. induction l as [|x l IH]; simpl; auto. Qed.

Lemma skipn_length_self {A : Type} (l : list A) :
  skipn (List.length l) l = [].
Proof. induction l as [|x l IH]; simpl; auto. Qed.

(** Computes [logged s s'] once both consoles are known as extensions of
    the same list. *)
Ltac read_log :=
  unfold logged; fields;
  rewrite <- ?app_assoc;
  first [rewrite skipn_length_app | rewrite skipn_length_self];
  cbn [List.app].


(** ** The error state *)

Lemma to_int_small (z : Z) : - 2 ^ 31 <= z < 2 ^ 31 -> to_int z = z.
Proof.
  intros H. unfold to_int, ULONG_RANGE. rewrite Z.mod_small; lia.
Qed.


Lemma run_app (evs evs' : list Event) (s : Machine) :
  run (evs ++ evs') s = run evs' (run evs s).
Proof. unfold run. apply fold_left_app. Qed.

(** [handleError] only adds to the console, and what it adds is not the
    timeout message of the photo sequence. *)
Lemma handleError_log (e : StatusCode) (s : Machine) :
  exists l : list SerialTok,
    serial (handleError e s) = serial s ++ l /\
    ~ In (Println "ERROR: Photography sequence timeout") l.
Proof.
  unfold handleError, systemReset, changeState. cbv zeta.
  repeat (case_innermost; cbv beta iota); try discriminate;
    (first
       [ eexists; split; [fields; rewrite <- ?app_assoc; reflexivity|]
       | exists []; split; [symmetry; apply app_nil_r|] ]);
    destruct e; simpl; intuition discriminate.
Qed.

(** [handleError] only adds to the console. *)
Lemma handleError_appends (e : StatusCode) (s : Machine) :
  exists l : list SerialTok, serial (handleError e s) = serial s ++ l.
Proof.
  unfold handleError. open_machine s. reduce.
  destruct (5000 <? ulong_sub up ler); reduce;
    (destruct (3 <=? _); reduce; [destruct cs; reduce|]);
    rewrite <- ?app_assoc;
    first [eexists; reflexivity | exists []; symmetry; apply app_nil_r].
Qed.


(** ** The single/multiple decision *)

(** Counterexample to C3 as stated. The window is 1000 ms old and holds two
    edges, but the state is only 991 ms old: the pass of the loop decides
    nothing, the machine stays in [STATE_COIN_DETECTED] and the count is not
    reset. *)
Lemma window_age_does_not_decide :
  currentState lateNotice = STATE_COIN_DETECTED /\
  windowAge lateNotice = MULTI_COIN_TIMEOUT /\
  timeInState lateNotice = 991 /\
  sensorTriggerCount lateNotice = 2 /\
  currentState (loop quiet lateNotice) = STATE_COIN_DETECTED /\
  sensorTriggerCount (loop quiet lateNotice) = 2 /\
  ~ stated_window_decision quiet lateNotice.
Proof.
  split_ands; try by_run.
  intros H. destruct H as [H _];
    [vm_compute; reflexivity | vm_compute; discriminate |].
  destruct H as [H _]; [vm_compute; discriminate|].
  vm_compute in H. discriminate H.
Qed.

(** C3, amended. In [STATE_COIN_DETECTED] the decision is taken by the first
    pass of the loop that finds the state itself (not the window) at least
    [MULTI_COIN_TIMEOUT] old; before that the pass changes neither the state
    nor the count. At the decision, a count of at least
    [MULTI_COIN_THRESHOLD] in a window strictly older than
    [MULTI_COIN_TIMEOUT] gives [STATE_REJECTING] with
    [STATUS_MULTIPLE_COINS]; a count below the threshold gives
    [STATE_PROCESSING]; on either branch the edge count and the window start
    are reset. *)
Theorem window_decision (e : Env) (s : Machine) :
  currentState s = STATE_COIN_DETECTED ->
  serialLine e = None ->
  timeInState s <= RESET_TIMEOUT ->
  (timeInState s < MULTI_COIN_TIMEOUT ->
   currentState (loop e s) = STATE_COIN_DETECTED /\
   sensorTriggerCount (loop e s) = sensorTriggerCount s) /\
  (MULTI_COIN_TIMEOUT <= timeInState s ->
   MULTI_COIN_THRESHOLD <= sensorTriggerCount s ->
   MULTI_COIN_TIMEOUT < windowAge s ->
   currentState (loop e s) = STATE_REJECTING /\
   lastError (loop e s) = STATUS_MULTIPLE_COINS /\
   sensorTriggerCount (loop e s) = 0 /\
   sensorWindowStart (loop e s) = 0) /\
  (MULTI_COIN_TIMEOUT <= timeInState s ->
   sensorTriggerCount s < MULTI_COIN_THRESHOLD ->
   currentState (loop e s) = STATE_PROCESSING /\
   lastError (loop e s) = lastError s /\
   sensorTriggerCount (loop e s) = 0 /\
   sensorWindowStart (loop e s) = 0).
Proof.
  intros Hs Hq Ht. rewrite (loop_quiet e s Hq Ht), Hs.
  unfold timeInState, windowAge, millis, MULTI_COIN_THRESHOLD in *.
  unfold handleCoinDetected, isMultipleCoinDetected, changeState. cbv zeta.
  split; [|split].
  - intros H. repeat settle_test. fields. auto.
  - intros H1 H2 H3. repeat settle_test. fields. auto.
  - intros H1 H2.
    destruct (Z_lt_le_dec 0 (sensorTriggerCount s));
      [destruct (Z_lt_le_dec MULTI_COIN_TIMEOUT
                   (ulong_sub (uptime s) (sensorWindowStart s)))|];
      repeat settle_test; fields; auto.
Qed.

Lemma window_decision_witness :
  let early := run [Edge; Tick 9; Poll quiet; Tick 500] ready in
  let two := run [Edge; Tick 9; Poll quiet; Tick 50; Edge; Tick 950] ready in
  let one := run [Edge; Tick 9; Poll quiet; Tick 1000] ready in
  (currentState (loop quiet early) = STATE_COIN_DETECTED /\
   sensorTriggerCount (loop quiet early) = sensorTriggerCount early) /\
  (currentState (loop quiet two) = STATE_REJECTING /\
   lastError (loop quiet two) = STATUS_MULTIPLE_COINS /\
   sensorTriggerCount (loop quiet two) = 0 /\
   sensorWindowStart (loop quiet two) = 0) /\
  (currentState (loop quiet one) = STATE_PROCESSING /\
   lastError (loop quiet one) = lastError one /\
   sensorTriggerCount (loop quiet one) = 0 /\
   sensorWindowStart (loop quiet one) = 0).
Proof.
  intros early two one.
  destruct (window_decision quiet early) as (A & _ & _);
    [vm_compute; reflexivity | reflexivity | vm_compute; discriminate |].
  destruct (window_decision quiet two) as (_ & B & _);
    [vm_compute; reflexivity | reflexivity | vm_compute; discriminate |].
  destruct (window_decision quiet one) as (_ & _ & C);
    [vm_compute; reflexivity | reflexivity | vm_compute; discriminate |].
  split; [apply A; vm_compute; reflexivity|].
  split; [apply B; vm_compute; first [reflexivity | discriminate]|].
  apply C; vm_compute; first [reflexivity | discriminate].
Defined.
(** ** The photography sequence *)

(** *** Every entry into the photo sequence is at step 0 *)

Lemma atSequenceStart_frame (s s' : Machine) :
  currentState s' = currentState s ->
  currentPhotoStep s' = currentPhotoStep s ->
  atSequenceStart s -> atSequenceStart s'.
Proof. unfold atSequenceStart. intros -> ->. auto. Qed.

Lemma atSequenceStart_changeState (n : CoinMachineState) (s : Machine) :
  n <> STATE_PHOTOGRAPHING ->
  atSequenceStart s -> atSequenceStart (changeState n s).
Proof.
  intros N F. unfold changeState.
  destruct (state_eqb n (currentState s)) eqn:E; simpl; [exact F|].
  destruct (state_eqb n STATE_WAITING_FOR_COIN); intros H; now elim N.
Qed.

Lemma atSequenceStart_restart (n : CoinMachineState) (s : Machine) :
  atSequenceStart (set_currentPhotoStep 0 (changeState n s)).
Proof. intros _. reflexivity. Qed.

Lemma atSequenceStart_elsewhere (s : Machine) :
  currentState s <> STATE_PHOTOGRAPHING -> atSequenceStart s.
Proof. intros H E. now elim H. Qed.

(** One step of a proof that a function keeps [atSequenceStart]: the
    hypothesis, a lemma about a function with tests in it ([special]), or
    the observation that the outermost assignment touches neither the state
    nor the photo step. *)
Ltac sequence_step special :=
  lazymatch goal with
  | H : atSequenceStart ?s |- atSequenceStart ?s => exact H
  | |- atSequenceStart (set_currentPhotoStep 0 (changeState _ _)) =>
      apply atSequenceStart_restart
  | |- atSequenceStart (changeState _ _) =>
      apply atSequenceStart_changeState; [discriminate|]
  | |- atSequenceStart (snd (performSystemTest ?x)) =>
      apply (atSequenceStart_frame x); [reflexivity | reflexivity |]
  | |- atSequenceStart (?f ?x) =>
      first
        [ special
        | apply (atSequenceStart_frame x (f x)); [reflexivity | reflexivity |] ]
  end.

Lemma atSequenceStart_handleError (e : StatusCode) (s : Machine) :
  atSequenceStart s -> atSequenceStart (handleError e s).
Proof.
  intros F. unfold handleError, systemReset. funnel_cases;
    repeat sequence_step fail.
Qed.

Lemma atSequenceStart_handleWaitingForCoin (s : Machine) :
  atSequenceStart s -> atSequenceStart (handleWaitingForCoin s).
Proof.
  intros F. unfold handleWaitingForCoin. funnel_cases;
    repeat sequence_step fail.
Qed.

Lemma atSequenceStart_handleCoinDetected (s : Machine) :
  atSequenceStart s -> atSequenceStart (handleCoinDetected s).
Proof.
  intros F. unfold handleCoinDetected, isMultipleCoinDetected.
  funnel_cases; repeat sequence_step fail.
Qed.

Lemma atSequenceStart_handleProcessing (s : Machine) :
  atSequenceStart s -> atSequenceStart (handleProcessing s).
Proof.
  intros F. unfold handleProcessing. funnel_cases; repeat sequence_step fail.
Qed.

Lemma atSequenceStart_handleRejecting (s : Machine) :
  atSequenceStart s -> atSequenceStart (handleRejecting s).
Proof.
  intros F. unfold handleRejecting. funnel_cases; repeat sequence_step fail.
Qed.



(** A pass of [handlePhotographing] in which the capture fails is the failed
    capture followed by a call of the error handler, and nothing else. *)
Lemma handlePhotographing_capture_fails (out : CaptureOutcome) (s : Machine) :
  captureAttempted s ->
  out <> CaptureOk ->
  exists x : Machine,
    handlePhotographing out s = handleError STATUS_CAMERA_ERROR x /\
    currentState x = currentState s /\
    currentPhotoStep x = currentPhotoStep s /\
    lastError x = lastError s /\
    reportsAfter x = reportsAfter (delay CAMERA_WARMUP_TIME s) /\
    exists l : list SerialTok,
      serial x = serial s ++ l /\
      ~ In (Println "ERROR: Photography sequence timeout") l.
Proof.
  intros [Hstep Hdelay] Hout. unfold millis in Hdelay.
  unfold handlePhotographing, photoStep, generateImageFilename,
    captureAndSaveImage.
  cbv zeta.
  destruct Hstep as [Hstep|Hstep]; destruct out; try (now elim Hout);
    repeat settle_test;
    (eexists; split; [reflexivity|]);
    (split; [reflexivity|]); (split; [reflexivity|]);
    (split; [reflexivity|]); (split; [reflexivity|]);
    (eexists; split; [fields; rewrite <- ?app_assoc; reflexivity|]);
    simpl; intuition discriminate.
Qed.

(** *** The timeout of the photo sequence *)

(** Counterexample to C10 as stated. The machine has been photographing for
    more than [PROCESSING_TIMEOUT] and the capture fails once more: the pass
    ends in the capture's own error path, before the timeout test; nothing
    about a timeout is printed. *)
Lemma photo_timeout_skipped_on_capture_failure :
  currentState staleCapture = STATE_PHOTOGRAPHING /\
  currentPhotoStep staleCapture = 1 /\
  timeInState staleCapture = PROCESSING_TIMEOUT + 90 /\
  logged staleCapture (handlePhotographing FrameBufferFailed staleCapture) =
    [Println "Taking first photo"; Println "Camera capture failed";
     Println "ERROR: First photo capture failed"] /\
  ~ stated_photo_timeout FrameBufferFailed staleCapture.
Proof.
  split_ands; try by_run.
  intros H. destruct H as (x & H & _);
    [vm_compute; reflexivity | vm_compute; reflexivity |].
  vm_compute in H. discriminate H.
Qed.
(** Unless a capture is attempted and fails, the photo step falls through
    to the statement after the [switch], having only added to the console. *)
Lemma photoStep_falls_through (out : CaptureOutcome) (s : Machine) :
  ~ (captureAttempted s /\ out <> CaptureOk) ->
  exists (x : Machine) (l : list SerialTok),
    photoStep out s = Next x /\ serial x = serial s ++ l.
Proof.
  intros H. unfold captureAttempted, millis in H.
  unfold photoStep, generateImageFilename, captureAndSaveImage, changeState.
  cbv zeta.
  repeat (case_innermost; cbv beta iota); subst;
    try discriminate;
    try (elim H; split;
         [split; [solve [auto] | apply Z.leb_le; assumption] | discriminate]);
    first
      [ eexists; eexists; split; [reflexivity|];
        fields; rewrite <- ?app_assoc; reflexivity
      | eexists; exists []; split; [reflexivity|];
        symmetry; apply app_nil_r ].
Qed.

(** C10, amended. [PROCESSING_TIMEOUT] is shorter than [RESET_TIMEOUT]. A
    pass of [handlePhotographing] that finds the state older than
    [PROCESSING_TIMEOUT] reports "Photography sequence timeout" and calls
    the error handler with [STATUS_TIMEOUT_ERROR], after the photo step of
    that pass, unless that step attempts a capture and the capture fails:
    then the pass ends with the call of the error handler for
    [STATUS_CAMERA_ERROR], and the timeout is neither tested nor reported. *)
Theorem photographing_timeout (out : CaptureOutcome) (s : Machine) :
  PROCESSING_TIMEOUT < timeInState s ->
  PROCESSING_TIMEOUT < RESET_TIMEOUT /\
  (~ (captureAttempted s /\ out <> CaptureOk) ->
   timeoutPathTaken out s /\
   In (Println "ERROR: Photography sequence timeout")
      (logged s (handlePhotographing out s))) /\
  (captureAttempted s -> out <> CaptureOk ->
   ~ timeoutPathTaken out s /\
   ~ In (Println "ERROR: Photography sequence timeout")
       (logged s (handlePhotographing out s))).
Proof.
  intros Ht. split; [reflexivity|]. split.
  - intros H.
    destruct (photoStep_falls_through out (setStatusLED LED_BUSY s) H)
      as (x & l & P & L).
    assert (E : handlePhotographing out s =
                handleError STATUS_TIMEOUT_ERROR
                  (DEBUG_PRINTLN "ERROR: Photography sequence timeout" x)).
    { unfold handlePhotographing. cbv zeta. rewrite P.
      unfold timeInState, millis in Ht. now settle_test. }
    split; [exists x; split; [exact P | exact E]|].
    rewrite E.
    destruct (handleError_appends STATUS_TIMEOUT_ERROR
                (DEBUG_PRINTLN "ERROR: Photography sequence timeout" x))
      as [l' L'].
    unfold logged. rewrite L'. fields. rewrite L.
    change (serial (setStatusLED LED_BUSY s)) with (serial s).
    rewrite <- !app_assoc, skipn_length_app.
    apply in_or_app. right. left. reflexivity.
  - intros Ha Hc.
    destruct (handlePhotographing_capture_fails out s Ha Hc)
      as (x & E & _ & _ & _ & _ & l & L & N).
    split.
    + intros (y & Py & _). revert Py.
      destruct Ha as [Hstep Hdelay]. unfold millis in Hdelay.
      unfold photoStep, generateImageFilename, captureAndSaveImage. cbv zeta.
      destruct Hstep as [Hstep|Hstep]; destruct out; try (now elim Hc);
        repeat settle_test; discriminate.
    + rewrite E.
      destruct (handleError_log STATUS_CAMERA_ERROR x) as (l' & L' & N').
      unfold logged. rewrite L', L, <- app_assoc, skipn_length_app.
      intros M. apply in_app_or in M. tauto.
Qed.

Lemma photographing_timeout_witness :
  timeoutPathTaken CaptureOk slowSequence /\
  In (Println "ERROR: Photography sequence timeout")
     (logged slowSequence (handlePhotographing CaptureOk slowSequence)) /\
  ~ timeoutPathTaken FrameBufferFailed staleCapture /\
  ~ In (Println "ERROR: Photography sequence timeout")
      (logged staleCapture (handlePhotographing FrameBufferFailed staleCapture)).
Proof.
  destruct (photographing_timeout CaptureOk slowSequence) as (_ & A & _);
    [vm_compute; reflexivity|].
  destruct (photographing_timeout FrameBufferFailed staleCapture) as (_ & _ & B);
    [vm_compute; reflexivity|].
  destruct A as [A1 A2]; [intros [_ H]; now elim H|].
  destruct B as [B1 B2];
    [split; [left; vm_compute; reflexivity | vm_compute; discriminate]
    | discriminate |].
  exact (conj A1 (conj A2 (conj B1 B2))).
Defined.

(** ** Counting edges *)


(** Counterexample to C5 as stated. Three edges 40 ms apart: each follows
    the one before by less than the debounce interval, yet the third is
    80 ms after the first, which is the last one counted, and it is counted
    too. *)
Lemma third_bounce_is_counted :
  sensorTriggerCount (run (Edge :: burst [40; 40]) ready) = 2 /\
  ~ stated_bounces_count_once [40; 40] ready.
Proof.
  split; [by_run|]. intros H.
  assert (F : Forall (fun g => 0 <= g < SENSOR_DEBOUNCE_TIME) [40; 40])
    by (repeat constructor; unfold SENSOR_DEBOUNCE_TIME; lia).
  specialize (H F). vm_compute in H. discriminate H.
Qed.

Lemma run_cons (ev : Event) (evs : list Event) (s : Machine) :
  run (ev :: evs) s = run evs (step s ev).
Proof. reflexivity. Qed.

Lemma step_edge (s : Machine) :
  sensorAttached s = true -> step s Edge = sensorInterrupt s.
Proof. intros H. simpl. now rewrite H. Qed.

Lemma run_gap_edge (g : Z) (evs : list Event) (s : Machine) :
  sensorAttached s = true ->
  run (Tick g :: Edge :: evs) s = run evs (sensorInterrupt (delay g s)).
Proof. intros H. rewrite !run_cons. now rewrite step_edge. Qed.

(** Edges that arrive within the debounce interval of the last counted edge
    change nothing in the detector. *)
Lemma bounces_ignored (gaps : list Z) :
  forall s : Machine,
  sensorAttached s = true ->
  Forall (fun g => 0 <= g) gaps ->
  0 <= ulong_sub (uptime s) (lastSensorTrigger s) ->
  ulong_sub (uptime s) (lastSensorTrigger s) + total gaps < SENSOR_DEBOUNCE_TIME ->
  sensorTriggerCount (run (burst gaps) s) = sensorTriggerCount s /\
  sensorWindowStart (run (burst gaps) s) = sensorWindowStart s.
Proof.
  induction gaps as [|g gaps IH]; intros s Ha Hg H0 Hb; [split; reflexivity|].
  inversion Hg as [|? ? Pg Pgaps]; subst. simpl total in Hb.
  assert (Pt : 0 <= total gaps).
  { clear -Pgaps. induction Pgaps; simpl; lia. }
  simpl burst. rewrite !(run_gap_edge g _ s Ha).
  assert (E : ulong_sub (uptime (delay g s)) (lastSensorTrigger (delay g s)) =
              ulong_sub (uptime s) (lastSensorTrigger s) + g).
  { unfold delay. fields. rewrite ulong_sub_later. apply to_ulong_small.
    unfold ULONG_RANGE, SENSOR_DEBOUNCE_TIME in *. lia. }
  rewrite sensorInterrupt_bounce
    by (unfold pastDebounce, millis; rewrite E; lia).
  destruct (IH (delay g s)) as [A B]; try assumption; try (rewrite E; lia).
  split; [exact A | exact B].
Qed.

(** Edges that are each at least the debounce interval after the one before
    are all counted, and stay in the window opened by the first. *)
Lemma spaced_edges_counted (gaps : list Z) :
  forall s : Machine,
  sensorAttached s = true ->
  Forall (fun g => SENSOR_DEBOUNCE_TIME <= g < ULONG_RANGE) gaps ->
  lastSensorTrigger s = uptime s ->
  0 < sensorTriggerCount s ->
  sensorTriggerCount s + Z.of_nat (List.length gaps) < 2 ^ 31 ->
  sensorTriggerCount (run (burst gaps) s) =
    sensorTriggerCount s + Z.of_nat (List.length gaps) /\
  sensorWindowStart (run (burst gaps) s) = sensorWindowStart s.
Proof.
  induction gaps as [|g gaps IH]; intros s Ha Hg Hl Hc Hn.
  { simpl. split; [lia | reflexivity]. }
  inversion Hg as [|? ? Pg Pgaps]; subst.
  simpl burst. rewrite !(run_gap_edge g _ s Ha).
  assert (P : pastDebounce (delay g s)).
  { unfold pastDebounce, millis, delay. fields. rewrite Hl.
    unfold SENSOR_DEBOUNCE_TIME in *. rewrite ulong_sub_elapsed; lia. }
  rewrite (sensorInterrupt_counted _ P).
  change (sensorTriggerCount (delay g s)) with (sensorTriggerCount s).
  assert (Z0 : (sensorTriggerCount s =? 0) = false) by (apply Z.eqb_neq; lia).
  rewrite Z0.
  rewrite List.length_cons, Nat2Z.inj_succ in *.
  rewrite to_int_small by lia.
  match goal with |- context [run (burst gaps) ?x] => set (x1 := x) end.
  destruct (IH x1) as [A B].
  - exact Ha.
  - exact Pgaps.
  - reflexivity.
  - subst x1. fields. lia.
  - subst x1. fields. lia.
  - rewrite A, B. subst x1. fields. split; [lia | reflexivity].
Qed.

Lemma total_bounds (gaps : list Z) (b : Z) :
  0 <= b ->
  Forall (fun g => b <= g) gaps ->
  b * Z.of_nat (List.length gaps) <= total gaps /\
  Forall (fun g => g <= total gaps) gaps.
Proof.
  intros Hb H. induction H as [|g gaps Hg H IH]; simpl.
  - split; [lia | constructor].
  - destruct IH as [A B]. rewrite Zpos_P_of_succ_nat. split; [lia|].
    constructor; [lia|]. eapply Forall_impl; [|exact B].
    simpl. intros; lia.
Qed.
(** ** The transitions of the controller *)

(** One step of a proof that a function keeps a property of the machine:
    the hypothesis, a lemma about a function with tests in it ([special]),
    or the observation, through the property's frame lemma, that the
    outermost assignment leaves alone the fields the property reads. *)
Ltac chain_step frame special :=
  lazymatch goal with
  | H : ?I ?s |- ?I ?s => exact H
  | |- _ (snd (performSystemTest ?x)) =>
      first [special | apply frame with (s := x); [reflexivity .. |]]
  | |- _ (?f ?x) =>
      first [special | apply frame with (s := x); [reflexivity .. |]]
  end.

Section Reaches.

Variable from : CoinMachineState.

Lemma reaches_frame (s s' : Machine) :
  currentState s' = currentState s -> reaches from s -> reaches from s'.
Proof. unfold reaches. now intros ->. Qed.

Lemma reaches_start (s : Machine) : currentState s = from -> reaches from s.
Proof. unfold reaches. intros ->. now destruct from. Qed.

Lemma reaches_changeState (n : CoinMachineState) (s : Machine) :
  allowed from n = true -> reaches from s -> reaches from (changeState n s).
Proof. unfold reaches. intros H _. now rewrite changeState_currentState. Qed.

Lemma reaches_waiting (s : Machine) :
  reaches from (changeState STATE_WAITING_FOR_COIN s).
Proof.
  unfold reaches. rewrite changeState_currentState. now destruct from.
Qed.

Lemma reaches_set_lastError (e : StatusCode) (n : CoinMachineState) (s : Machine) :
  allowed from n = true -> reaches from (set_lastError e (changeState n s)).
Proof.
  unfold reaches. intros H.
  change (allowed from (currentState (changeState n s)) = true).
  now rewrite changeState_currentState.
Qed.

Lemma reaches_set_currentPhotoStep (v : Z) (n : CoinMachineState) (s : Machine) :
  allowed from n = true -> reaches from (set_currentPhotoStep v (changeState n s)).
Proof.
  unfold reaches. intros H.
  change (allowed from (currentState (changeState n s)) = true).
  now rewrite changeState_currentState.
Qed.

End Reaches.

Ltac reaches_special :=
  idtac;
  lazymatch goal with
  | |- reaches _ (changeState STATE_WAITING_FOR_COIN _) => apply reaches_waiting
  | |- reaches _ (changeState _ _) =>
      apply reaches_changeState; [reflexivity|]
  end.

Ltac reaches_steps :=
  repeat chain_step reaches_frame reaches_special.

Lemma reaches_handleError (from : CoinMachineState) (e : StatusCode) (s : Machine) :
  reaches from s -> reaches from (handleError e s).
Proof.
  intros F. unfold handleError, systemReset. funnel_cases; reaches_steps.
Qed.

Lemma reaches_handleWaitingForCoin (s : Machine) :
  currentState s = STATE_WAITING_FOR_COIN ->
  reaches STATE_WAITING_FOR_COIN (handleWaitingForCoin s).
Proof.
  intros H. apply reaches_start in H. unfold handleWaitingForCoin.
  funnel_cases; reaches_steps.
Qed.

Lemma reaches_handleCoinDetected (s : Machine) :
  currentState s = STATE_COIN_DETECTED ->
  reaches STATE_COIN_DETECTED (handleCoinDetected s).
Proof.
  intros H. apply reaches_start in H.
  unfold handleCoinDetected, isMultipleCoinDetected.
  funnel_cases; reaches_steps.
Qed.

Lemma reaches_handleProcessing (s : Machine) :
  currentState s = STATE_PROCESSING ->
  reaches STATE_PROCESSING (handleProcessing s).
Proof.
  intros H. apply reaches_start in H. unfold handleProcessing.
  funnel_cases; reaches_steps.
Qed.

Lemma reaches_handleRejecting (s : Machine) :
  currentState s = STATE_REJECTING ->
  reaches STATE_REJECTING (handleRejecting s).
Proof.
  intros H. apply reaches_start in H. unfold handleRejecting.
  funnel_cases; reaches_steps.
Qed.

Lemma reaches_handlePhotographing (out : CaptureOutcome) (s : Machine) :
  currentState s = STATE_PHOTOGRAPHING ->
  reaches STATE_PHOTOGRAPHING (handlePhotographing out s).
Proof.
  intros H. apply reaches_start in H.
  unfold handlePhotographing, photoStep, generateImageFilename,
    captureAndSaveImage.
  funnel_cases;
    repeat first [apply reaches_handleError
                 | chain_step reaches_frame reaches_special].
Qed.

Lemma reaches_listPhotos (from : CoinMachineState) (dir : list (string * Z))
    (s : Machine) :
  reaches from s -> reaches from (listPhotos dir s).
Proof.
  revert s. induction dir as [|[name size] rest IH]; intros s F; simpl.
  - exact F.
  - apply IH. destruct (String.prefix _ _); reaches_steps.
Qed.

Lemma reaches_processSerialCommands (from : CoinMachineState) (e : Env)
    (s : Machine) :
  reaches from s -> reaches from (processSerialCommands e s).
Proof.
  intros F. unfold processSerialCommands, printSystemStatus, systemReset.
  destruct (serialLine e) as [command|]; [|exact F].
  destruct (command =? "status")%string; [cbv zeta; reaches_steps|].
  destruct (command =? "test")%string; [reaches_steps|].
  destruct (command =? "reset")%string; [cbv zeta; reaches_steps|].
  destruct (command =? "photos")%string; cbv zeta.
  - chain_step reaches_frame reaches_special. apply reaches_listPhotos.
    reaches_steps.
  - reaches_steps.
Qed.

(** One event leaves the state as it is or makes a transition of
    [allowed]. *)
Lemma step_allowed (ev : Event) (s : Machine) :
  allowed (currentState s) (currentState (step s ev)) = true.
Proof.
  destruct ev as [ms| |e]; simpl.
  - apply (reaches_start _ s eq_refl).
  - destruct (sensorAttached s);
      [rewrite currentState_sensorInterrupt|];
      apply (reaches_start _ s eq_refl).
  - change (reaches (currentState s) (loop e s)).
    pose proof (reaches_start _ s eq_refl) as F.
    unfold loop. cbv zeta. destruct (RESET_TIMEOUT <? _).
    + apply reaches_handleError. reaches_steps.
    + chain_step reaches_frame reaches_special.
      apply reaches_processSerialCommands.
      destruct (currentState s) eqn:E.
      * reaches_steps.
      * now apply reaches_handleWaitingForCoin.
      * now apply reaches_handleCoinDetected.
      * now apply reaches_handleProcessing.
      * now apply reaches_handlePhotographing.
      * now apply reaches_handleRejecting.
      * now apply reaches_handleError.
Qed.

Lemma step_keeps_out_of_error (ev : Event) (s : Machine) :
  (currentState (step s ev) = STATE_ERROR -> currentState s = STATE_ERROR) /\
  (currentState (step s ev) = STATE_INIT -> currentState s = STATE_INIT).
Proof.
  pose proof (step_allowed ev s) as A.
  split; intros E; rewrite E in A; now destruct (currentState s).
Qed.

(** X1. Whatever the environment does, one pass of the main loop leaves the
    machine in its state or makes one of the transitions of [allowed]: a
    return to [STATE_WAITING_FOR_COIN] or a step forward along the path of
    a coin. In particular no pass enters [STATE_ERROR] or [STATE_INIT]. An
    edge and the passing of time change no state. *)
Theorem loop_transitions (ev : Event) (s : Machine) :
  allowed (currentState s) (currentState (step s ev)) = true /\
  (currentState (step s ev) = STATE_ERROR -> currentState s = STATE_ERROR) /\
  (currentState (step s ev) = STATE_INIT -> currentState s = STATE_INIT) /\
  (forall ms : Z, currentState (step s (Tick ms)) = currentState s) /\
  currentState (step s Edge) = currentState s.
Proof.
  split; [apply step_allowed|].
  destruct (step_keeps_out_of_error ev s) as [A B].
  split; [exact A|]. split; [exact B|]. split; [reflexivity|].
  simpl. destruct (sensorAttached s);
    [apply currentState_sensorInterrupt | reflexivity].
Qed.
Lemma loop_transitions_witness :
  let coin := run [Edge; Tick 3] ready in
  (currentState coin = STATE_WAITING_FOR_COIN /\
   currentState (step coin (Poll quiet)) = STATE_COIN_DETECTED /\
   allowed (currentState coin) (currentState (step coin (Poll quiet)))
     = true) /\
  currentState bootFailed = STATE_ERROR /\
  currentState poweron = STATE_INIT.
Proof.
  intros coin.
  destruct (loop_transitions (Poll quiet) coin) as (A & _).
  destruct (loop_transitions (Poll quiet) bootFailed) as (_ & B & _).
  destruct (loop_transitions (Tick 1) poweron) as (_ & _ & C & _).
  split; [split; [by_run | split; [by_run | exact A]]|].
  split; [apply B | apply C]; vm_compute; reflexivity.
Defined.

Lemma run_keeps_out_of_error (evs : list Event) :
  forall s : Machine,
  (currentState (run evs s) = STATE_ERROR -> currentState s = STATE_ERROR) /\
  (currentState (run evs s) = STATE_INIT -> currentState s = STATE_INIT).
Proof.
  induction evs as [|ev evs IH]; intros s; [split; auto|].
  rewrite run_cons. destruct (IH (step s ev)) as [A B].
  destruct (step_keeps_out_of_error ev s) as [C D]. auto.
Qed.

(** X2. [setup] leaves the machine in [STATE_WAITING_FOR_COIN] when storage
    and camera initialise, and in [STATE_ERROR] otherwise. Whatever happens
    afterwards, the machine is in [STATE_ERROR] only if that initialisation
    failed, and it is never in [STATE_INIT] again. *)
Theorem error_only_after_failed_setup (e : BootEnv) (evs : list Event) :
  currentState (setup e poweron) =
    (if storageBegins e && cameraInits e
     then STATE_WAITING_FOR_COIN else STATE_ERROR) /\
  (currentState (run evs (setup e poweron)) = STATE_ERROR ->
   storageBegins e && cameraInits e = false) /\
  currentState (run evs (setup e poweron)) <> STATE_INIT.
Proof.
  assert (S : currentState (setup e poweron) =
              if storageBegins e && cameraInits e
              then STATE_WAITING_FOR_COIN else STATE_ERROR)
    by (destruct e as [[|] [|]]; by_run).
  destruct (run_keeps_out_of_error evs (setup e poweron)) as [A B].
  split; [exact S|]. split.
  - intros E. apply A in E. rewrite S in E.
    destruct (storageBegins e && cameraInits e); [discriminate E | reflexivity].
  - intros E. apply B in E. rewrite S in E.
    destruct (storageBegins e && cameraInits e); discriminate E.
Qed.

Lemma error_only_after_failed_setup_witness :
  storageBegins (mkBootEnv true false) && cameraInits (mkBootEnv true false)
  = false.
Proof.
  apply (error_only_after_failed_setup (mkBootEnv true false) [Tick 5000; Poll quiet]).
  vm_compute. reflexivity.
Defined.
(** ** The idle machine *)


Lemma sensorInterrupt_keeps_controller (s : Machine) :
  stateStartTime (sensorInterrupt s) = stateStartTime s /\
  uptime (sensorInterrupt s) = uptime s /\
  (sensorTriggered s = true -> sensorTriggered (sensorInterrupt s) = true).
Proof.
  unfold sensorInterrupt. cbv zeta.
  repeat (case_innermost; cbv beta iota); repeat split; auto.
Qed.


(** ** The handlers, state by state *)



(** X4. A pass over a machine in [STATE_PROCESSING] with the triggered flag
    clear: before 500 ms in the state the machine stays in it, the clock of
    the state and the photo step as they were; from 500 ms on the machine
    moves to [STATE_PHOTOGRAPHING] with the photo sequence at step 0. In
    both cases the edge count and the error code are left alone. *)
Theorem processing_settles (e : Env) (s : Machine) :
  currentState s = STATE_PROCESSING ->
  sensorTriggered s = false ->
  serialLine e = None ->
  timeInState s <= RESET_TIMEOUT ->
  lastError (loop e s) = lastError s /\
  sensorTriggerCount (loop e s) = sensorTriggerCount s /\
  (timeInState s < 500 ->
   currentState (loop e s) = STATE_PROCESSING /\
   stateStartTime (loop e s) = stateStartTime s /\
   currentPhotoStep (loop e s) = currentPhotoStep s) /\
  (500 <= timeInState s ->
   currentState (loop e s) = STATE_PHOTOGRAPHING /\
   stateStartTime (loop e s) = millis s /\
   currentPhotoStep (loop e s) = 0).
Proof.
  intros Hs Hf Hq Ht. rewrite (loop_quiet e s Hq Ht), Hs.
  unfold handleProcessing, changeState. unfold timeInState, millis in *.
  cbv zeta.
  destruct (Z_lt_le_dec (ulong_sub (uptime s) (stateStartTime s)) 500);
    repeat settle_test; fields; split_ands; auto; intros; try lia; auto.
Qed.

Lemma processing_settles_witness :
  let s := run [Edge; Tick 3; Poll quiet; Tick 1000; Poll quiet] ready in
  (currentState (loop quiet s) = STATE_PROCESSING /\
   stateStartTime (loop quiet s) = stateStartTime s /\
   currentPhotoStep (loop quiet s) = currentPhotoStep s) /\
  (currentState (loop quiet (run [Tick 490] s)) = STATE_PHOTOGRAPHING /\
   stateStartTime (loop quiet (run [Tick 490] s)) = millis (run [Tick 490] s) /\
   currentPhotoStep (loop quiet (run [Tick 490] s)) = 0).
Proof.
  intros s.
  destruct (processing_settles quiet s) as (_ & _ & A & _);
    [by_run | by_run | reflexivity | vm_compute; discriminate |].
  destruct (processing_settles quiet (run [Tick 490] s)) as (_ & _ & _ & B);
    [by_run | by_run | reflexivity | vm_compute; discriminate |].
  split; [apply A; vm_compute; reflexivity | apply B; vm_compute; discriminate].
Defined.

(** X5. A pass over a machine in [STATE_REJECTING]. The trapdoor is opened
    by a pass that finds the state younger than 100 ms, and by no other; it
    is closed by every pass from [TRAPDOOR_OPEN_TIME] on; and the machine
    returns to [STATE_WAITING_FOR_COIN], recovered, 1000 ms after that. *)
Theorem rejecting_phases (e : Env) (s : Machine) :
  currentState s = STATE_REJECTING ->
  serialLine e = None ->
  timeInState s <= RESET_TIMEOUT ->
  (timeInState s < 100 ->
   trapdoorServo (loop e s) = TRAPDOOR_OPEN /\
   currentState (loop e s) = STATE_REJECTING) /\
  (100 <= timeInState s < TRAPDOOR_OPEN_TIME ->
   trapdoorServo (loop e s) = trapdoorServo s /\
   currentState (loop e s) = STATE_REJECTING) /\
  (TRAPDOOR_OPEN_TIME <= timeInState s < TRAPDOOR_OPEN_TIME + 1000 ->
   trapdoorServo (loop e s) = TRAPDOOR_CLOSED /\
   currentState (loop e s) = STATE_REJECTING) /\
  (TRAPDOOR_OPEN_TIME + 1000 <= timeInState s ->
   trapdoorServo (loop e s) = TRAPDOOR_CLOSED /\
   currentState (loop e s) = STATE_WAITING_FOR_COIN /\
   recovered (loop e s)).
Proof.
  intros Hs Hq Ht. rewrite (loop_quiet e s Hq Ht), Hs.
  unfold handleRejecting, changeState, recovered.
  unfold timeInState, millis, TRAPDOOR_OPEN_TIME in *. cbv zeta.
  split_ands; intros H; repeat settle_test; fields; auto.
Qed.

Lemma rejecting_phases_witness :
  let s := run [Edge; Tick 3; Poll quiet; Tick 50; Edge; Tick 950; Poll quiet]
             ready in
  (trapdoorServo (loop quiet s) = TRAPDOOR_OPEN /\
   currentState (loop quiet s) = STATE_REJECTING) /\
  (trapdoorServo (loop quiet (run [Tick 500] s)) = trapdoorServo (run [Tick 500] s) /\
   currentState (loop quiet (run [Tick 500] s)) = STATE_REJECTING) /\
  (trapdoorServo (loop quiet (run [Tick 2000] s)) = TRAPDOOR_CLOSED /\
   currentState (loop quiet (run [Tick 2000] s)) = STATE_REJECTING) /\
  (trapdoorServo (loop quiet (run [Tick 3000] s)) = TRAPDOOR_CLOSED /\
   currentState (loop quiet (run [Tick 3000] s)) = STATE_WAITING_FOR_COIN /\
   recovered (loop quiet (run [Tick 3000] s))).
Proof.
  intros s.
  destruct (rejecting_phases quiet s) as (A & _ & _ & _);
    [by_run | reflexivity | vm_compute; discriminate |].
  destruct (rejecting_phases quiet (run [Tick 500] s)) as (_ & B & _ & _);
    [by_run | reflexivity | vm_compute; discriminate |].
  destruct (rejecting_phases quiet (run [Tick 2000] s)) as (_ & _ & C & _);
    [by_run | reflexivity | vm_compute; discriminate |].
  destruct (rejecting_phases quiet (run [Tick 3000] s)) as (_ & _ & _ & D);
    [by_run | reflexivity | vm_compute; discriminate |].
  split; [apply A; vm_compute; reflexivity|].
  split; [apply B; vm_compute; split; [discriminate | reflexivity]|].
  split; [apply C; vm_compute; split; [discriminate | reflexivity]|].
  apply D; vm_compute; discriminate.
Defined.

(** X6. The decision in [STATE_COIN_DETECTED] when the detection window is
    not yet older than [MULTI_COIN_TIMEOUT] (its first edge came with, or
    after, the pass that entered the state): the machine goes to
    [STATE_PROCESSING] whatever the edge count, two or more included, the
    count is discarded and no error is recorded. *)
Theorem young_window_is_single (e : Env) (s : Machine) :
  currentState s = STATE_COIN_DETECTED ->
  serialLine e = None ->
  MULTI_COIN_TIMEOUT <= timeInState s <= RESET_TIMEOUT ->
  windowAge s <= MULTI_COIN_TIMEOUT ->
  currentState (loop e s) = STATE_PROCESSING /\
  lastError (loop e s) = lastError s /\
  sensorTriggerCount (loop e s) = 0 /\
  sensorTriggered (loop e s) = sensorTriggered s.
Proof.
  intros Hs Hq [Ht Hr] Hw. rewrite (loop_quiet e s Hq Hr), Hs.
  unfold handleCoinDetected, isMultipleCoinDetected, changeState.
  unfold timeInState, windowAge, millis in *. cbv zeta.
  repeat settle_test; fields; auto.
Qed.

Lemma young_window_is_single_witness :
  let s := run [Edge; Poll quiet; Tick 50; Edge; Tick 940] ready in
  sensorTriggerCount s = 2 /\
  currentState (loop quiet s) = STATE_PROCESSING /\
  lastError (loop quiet s) = lastError s /\
  sensorTriggerCount (loop quiet s) = 0 /\
  sensorTriggered (loop quiet s) = sensorTriggered s.
Proof.
  intros s. split; [by_run|].
  apply (young_window_is_single quiet s).
  - by_run.
  - reflexivity.
  - vm_compute. split; discriminate.
  - vm_compute. discriminate.
Defined.
(** ** Who writes what *)

Section OnlyReset.

Variable s0 : Machine.

Lemma onlyReset_frame (s s' : Machine) :
  lastSensorTrigger s' = lastSensorTrigger s ->
  sensorTriggerCount s' = sensorTriggerCount s ->
  sensorWindowStart s' = sensorWindowStart s ->
  sensorTriggered s' = sensorTriggered s ->
  sensorAttached s' = sensorAttached s ->
  onlyReset s0 s -> onlyReset s0 s'.
Proof. unfold onlyReset. intros -> -> -> -> ->. auto. Qed.

Lemma onlyReset_start : onlyReset s0 s0.
Proof. unfold onlyReset. auto 6. Qed.

Lemma onlyReset_resetSensorCount (s : Machine) :
  onlyReset s0 s -> onlyReset s0 (resetSensorCount s).
Proof. unfold onlyReset. intros (A & B & C & D & E). fields. auto 6. Qed.

Lemma onlyReset_clearSensorTrigger (s : Machine) :
  onlyReset s0 s -> onlyReset s0 (clearSensorTrigger s).
Proof. unfold onlyReset. intros (A & B & C & D & E). fields. auto 6. Qed.

Lemma onlyReset_changeState (n : CoinMachineState) (s : Machine) :
  onlyReset s0 s -> onlyReset s0 (changeState n s).
Proof.
  unfold onlyReset, changeState. intros (A & B & C & D & E).
  destruct (state_eqb n (currentState s)); cbv zeta; fields; [auto 6|].
  destruct (state_eqb n STATE_WAITING_FOR_COIN); fields; auto 6.
Qed.

End OnlyReset.

Ltac onlyReset_special :=
  idtac;
  lazymatch goal with
  | |- onlyReset _ (changeState _ _) => apply onlyReset_changeState
  | |- onlyReset _ (resetSensorCount _) => apply onlyReset_resetSensorCount
  | |- onlyReset _ (clearSensorTrigger _) => apply onlyReset_clearSensorTrigger
  end.

Ltac onlyReset_steps := repeat chain_step onlyReset_frame onlyReset_special.

Lemma onlyReset_handleError (s0 : Machine) (e : StatusCode) (s : Machine) :
  onlyReset s0 s -> onlyReset s0 (handleError e s).
Proof.
  intros F. unfold handleError, systemReset. funnel_cases; onlyReset_steps.
Qed.

Lemma onlyReset_handleWaitingForCoin (s0 s : Machine) :
  onlyReset s0 s -> onlyReset s0 (handleWaitingForCoin s).
Proof.
  intros F. unfold handleWaitingForCoin. funnel_cases; onlyReset_steps.
Qed.

Lemma onlyReset_handleCoinDetected (s0 s : Machine) :
  onlyReset s0 s -> onlyReset s0 (handleCoinDetected s).
Proof.
  intros F. unfold handleCoinDetected, isMultipleCoinDetected.
  funnel_cases; onlyReset_steps.
Qed.

Lemma onlyReset_handleProcessing (s0 s : Machine) :
  onlyReset s0 s -> onlyReset s0 (handleProcessing s).
Proof.
  intros F. unfold handleProcessing. funnel_cases; onlyReset_steps.
Qed.

Lemma onlyReset_handleRejecting (s0 s : Machine) :
  onlyReset s0 s -> onlyReset s0 (handleRejecting s).
Proof.
  intros F. unfold handleRejecting. funnel_cases; onlyReset_steps.
Qed.

Lemma onlyReset_handlePhotographing (s0 : Machine) (out : CaptureOutcome)
    (s : Machine) :
  onlyReset s0 s -> onlyReset s0 (handlePhotographing out s).
Proof.
  intros F.
  unfold handlePhotographing, photoStep, generateImageFilename,
    captureAndSaveImage.
  funnel_cases;
    repeat first [apply onlyReset_handleError
                 | chain_step onlyReset_frame onlyReset_special].
Qed.

Lemma onlyReset_listPhotos (s0 : Machine) (dir : list (string * Z))
    (s : Machine) :
  onlyReset s0 s -> onlyReset s0 (listPhotos dir s).
Proof.
  revert s. induction dir as [|[name size] rest IH]; intros s F; simpl.
  - exact F.
  - apply IH. destruct (String.prefix _ _); onlyReset_steps.
Qed.

Lemma onlyReset_processSerialCommands (s0 : Machine) (e : Env) (s : Machine) :
  onlyReset s0 s -> onlyReset s0 (processSerialCommands e s).
Proof.
  intros F. unfold processSerialCommands, printSystemStatus, systemReset.
  destruct (serialLine e) as [command|]; [|exact F].
  destruct (command =? "status")%string; [cbv zeta; onlyReset_steps|].
  destruct (command =? "test")%string; [onlyReset_steps|].
  destruct (command =? "reset")%string; [cbv zeta; onlyReset_steps|].
  destruct (command =? "photos")%string; cbv zeta.
  - chain_step onlyReset_frame onlyReset_special. apply onlyReset_listPhotos.
    onlyReset_steps.
  - onlyReset_steps.
Qed.

(** X7. The two contexts keep to their sides of the detector. A pass of the
    main loop, whatever it does, never counts an edge, never sets the
    triggered flag and never touches the time of the last counted edge: it
    leaves the count, the window start and the flag as they are or resets
    them. The interrupt handler never writes a variable of the controller or
    a device, never clears the flag, and leaves the count as it is or adds
    one to it. *)
Theorem detector_mutation_policy (e : Env) (s : Machine) :
  onlyReset s (loop e s) /\
  controller (sensorInterrupt s) = controller s /\
  (sensorTriggered s = true -> sensorTriggered (sensorInterrupt s) = true) /\
  (sensorTriggerCount (sensorInterrupt s) = sensorTriggerCount s \/
   sensorTriggerCount (sensorInterrupt s) = to_int (sensorTriggerCount s + 1)).
Proof.
  split; [|split; [|split]].
  - pose proof (onlyReset_start s) as F.
    unfold loop. cbv zeta. destruct (RESET_TIMEOUT <? _).
    + apply onlyReset_handleError. onlyReset_steps.
    + chain_step onlyReset_frame onlyReset_special.
      apply onlyReset_processSerialCommands.
      destruct (currentState s).
      * onlyReset_steps.
      * now apply onlyReset_handleWaitingForCoin.
      * now apply onlyReset_handleCoinDetected.
      * now apply onlyReset_handleProcessing.
      * now apply onlyReset_handlePhotographing.
      * now apply onlyReset_handleRejecting.
      * now apply onlyReset_handleError.
  - unfold sensorInterrupt. cbv zeta.
    repeat (case_innermost; cbv beta iota); reflexivity.
  - apply sensorInterrupt_keeps_controller.
  - unfold sensorInterrupt. cbv zeta.
    repeat (case_innermost; cbv beta iota); fields; auto.
Qed.

Lemma detector_mutation_policy_witness :
  sensorTriggered (sensorInterrupt (run [Edge; Tick 10] ready)) = true.
Proof.
  apply (detector_mutation_policy quiet (run [Edge; Tick 10] ready)).
  by_run.
Defined.
(** ** The report counter *)

Lemma countInRange_frame (s s' : Machine) :
  errorCount s' = errorCount s -> countInRange s -> countInRange s'.
Proof. unfold countInRange. now intros ->. Qed.

Lemma countInRange_handleError (e : StatusCode) (s : Machine) :
  countInRange s -> countInRange (handleError e s).
Proof.
  unfold countInRange. intros H.
  destruct (handleError_effect e s) as [Lo Hi].
  destruct (Z_lt_le_dec (reportsAfter s) 3) as [L|L].
  - destruct (Lo L) as (_ & _ & _ & _ & _ & A & _). rewrite A.
    split; [|exact L]. unfold reportsAfter.
    destruct (reportDue s); [rewrite to_int_small|]; lia.
  - destruct (Hi L) as (_ & A & _). rewrite A. lia.
Qed.

Ltac countInRange_special :=
  idtac;
  lazymatch goal with
  | |- countInRange (handleError _ _) => apply countInRange_handleError
  | |- countInRange (changeState _ ?x) =>
      apply countInRange_frame with (s := x);
      [unfold changeState; funnel_cases; reflexivity|]
  end.

Ltac countInRange_steps :=
  repeat chain_step countInRange_frame countInRange_special.

Lemma countInRange_handlePhotographing (out : CaptureOutcome) (s : Machine) :
  countInRange s -> countInRange (handlePhotographing out s).
Proof.
  intros F.
  unfold handlePhotographing, photoStep, generateImageFilename,
    captureAndSaveImage.
  funnel_cases; countInRange_steps.
Qed.

Lemma countInRange_listPhotos (dir : list (string * Z)) (s : Machine) :
  countInRange s -> countInRange (listPhotos dir s).
Proof.
  revert s. induction dir as [|[name size] rest IH]; intros s F; simpl.
  - exact F.
  - apply IH. destruct (String.prefix _ _); countInRange_steps.
Qed.

Lemma countInRange_processSerialCommands (e : Env) (s : Machine) :
  countInRange s -> countInRange (processSerialCommands e s).
Proof.
  intros F. unfold processSerialCommands, printSystemStatus, systemReset.
  destruct (serialLine e) as [command|]; [|exact F].
  destruct (command =? "status")%string; [cbv zeta; countInRange_steps|].
  destruct (command =? "test")%string; [countInRange_steps|].
  destruct (command =? "reset")%string; [cbv zeta; countInRange_steps|].
  destruct (command =? "photos")%string; cbv zeta.
  - chain_step countInRange_frame countInRange_special.
    apply countInRange_listPhotos. countInRange_steps.
  - countInRange_steps.
Qed.

Lemma countInRange_step (ev : Event) (s : Machine) :
  countInRange s -> countInRange (step s ev).
Proof.
  intros F. destruct ev as [ms| |e]; simpl.
  - exact F.
  - destruct (sensorAttached s); [|exact F].
    apply countInRange_frame with (s := s); [|exact F].
    unfold sensorInterrupt. funnel_cases; reflexivity.
  - unfold loop. cbv zeta. destruct (RESET_TIMEOUT <? _).
    + countInRange_steps.
    + chain_step countInRange_frame countInRange_special.
      apply countInRange_processSerialCommands.
      destruct (currentState s).
      * countInRange_steps.
      * unfold handleWaitingForCoin. funnel_cases; countInRange_steps.
      * unfold handleCoinDetected, isMultipleCoinDetected.
        funnel_cases; countInRange_steps.
      * unfold handleProcessing. funnel_cases; countInRange_steps.
      * now apply countInRange_handlePhotographing.
      * unfold handleRejecting. funnel_cases; countInRange_steps.
      * countInRange_steps.
Qed.

(** X8. In every run of the machine from power-on, through [setup] and any
    sequence of events, the report counter [errorCount] is 0, 1 or 2 between
    events. *)
Theorem report_counter_in_range (e : BootEnv) (evs : list Event) :
  countInRange (run evs (setup e poweron)).
Proof.
  assert (S : countInRange (setup e poweron))
    by (destruct e as [[|] [|]]; vm_compute; (split; [discriminate | reflexivity])).
  revert S. generalize (setup e poweron).
  induction evs as [|ev evs IH]; intros s S; [exact S|].
  rewrite run_cons. apply IH. now apply countInRange_step.
Qed.
(** ** The console *)

Lemma to_ulong_delay (a b c : Z) :
  to_ulong (to_ulong (a + b) + c) = to_ulong (a + (b + c)).
Proof.
  unfold to_ulong. rewrite Zplus_mod_idemp_l. f_equal. lia.
Qed.

Lemma listPhotos_prints_only (dir : list (string * Z)) (s : Machine) :
  controller (listPhotos dir s) = controller s /\
  detector (listPhotos dir s) = detector s.
Proof.
  revert s. induction dir as [|[name size] rest IH]; intros s; simpl.
  - split; reflexivity.
  - destruct (IH (if String.prefix IMAGE_FILENAME_PREFIX name
                  then DEBUG_PRINTLN " bytes)"
                         (DEBUG_PRINT_NUM size
                            (DEBUG_PRINT " ("
                               (DEBUG_PRINT name (DEBUG_PRINT "- " s))))
                  else s)) as [A B].
    rewrite A, B. destruct (String.prefix _ _); split; reflexivity.
Qed.

(** X9. The console commands. A pass of the loop that takes the timeout
    path reads neither the console nor the camera. Otherwise: [status],
    [photos] and unknown commands only print; [test] leaves the state
    machine and the detector as they are, takes 8 s, and leaves the trapdoor
    closed, the flipper home and the lights off, wherever they were;
    [reset] runs [systemReset] and brings the machine to
    [STATE_WAITING_FOR_COIN], recovered if it was elsewhere, without
    touching the report counter. *)
Theorem console_commands (e e' : Env) (command : string) (s : Machine) :
  (RESET_TIMEOUT < timeInState s -> loop e s = loop e' s) /\
  (serialLine e = Some command ->
   command <> "test" -> command <> "reset" ->
   controller (processSerialCommands e s) = controller s /\
   detector (processSerialCommands e s) = detector s) /\
  (serialLine e = Some "test" ->
   let s' := processSerialCommands e s in
   detector s' = detector s /\
   (currentState s', stateStartTime s', lastError s', errorCount s',
    currentPhotoStep s') =
   (currentState s, stateStartTime s, lastError s, errorCount s,
    currentPhotoStep s) /\
   (trapdoorServo s', flipperServo s', statusLED s', cameraLights s') =
   (TRAPDOOR_CLOSED, FLIPPER_HOME, LED_OFF, false) /\
   uptime s' = to_ulong (uptime s + 8000)) /\
  (serialLine e = Some "reset" ->
   let s' := processSerialCommands e s in
   currentState s' = STATE_WAITING_FOR_COIN /\
   safeHardware s' /\
   errorCount s' = errorCount s /\
   (currentState s <> STATE_WAITING_FOR_COIN -> recovered s')).
Proof.
  split; [|split; [|split]].
  - intros H. now rewrite !loop_timed_out.
  - intros Hc Nt Nr. unfold processSerialCommands. rewrite Hc.
    apply String.eqb_neq in Nt, Nr. rewrite Nt, Nr.
    destruct (command =? "status")%string; [split; reflexivity|].
    destruct (command =? "photos")%string; [|split; reflexivity].
    cbv zeta.
    destruct (listPhotos_prints_only (spiffsDir e)
                (DEBUG_PRINTLN "=== Stored Images ===" s)) as [A B].
    split.
    + change (controller (listPhotos (spiffsDir e)
                (DEBUG_PRINTLN "=== Stored Images ===" s)) = controller s).
      now rewrite A.
    + change (detector (listPhotos (spiffsDir e)
                (DEBUG_PRINTLN "=== Stored Images ===" s)) = detector s).
      now rewrite B.
  - intros Hc s'. subst s'. unfold processSerialCommands. rewrite Hc.
    simpl String.eqb. cbv iota. unfold performSystemTest, delay.
    cbv zeta. fields. split_ands; try reflexivity.
    repeat rewrite to_ulong_delay. f_equal; lia.
  - intros Hc s'. subst s'. unfold processSerialCommands. rewrite Hc.
    simpl String.eqb. cbv iota zeta.
    split; [apply changeState_currentState|].
    unfold changeState, safeHardware, recovered.
    destruct (currentState s) eqn:E; fields; rewrite ?E; fields;
      split_ands; auto; intros N; try reflexivity; now elim N.
Qed.

Lemma console_commands_witness :
  let busy := run [Edge; Tick 3; Poll quiet; Tick 100] ready in
  let line (c : string) := mkEnv CaptureOk (Some c) [] 0 in
  loop (line "reset") overdue = loop cameraDown overdue /\
  controller (processSerialCommands (line "status") busy) = controller busy /\
  uptime (processSerialCommands (line "test") busy)
    = to_ulong (uptime busy + 8000) /\
  currentState (processSerialCommands (line "reset") busy)
    = STATE_WAITING_FOR_COIN /\
  recovered (processSerialCommands (line "reset") busy).
Proof.
  intros busy line.
  destruct (console_commands (line "reset") cameraDown "reset" overdue)
    as (A & _ & _ & _).
  destruct (console_commands (line "status") quiet "status" busy)
    as (_ & B & _ & _).
  destruct (console_commands (line "test") quiet "test" busy)
    as (_ & _ & C & _).
  destruct (console_commands (line "reset") quiet "reset" busy)
    as (_ & _ & _ & D).
  split; [apply A; vm_compute; reflexivity|].
  split; [apply B; [reflexivity | discriminate | discriminate]|].
  split; [apply C; reflexivity|].
  destruct D as (D1 & _ & _ & D2); [reflexivity|].
  split; [exact D1 | apply D2; vm_compute; discriminate].
Defined.
(** ** The flipper during the photo sequence *)

Lemma flipperInPlace_inert (s s' : Machine) :
  inert s s' -> flipperInPlace s -> flipperInPlace s'.
Proof.
  unfold inert, flipperInPlace. intros [W|(A & B & C)] F H.
  - rewrite W in H. discriminate H.
  - rewrite A in H. rewrite B, C. auto.
Qed.

Lemma handleError_inert (e : StatusCode) (s : Machine) :
  inert s (handleError e s).
Proof.
  unfold inert.
  destruct (handleError_effect e s) as [Lo Hi].
  destruct (Z_lt_le_dec (reportsAfter s) 3) as [L|L].
  - right. destruct (Lo L) as (A & _ & B & _). split; [exact A|].
    split; [exact B|].
    rewrite (handleError_below e s L). now destruct (reportDue s).
  - left. now destruct (Hi L).
Qed.

Lemma listPhotos_inert (dir : list (string * Z)) (s : Machine) :
  inert s (listPhotos dir s).
Proof.
  destruct (listPhotos_prints_only dir s) as [A _].
  unfold controller in A. right.
  injection A as A1 _ _ _ _ _ A2 _ _ _ _ _ _ _ _ A3 _ _ _. auto.
Qed.

Lemma processSerialCommands_inert (e : Env) (s : Machine) :
  serialLine e <> Some "test" -> inert s (processSerialCommands e s).
Proof.
  intros N. unfold processSerialCommands.
  destruct (serialLine e) as [command|]; [|right; auto].
  destruct (command =? "status")%string; [right; auto|].
  destruct (command =? "test")%string eqn:T.
  { apply String.eqb_eq in T. subst. now elim N. }
  destruct (command =? "reset")%string.
  { left. cbv zeta. apply changeState_currentState. }
  destruct (command =? "photos")%string; [|right; auto]. cbv zeta.
  destruct (listPhotos_inert (spiffsDir e)
              (DEBUG_PRINTLN "=== Stored Images ===" s)) as [W|(A & B & C)];
    [left; exact W | right; auto].
Qed.

Lemma photoStep_out_of_range (out : CaptureOutcome) (s : Machine) :
  ~ 0 <= currentPhotoStep s <= 5 -> photoStep out s = Next s.
Proof.
  intros N. unfold photoStep.
  destruct (currentPhotoStep s) as [|p|p]; [lia| |reflexivity].
  destruct p as [[[p|p|]|[p|p|]|]|[[p|p|]|[p|p|]|]|]; try reflexivity; lia.
Qed.

Lemma flipperInPlace_photoStep (out : CaptureOutcome) (s : Machine) :
  currentState s = STATE_PHOTOGRAPHING ->
  flipperInPlace s ->
  match photoStep out s with
  | Next x => flipperInPlace x
  | Return x => flipperInPlace x
  end.
Proof.
  intros Hs F.
  destruct (Z_le_dec 0 (currentPhotoStep s)) as [L|L];
    [destruct (Z_le_dec (currentPhotoStep s) 5) as [U|U]|].
  2, 3: rewrite photoStep_out_of_range by lia; exact F.
  specialize (F Hs). destruct F as (F12 & F34 & F5).
  assert (currentPhotoStep s = 0 \/ currentPhotoStep s = 1 \/
          currentPhotoStep s = 2 \/ currentPhotoStep s = 3 \/
          currentPhotoStep s = 4 \/ currentPhotoStep s = 5) as K by lia.
  unfold photoStep, generateImageFilename, captureAndSaveImage.
  destruct K as [K|[K|[K|[K|[K|K]]]]]; rewrite K; cbv beta iota zeta.
  all: repeat (case_innermost; cbv beta iota).
  all: try (eapply flipperInPlace_inert; [apply handleError_inert|]).
  all: unfold flipperInPlace; try rewrite changeState_currentState;
    fields; intros H; try discriminate H;
    split_ands; intros [N|N] || intros N; try discriminate N;
    try lia; auto.
Qed.

Lemma flipperInPlace_frame (s s' : Machine) :
  currentState s' = currentState s ->
  currentPhotoStep s' = currentPhotoStep s ->
  flipperServo s' = flipperServo s ->
  flipperInPlace s -> flipperInPlace s'.
Proof. intros A B C. apply flipperInPlace_inert. right. auto. Qed.

Lemma flipperInPlace_at_start (s : Machine) :
  atSequenceStart s -> flipperInPlace s.
Proof.
  intros F H. rewrite (F H). split_ands; intros [N|N] || intros N;
    discriminate N.
Qed.

Lemma flipperInPlace_handlePhotographing (out : CaptureOutcome) (s : Machine) :
  currentState s = STATE_PHOTOGRAPHING ->
  flipperInPlace s -> flipperInPlace (handlePhotographing out s).
Proof.
  intros Hs F. unfold handlePhotographing. cbv zeta.
  pose proof (flipperInPlace_photoStep out (setStatusLED LED_BUSY s) Hs) as P.
  destruct (photoStep out (setStatusLED LED_BUSY s)) as [x|x];
    (assert (flipperInPlace x) as Fx
       by (apply P; revert F; apply flipperInPlace_frame; reflexivity)).
  - destruct (PROCESSING_TIMEOUT <? _); [|exact Fx].
    eapply flipperInPlace_inert; [apply handleError_inert|].
    revert Fx. apply flipperInPlace_frame; reflexivity.
  - exact Fx.
Qed.

Lemma flipperInPlace_loop (e : Env) (s : Machine) :
  serialLine e <> Some "test" ->
  flipperInPlace s -> flipperInPlace (loop e s).
Proof.
  intros Q F. unfold loop. cbv zeta. destruct (RESET_TIMEOUT <? _).
  - eapply flipperInPlace_inert; [apply handleError_inert|].
    revert F. apply flipperInPlace_frame; reflexivity.
  - match goal with |- flipperInPlace (delay 10 ?x) =>
      apply (flipperInPlace_frame x); [reflexivity ..|] end.
    eapply flipperInPlace_inert;
      [apply processSerialCommands_inert; exact Q|].
    destruct (currentState s) eqn:E.
    + apply flipperInPlace_at_start. repeat sequence_step fail.
      apply atSequenceStart_elsewhere. rewrite E. discriminate.
    + apply flipperInPlace_at_start, atSequenceStart_handleWaitingForCoin,
        atSequenceStart_elsewhere. rewrite E. discriminate.
    + apply flipperInPlace_at_start, atSequenceStart_handleCoinDetected,
        atSequenceStart_elsewhere. rewrite E. discriminate.
    + apply flipperInPlace_at_start, atSequenceStart_handleProcessing,
        atSequenceStart_elsewhere. rewrite E. discriminate.
    + now apply flipperInPlace_handlePhotographing.
    + apply flipperInPlace_at_start, atSequenceStart_handleRejecting,
        atSequenceStart_elsewhere. rewrite E. discriminate.
    + apply flipperInPlace_at_start, atSequenceStart_handleError,
        atSequenceStart_elsewhere. rewrite E. discriminate.
Qed.

Lemma sensorInterrupt_inert (s : Machine) : inert s (sensorInterrupt s).
Proof.
  right. unfold sensorInterrupt. cbv zeta.
  repeat (case_innermost; cbv beta iota); split_ands; reflexivity.
Qed.

Lemma console_test_effect (e : Env) (s : Machine) :
  serialLine e = Some "test" ->
  currentState (processSerialCommands e s) = currentState s /\
  currentPhotoStep (processSerialCommands e s) = currentPhotoStep s /\
  flipperServo (processSerialCommands e s) = FLIPPER_HOME.
Proof.
  intros T. unfold processSerialCommands. rewrite T.
  simpl String.eqb. cbv iota. unfold performSystemTest. cbv zeta.
  split_ands; reflexivity.
Qed.

Lemma flipperInPlace_step (ev : Event) (s : Machine) :
  noSelfTest ev -> flipperInPlace s -> flipperInPlace (step s ev).
Proof.
  intros Q F. destruct ev as [ms| |e]; simpl.
  - revert F. apply flipperInPlace_frame; reflexivity.
  - destruct (sensorAttached s); [|exact F].
    revert F. apply flipperInPlace_inert, sensorInterrupt_inert.
  - now apply flipperInPlace_loop.
Qed.

(** X10. From a state in which the flipper is where the photo step needs it
    (any state outside the photo sequence is one), every run of passes,
    sensor edges and waits without the self-test command keeps it there:
    at steps 1 and 2 of the photo sequence the flipper is at side 1, at
    steps 3 and 4 at side 2, at step 5 home.  The self test is excluded
    for a reason: run in the middle of a sequence it sends the flipper home
    and leaves the step as it is. *)
Theorem flipper_in_place (evs : list Event) (s : Machine) :
  flipperInPlace s ->
  Forall noSelfTest evs ->
  flipperInPlace (run evs s) /\
  (currentState s = STATE_PHOTOGRAPHING ->
   currentPhotoStep s = 1 \/ currentPhotoStep s = 2 \/
   currentPhotoStep s = 3 \/ currentPhotoStep s = 4 ->
   forall e : Env, serialLine e = Some "test" ->
   ~ flipperInPlace (processSerialCommands e s)).
Proof.
  intros F Q. split.
  - revert s F. induction Q as [|ev evs Hev _ IH]; intros s F; [exact F|].
    rewrite run_cons. apply IH. now apply flipperInPlace_step.
  - intros Hs K e T B.
    destruct (console_test_effect e s T) as (A1 & A2 & A3).
    unfold flipperInPlace in B. rewrite A1, A2, A3 in B.
    destruct (B Hs) as (B12 & B34 & _).
    destruct K as [K|[K|[K|K]]];
      (discriminate (B12 ltac:(auto)) || discriminate (B34 ltac:(auto))).
Qed.

Lemma flipper_in_place_witness :
  let coin := [Edge; Tick 3; Poll quiet; Tick 1000; Poll quiet; Tick 500;
               Poll quiet; Poll quiet; Tick 500] in
  (flipperInPlace (run coin ready) /\
   currentState (run coin ready) = STATE_PHOTOGRAPHING /\
   currentPhotoStep (run coin ready) = 1) /\
  ~ flipperInPlace
      (processSerialCommands (mkEnv CaptureOk (Some "test") [] 0)
         (run coin ready)).
Proof.
  intros coin.
  assert (flipperInPlace ready) as F
    by (intros H; vm_compute in H; discriminate H).
  assert (Forall noSelfTest coin) as Q
    by (repeat constructor; simpl; discriminate).
  assert (currentState (run coin ready) = STATE_PHOTOGRAPHING) as Hs
    by (vm_compute; reflexivity).
  assert (currentPhotoStep (run coin ready) = 1) as Hk
    by (vm_compute; reflexivity).
  destruct (flipper_in_place coin ready F Q) as [A _].
  assert (flipperInPlace (run coin ready)) as F' by exact A.
  destruct (flipper_in_place [] (run coin ready) F' (Forall_nil _)) as [_ B].
  split; [split; [exact A | split; [exact Hs | exact Hk]]|].
  apply B; [exact Hs | left; exact Hk | reflexivity].
Defined.
(** ** A photo sequence that completes late *)

Lemma handleError_currentPhotoStep (e : StatusCode) (s : Machine) :
  currentPhotoStep (handleError e s) = currentPhotoStep s.
Proof.
  unfold handleError, systemReset, changeState. cbv zeta.
  repeat (case_innermost; cbv beta iota); reflexivity.
Qed.

(** The last step of the photo sequence, the servo delay elapsed. *)
Lemma photoStep_completes (out : CaptureOutcome) (s : Machine) :
  currentState s = STATE_PHOTOGRAPHING ->
  currentPhotoStep s = 5 ->
  SERVO_MOVE_DELAY <= ulong_sub (millis s) (flipperMoveTime s) ->
  exists x : Machine,
    photoStep out (setStatusLED LED_BUSY s) = Next x /\
    currentState x = STATE_WAITING_FOR_COIN /\
    currentPhotoStep x = 0 /\
    stateStartTime x = millis s /\
    lastError x = STATUS_OK /\
    reportsAfter (DEBUG_PRINTLN "ERROR: Photography sequence timeout" x)
      = reportsAfter s /\
    exists l : list SerialTok,
      serial x = serial s ++ Println "Photography sequence complete" :: l.
Proof.
  intros Hs Hk Hg. eexists. split.
  - unfold photoStep. cbv zeta.
    change (currentPhotoStep (setStatusLED LED_BUSY s))
      with (currentPhotoStep s).
    rewrite Hk. cbv iota.
    change (SERVO_MOVE_DELAY <=?
              ulong_sub (millis (setStatusLED LED_BUSY s))
                (flipperMoveTime (setStatusLED LED_BUSY s)))
      with (SERVO_MOVE_DELAY <=? ulong_sub (millis s) (flipperMoveTime s)).
    rewrite (leb_true _ _ Hg). unfold changeState. fields. rewrite Hs. fields.
    reflexivity.
  - unfold reportsAfter, reportDue. fields. rewrite <- !app_assoc.
    split_ands; try reflexivity. eexists. reflexivity.
Qed.

(** X11. The last step of the photo sequence runs before the timeout test
    of [handlePhotographing], and the test uses the time in state measured
    at the start of the pass. A sequence that completes on a pass made more
    than [PROCESSING_TIMEOUT] after the state was entered is therefore
    completed and reported as timed out in the same pass: the machine is
    back in [STATE_WAITING_FOR_COIN] with the step at 0, both messages are
    on the console, and the error handler has run on the waiting machine,
    counting a report against it (LED on error) or, at the third report,
    resetting the hardware. *)
Theorem late_completion (out : CaptureOutcome) (s : Machine) :
  currentState s = STATE_PHOTOGRAPHING ->
  currentPhotoStep s = 5 ->
  SERVO_MOVE_DELAY <= ulong_sub (millis s) (flipperMoveTime s) ->
  PROCESSING_TIMEOUT < timeInState s ->
  let s' := handlePhotographing out s in
  currentState s' = STATE_WAITING_FOR_COIN /\
  currentPhotoStep s' = 0 /\
  stateStartTime s' = millis s /\
  lastError s' = STATUS_OK /\
  In (Println "Photography sequence complete") (logged s s') /\
  In (Println "ERROR: Photography sequence timeout") (logged s s') /\
  (reportsAfter s < 3 ->
   errorCount s' = reportsAfter s /\ statusLED s' = LED_ERROR) /\
  (3 <= reportsAfter s -> errorCount s' = 0 /\ safeHardware s').
Proof.
  intros Hs Hk Hg Ht s'.
  destruct (photoStep_completes out s Hs Hk Hg)
    as (x & P & Xs & Xk & Xt & Xe & Xr & l & Xl).
  assert (E : s' = handleError STATUS_TIMEOUT_ERROR
                (DEBUG_PRINTLN "ERROR: Photography sequence timeout" x)).
  { subst s'. unfold handlePhotographing. cbv zeta. rewrite P.
    unfold timeInState, millis in Ht. now settle_test. }
  set (y := DEBUG_PRINTLN "ERROR: Photography sequence timeout" x) in *.
  assert (Ys : currentState y = STATE_WAITING_FOR_COIN) by exact Xs.
  destruct (handleError_effect STATUS_TIMEOUT_ERROR y) as [Lo Hi].
  destruct (handleError_appends STATUS_TIMEOUT_ERROR y) as [l' L'].
  assert (Hl : logged s s' =
               Println "Photography sequence complete" ::
               l ++ Println "ERROR: Photography sequence timeout" :: l').
  { unfold logged. rewrite E, L'. subst y. fields. rewrite Xl.
    rewrite <- !app_assoc. rewrite skipn_length_app.
    reflexivity. }
  rewrite E, Xr in *.
  split_ands.
  - destruct (Z_lt_le_dec (reportsAfter s) 3) as [L|L].
    + destruct (Lo L) as (A & _). now rewrite A.
    + now destruct (Hi L).
  - now rewrite handleError_currentPhotoStep.
  - destruct (Z_lt_le_dec (reportsAfter s) 3) as [L|L].
    + destruct (Lo L) as (_ & _ & _ & A & _). now rewrite A.
    + destruct (Hi L) as (_ & _ & _ & _ & _ & A).
      destruct (A Ys) as [_ B]. now rewrite B.
  - destruct (Z_lt_le_dec (reportsAfter s) 3) as [L|L].
    + destruct (Lo L) as (_ & A & _). now rewrite A.
    + destruct (Hi L) as (_ & _ & _ & _ & _ & A).
      destruct (A Ys) as [B _]. now rewrite B.
  - rewrite Hl. now left.
  - rewrite Hl. right. apply in_or_app. right. now left.
  - intros L. destruct (Lo L) as (_ & _ & _ & _ & _ & A & _).
    split; [exact A|].
    assert (L2 : reportsAfter y < 3) by (rewrite Xr; exact L).
    rewrite (handleError_below STATUS_TIMEOUT_ERROR y L2).
    now destruct (reportDue y).
  - intros L. destruct (Hi L) as (_ & A & B & _). now split.
Qed.

Lemma late_completion_witness :
  let s' := handlePhotographing CaptureOk slowSequence in
  currentState slowSequence = STATE_PHOTOGRAPHING /\
  PROCESSING_TIMEOUT < timeInState slowSequence /\
  currentState s' = STATE_WAITING_FOR_COIN /\
  In (Println "ERROR: Photography sequence timeout") (logged slowSequence s') /\
  errorCount s' = 1.
Proof.
  intros s'.
  assert (Hs : currentState slowSequence = STATE_PHOTOGRAPHING)
    by (vm_compute; reflexivity).
  assert (Hk : currentPhotoStep slowSequence = 5) by (vm_compute; reflexivity).
  assert (Hg : SERVO_MOVE_DELAY <=
               ulong_sub (millis slowSequence) (flipperMoveTime slowSequence))
    by (vm_compute; discriminate).
  assert (Ht : PROCESSING_TIMEOUT < timeInState slowSequence)
    by (vm_compute; reflexivity).
  assert (Hr : reportsAfter slowSequence = 1) by (vm_compute; reflexivity).
  destruct (late_completion CaptureOk slowSequence Hs Hk Hg Ht)
    as (A & _ & _ & _ & _ & B & C & _).
  split; [exact Hs|]. split; [exact Ht|]. split; [exact A|].
  split; [exact B|].
  destruct C as [C _]; [rewrite Hr; reflexivity|].
  fold s' in C. rewrite C. exact Hr.
Defined.
(** ** Image file names *)

Lemma append_inj_l (p a b : string) : (p ++ a = p ++ b)%string -> a = b.
Proof.
  induction p as [|c p IH]; simpl; intros H; [exact H|].
  injection H as H. auto.
Qed.

Lemma append_assoc (a b c : string) :
  ((a ++ b) ++ c = a ++ (b ++ c))%string.
Proof. induction a as [|x a IH]; simpl; [reflexivity | now rewrite IH]. Qed.

(** Two strings cut at the first occurrence of a character. *)
Lemma append_cut (c : Ascii.ascii) (a b r1 r2 : string) :
  occurs c a = false -> occurs c b = false ->
  (a ++ String c r1 = b ++ String c r2)%string -> a = b /\ r1 = r2.
Proof.
  revert b. induction a as [|x a IH]; intros [|y b]; simpl; intros Ha Hb H.
  - injection H as H. auto.
  - injection H as H _. subst y. now rewrite Ascii.eqb_refl in Hb.
  - injection H as H _. subst x. now rewrite Ascii.eqb_refl in Ha.
  - injection H as Hx H. subst y.
    apply orb_false_iff in Ha, Hb.
    destruct (IH b (proj2 Ha) (proj2 Hb) H) as [A B]. subst. auto.
Qed.

Lemma digits_only (c : Ascii.ascii) (d : Decimal.uint) :
  c = "_"%char \/ c = "."%char ->
  occurs c (NilEmpty.string_of_uint d) = false.
Proof. intros [-> | ->]; induction d; simpl; auto. Qed.

Lemma string_of_Z_plain (c : Ascii.ascii) (n : Z) :
  c = "_"%char \/ c = "."%char -> occurs c (string_of_Z n) = false.
Proof.
  intros Hc. unfold string_of_Z.
  assert (U : forall d, occurs c (NilZero.string_of_uint d) = false).
  { intros d. pose proof (digits_only c d Hc) as D.
    destruct d; try exact D. now destruct Hc as [-> | ->]. }
  destruct n as [|p|p]; simpl; [apply (U (Decimal.D0 Decimal.Nil))|apply U|].
  rewrite U. now destruct Hc as [-> | ->].
Qed.

Lemma string_of_Z_inj (n m : Z) : string_of_Z n = string_of_Z m -> n = m.
Proof.
  unfold string_of_Z. intros H. apply DecimalZ.to_int_inj.
  assert (N : forall z, Z.to_int z <> Decimal.Pos Decimal.Nil /\
                        Z.to_int z <> Decimal.Neg Decimal.Nil).
  { intros [|p|p]; simpl; split; try discriminate; intros E;
      injection E as E; now apply DecimalPos.Unsigned.to_uint_nonnil in E. }
  pose proof (NilZero.isi (Z.to_int n) (proj1 (N n)) (proj2 (N n))) as A.
  pose proof (NilZero.isi (Z.to_int m) (proj1 (N m)) (proj2 (N m))) as B.
  rewrite H in A. rewrite A in B. now injection B.
Qed.

Lemma to_int_succ_differs (z : Z) :
  - 2 ^ 31 <= z < 2 ^ 31 -> to_int (z + 1) <> z.
Proof.
  unfold to_int, ULONG_RANGE. intros R E.
  destruct (Z.eq_dec z (2 ^ 31 - 1)) as [->|N].
  - vm_compute in E. discriminate E.
  - rewrite Z.mod_small in E; lia.
Qed.

Lemma to_int_range (z : Z) : - 2 ^ 31 <= to_int z < 2 ^ 31.
Proof.
  unfold to_int, ULONG_RANGE.
  pose proof (Z.mod_pos_bound (z + 2 ^ 31) (2 ^ 32) ltac:(lia)). lia.
Qed.

(** X12. The name that [generateImageFilename] returns determines the clock
    reading and the counter it was built from: two calls return the same
    name only at the same millisecond and with the same counter. Each call
    advances the counter, so the call that follows another, at whatever
    time, returns a different name. *)
Theorem generated_names_differ (s1 s2 : Machine) :
  (fst (generateImageFilename s1) = fst (generateImageFilename s2) ->
   millis s1 = millis s2 /\
   imageCounter (snd (generateImageFilename s1))
     = imageCounter (snd (generateImageFilename s2))) /\
  (imageCounter s2 = imageCounter (snd (generateImageFilename s1)) ->
   fst (generateImageFilename s2) <> fst (generateImageFilename s1)).
Proof.
  assert (Inj : fst (generateImageFilename s1) = fst (generateImageFilename s2) ->
   millis s1 = millis s2 /\
   imageCounter (snd (generateImageFilename s1))
     = imageCounter (snd (generateImageFilename s2))).
  { unfold generateImageFilename. cbv zeta. fields. intros H.
    rewrite !append_assoc in H. apply append_inj_l in H.
    change ("_" ++ ?x)%string with (String "_" x) in H.
    apply append_cut in H; try (apply string_of_Z_plain; auto).
    destruct H as [A B]. apply string_of_Z_inj in A.
    unfold IMAGE_FILENAME_SUFFIX in B.
    apply append_cut in B; try (apply string_of_Z_plain; auto).
    destruct B as [B _]. apply string_of_Z_inj in B. auto. }
  split; [exact Inj|].
  intros Hc E. symmetry in E. destruct (Inj E) as [_ C].
  unfold generateImageFilename in C, Hc. cbv zeta in C, Hc.
  fields_in C. fields_in Hc. rewrite Hc in C.
  symmetry in C. revert C. apply to_int_succ_differs, to_int_range.
Qed.

Lemma generated_names_differ_witness :
  let first := generateImageFilename ready in
  let second := generateImageFilename (delay 800 (snd first)) in
  millis ready = millis (setStatusLED LED_BUSY ready) /\
  fst first = "/coin_10000_1.jpg" /\
  fst second <> fst first.
Proof.
  intros first second.
  destruct (generated_names_differ ready (setStatusLED LED_BUSY ready))
    as [A _].
  destruct (generated_names_differ ready (delay 800 (snd first))) as [_ B].
  split; [apply A; reflexivity|].
  split; [vm_compute; reflexivity|].
  apply B. reflexivity.
Defined.
(** ** The devices between two passes *)

Ltac rest_cases :=
  cbv beta iota zeta; repeat (case_innermost; cbv beta iota zeta).

(** Closes [atRest] of a chain of assignments from [atRest] of the machine
    it starts from. *)
Ltac rest_close :=
  unfold atRest in *; fields;
  repeat match goal with
         | H : _ /\ _ |- _ => destruct H
         | H : state_eqb _ _ = _ |- _ => clear H
         end;
  split_ands; try reflexivity; try assumption;
  intros;
  repeat match goal with
         | H : _ \/ _ |- _ => destruct H
         end;
  try discriminate; try congruence; auto;
  try solve [intuition (try discriminate; try congruence)].

Lemma atRest_handleError (e : StatusCode) (s : Machine) :
  atRest s -> atRest (handleError e s).
Proof.
  intros F. unfold handleError, changeState. rest_cases; rest_close.
Qed.

Ltac rest_handler Hs :=
  cbv zeta; fields; rewrite ?Hs; fields; rest_cases;
  unfold atRest in *; fields; rewrite ?Hs in *; fields;
  repeat match goal with
         | H : _ /\ _ |- _ => destruct H
         end;
  split_ands; try reflexivity; try assumption;
  intros;
  repeat match goal with
         | H : _ \/ _ |- _ => destruct H
         end;
  try discriminate; try congruence; auto;
  try solve [intuition (try discriminate; try congruence)].

Lemma atRest_handleWaitingForCoin (s : Machine) :
  currentState s = STATE_WAITING_FOR_COIN ->
  atRest s -> atRest (handleWaitingForCoin s).
Proof.
  intros Hs F. unfold handleWaitingForCoin, changeState. rest_handler Hs.
Qed.

Lemma atRest_handleCoinDetected (s : Machine) :
  currentState s = STATE_COIN_DETECTED ->
  atRest s -> atRest (handleCoinDetected s).
Proof.
  intros Hs F.
  unfold handleCoinDetected, isMultipleCoinDetected, changeState.
  rest_handler Hs.
Qed.

Lemma atRest_handleProcessing (s : Machine) :
  currentState s = STATE_PROCESSING ->
  atRest s -> atRest (handleProcessing s).
Proof.
  intros Hs F. unfold handleProcessing, changeState. rest_handler Hs.
Qed.

Lemma atRest_handleRejecting (s : Machine) :
  currentState s = STATE_REJECTING ->
  atRest s -> atRest (handleRejecting s).
Proof.
  intros Hs F. unfold handleRejecting, changeState. rest_handler Hs.
Qed.

Lemma atRest_photoStep (out : CaptureOutcome) (s : Machine) :
  currentState s = STATE_PHOTOGRAPHING ->
  atRest s ->
  match photoStep out s with
  | Next x => atRest x
  | Return x => atRest x
  end.
Proof.
  intros Hs F.
  destruct (Z_le_dec 0 (currentPhotoStep s)) as [L|L];
    [destruct (Z_le_dec (currentPhotoStep s) 5) as [U|U]|].
  2, 3: rewrite photoStep_out_of_range by lia; exact F.
  assert (currentPhotoStep s = 0 \/ currentPhotoStep s = 1 \/
          currentPhotoStep s = 2 \/ currentPhotoStep s = 3 \/
          currentPhotoStep s = 4 \/ currentPhotoStep s = 5) as K by lia.
  clear L U.
  unfold photoStep, generateImageFilename, captureAndSaveImage, changeState.
  destruct K as [K|[K|[K|[K|[K|K]]]]]; rewrite K; cbv beta iota zeta;
    fields; rewrite ?Hs; fields; rest_cases;
    try apply atRest_handleError;
    rest_handler Hs.
Qed.

Lemma atRest_handlePhotographing (out : CaptureOutcome) (s : Machine) :
  currentState s = STATE_PHOTOGRAPHING ->
  atRest s -> atRest (handlePhotographing out s).
Proof.
  intros Hs F. unfold handlePhotographing. cbv zeta.
  assert (F' : atRest (setStatusLED LED_BUSY s)) by exact F.
  pose proof (atRest_photoStep out (setStatusLED LED_BUSY s) Hs F') as P.
  destruct (photoStep out (setStatusLED LED_BUSY s)) as [x|x]; [|exact P].
  destruct (PROCESSING_TIMEOUT <? _); [|exact P].
  apply atRest_handleError. exact P.
Qed.

Lemma atRest_listPhotos (dir : list (string * Z)) (s : Machine) :
  atRest s -> atRest (listPhotos dir s).
Proof.
  revert s. induction dir as [|[name size] rest IH]; intros s F; simpl.
  - exact F.
  - apply IH. destruct (String.prefix _ _); exact F.
Qed.

Lemma atRest_processSerialCommands (e : Env) (s : Machine) :
  atRest s -> atRest (processSerialCommands e s).
Proof.
  intros F. unfold processSerialCommands, printSystemStatus.
  destruct (serialLine e) as [command|]; [|exact F].
  destruct (command =? "status")%string; [exact F|].
  destruct (command =? "test")%string.
  { unfold performSystemTest. cbv zeta. rest_close. }
  destruct (command =? "reset")%string.
  { unfold changeState. rest_cases; rest_close. }
  destruct (command =? "photos")%string; [|exact F]. cbv zeta.
  exact (atRest_listPhotos (spiffsDir e)
           (DEBUG_PRINTLN "=== Stored Images ===" s) F).
Qed.

Lemma atRest_step (ev : Event) (s : Machine) :
  atRest s -> atRest (step s ev).
Proof.
  intros F. destruct ev as [ms| |e]; simpl.
  - exact F.
  - destruct (sensorAttached s); [|exact F].
    unfold sensorInterrupt. rest_cases; exact F.
  - unfold loop. cbv zeta. destruct (RESET_TIMEOUT <? _).
    + apply atRest_handleError. exact F.
    + match goal with |- atRest (delay 10 ?x) =>
        change (atRest x) end.
      apply atRest_processSerialCommands.
      destruct (currentState s) eqn:E.
      * unfold changeState. rest_handler E.
      * now apply atRest_handleWaitingForCoin.
      * now apply atRest_handleCoinDetected.
      * now apply atRest_handleProcessing.
      * now apply atRest_handlePhotographing.
      * now apply atRest_handleRejecting.
      * now apply atRest_handleError.
Qed.

Lemma atRest_setup (e : BootEnv) : atRest (setup e poweron).
Proof.
  destruct e as [[|] [|]]; unfold atRest; split_ands;
    try (vm_compute; reflexivity); intros _; vm_compute; reflexivity.
Qed.

(** X13. After [setup], whether it succeeded or not, and after every pass,
    edge and wait that follows, whatever the camera and the console do: the
    camera lights are off, the trapdoor is closed unless the machine is in
    [STATE_REJECTING], and the flipper is home unless the machine is in
    [STATE_PHOTOGRAPHING] past step 0 and before step 5. *)
Theorem devices_at_rest (e : BootEnv) (evs : list Event) :
  atRest (run evs (setup e poweron)).
Proof.
  generalize (atRest_setup e). generalize (setup e poweron).
  induction evs as [|ev evs IH]; intros s F; [exact F|].
  rewrite run_cons. apply IH. now apply atRest_step.
Qed.
(** ** The schedule of the photo sequence *)

Lemma delay_delay (a b : Z) (s : Machine) :
  delay a (delay b s) = delay (b + a) s.
Proof.
  unfold delay. fields. now rewrite to_ulong_delay.
Qed.

(** A pass in [STATE_PHOTOGRAPHING], the console quiet and neither timeout
    reached, is the photo step followed by the 10 ms of the loop. *)
Lemma photo_pass (e : Env) (s x : Machine) :
  serialLine e = None ->
  currentState s = STATE_PHOTOGRAPHING ->
  timeInState s <= PROCESSING_TIMEOUT ->
  photoStep (capture e) (setStatusLED LED_BUSY s) = Next x ->
  loop e s = delay 10 x.
Proof.
  intros Hq Hs Ht P.
  rewrite (loop_quiet e s Hq) by (unfold RESET_TIMEOUT, PROCESSING_TIMEOUT in *; lia).
  rewrite Hs. unfold handlePhotographing. cbv zeta. rewrite P.
  change (ulong_sub (millis (setStatusLED LED_BUSY s))
            (stateStartTime (setStatusLED LED_BUSY s)))
    with (timeInState s).
  now rewrite (ltb_false _ _ Ht).
Qed.

Lemma photoStep_waits (out : CaptureOutcome) (s : Machine) :
  1 <= currentPhotoStep s <= 5 ->
  waited s < stepDelay (currentPhotoStep s) ->
  photoStep out s = Next s.
Proof.
  intros R W. unfold waited in W.
  assert (currentPhotoStep s = 1 \/ currentPhotoStep s = 2 \/
          currentPhotoStep s = 3 \/ currentPhotoStep s = 4 \/
          currentPhotoStep s = 5) as K by lia.
  unfold photoStep.
  destruct K as [K|[K|[K|[K|K]]]]; rewrite K in *; cbv beta iota zeta;
    simpl stepDelay in W; now rewrite (leb_false _ _ W).
Qed.

(** Passes that find the delay of the current step still running change
    nothing but the clock. *)
Lemma photo_waits (e : Env) (n : nat) :
  forall s : Machine,
  serialLine e = None ->
  currentState s = STATE_PHOTOGRAPHING ->
  statusLED s = LED_BUSY ->
  1 <= currentPhotoStep s <= 5 ->
  waited s + 10 * Z.of_nat n < stepDelay (currentPhotoStep s) ->
  timeInState s + 10 * Z.of_nat n <= PROCESSING_TIMEOUT ->
  run (repeat (Poll e) (S n)) s = delay (10 * Z.of_nat (S n)) s.
Proof.
  assert (One : forall s : Machine,
    serialLine e = None ->
    currentState s = STATE_PHOTOGRAPHING ->
    statusLED s = LED_BUSY ->
    1 <= currentPhotoStep s <= 5 ->
    waited s < stepDelay (currentPhotoStep s) ->
    timeInState s <= PROCESSING_TIMEOUT ->
    loop e s = delay 10 s).
  { intros s Hq Hs Hl R W T.
    rewrite (photo_pass e s (setStatusLED LED_BUSY s) Hq Hs T).
    - rewrite <- Hl. reflexivity.
    - now apply photoStep_waits. }
  induction n as [|n IH]; intros s Hq Hs Hl R W T.
  - simpl. apply One; auto; lia.
  - change (repeat (Poll e) (S (S n))) with (Poll e :: repeat (Poll e) (S n)).
    rewrite run_cons. simpl step.
    assert (Sd : stepDelay (currentPhotoStep s) <= 500)
      by (unfold stepDelay;
          destruct (currentPhotoStep s) as [|[[[]|[]|]|[[]|[]|]|]|];
          vm_compute; discriminate).
    pose proof (to_ulong_range (millis s - flipperMoveTime s)) as Wr.
    pose proof (to_ulong_range (millis s - stateStartTime s)) as Tr.
    fold (ulong_sub (millis s) (flipperMoveTime s)) in Wr.
    fold (ulong_sub (millis s) (stateStartTime s)) in Tr.
    change (ulong_sub (millis s) (flipperMoveTime s)) with (waited s) in Wr.
    change (ulong_sub (millis s) (stateStartTime s)) with (timeInState s) in Tr.
    rewrite (One s) by (auto; lia).
    rewrite IH; auto.
    + rewrite delay_delay. f_equal. lia.
    + unfold waited, delay, millis. fields. rewrite ulong_sub_later.
      change (ulong_sub (uptime s) (flipperMoveTime s)) with (waited s).
      rewrite to_ulong_small by (unfold ULONG_RANGE; lia). lia.
    + unfold timeInState, delay, millis. fields. rewrite ulong_sub_later.
      change (ulong_sub (uptime s) (stateStartTime s)) with (timeInState s).
      rewrite to_ulong_small
        by (unfold ULONG_RANGE, PROCESSING_TIMEOUT in *; lia).
      lia.
Qed.
(** ** The timeout of the main loop, on both sides of the limit *)

(** C1, amended. When a pass of the main loop finds the current state (any
    state, [STATE_INIT] included) older than [RESET_TIMEOUT], strictly, it
    prints its warning, calls the error handler with [STATUS_TIMEOUT_ERROR]
    and does nothing else in that pass. The machine does not enter
    [STATE_ERROR] and [lastError] is not set to [STATUS_TIMEOUT_ERROR]:
    while the report count stays below 3 the state and the error code are
    unchanged; when it reaches 3 the hardware is reset and the machine is in
    [STATE_WAITING_FOR_COIN], with the error cleared if it came from another
    state. When the state is at most [RESET_TIMEOUT] old, exactly
    [RESET_TIMEOUT] included, the pass is the state's own handler, followed
    by the console commands and the 10 ms of the loop. *)
Theorem loop_timeout (e : Env) (s : Machine) :
  (RESET_TIMEOUT < timeInState s ->
   loop e s =
     handleError STATUS_TIMEOUT_ERROR
       (DEBUG_PRINTLN "WARNING: State timeout, performing reset" s) /\
   (reportsAfter s < 3 ->
    currentState (loop e s) = currentState s /\
    lastError (loop e s) = lastError s /\
    errorCount (loop e s) = reportsAfter s) /\
   (3 <= reportsAfter s ->
    currentState (loop e s) = STATE_WAITING_FOR_COIN /\
    errorCount (loop e s) = 0 /\
    safeHardware (loop e s) /\
    (currentState s <> STATE_WAITING_FOR_COIN ->
     lastError (loop e s) = STATUS_OK) /\
    (currentState s = STATE_WAITING_FOR_COIN ->
     lastError (loop e s) = lastError s))) /\
  (timeInState s <= RESET_TIMEOUT ->
   loop e s =
     delay 10
       (processSerialCommands e
          match currentState s with
          | STATE_INIT => changeState STATE_WAITING_FOR_COIN s
          | STATE_WAITING_FOR_COIN => handleWaitingForCoin s
          | STATE_COIN_DETECTED => handleCoinDetected s
          | STATE_PROCESSING => handleProcessing s
          | STATE_PHOTOGRAPHING => handlePhotographing (capture e) s
          | STATE_REJECTING => handleRejecting s
          | STATE_ERROR => handleError (lastError s) s
          end)).
Proof.
  split.
  - intros Ht. rewrite (loop_timed_out e s Ht).
    set (w := DEBUG_PRINTLN "WARNING: State timeout, performing reset" s).
    destruct (handleError_effect STATUS_TIMEOUT_ERROR w) as [Lo Hi].
    change (reportsAfter w) with (reportsAfter s) in Lo, Hi.
    change (currentState w) with (currentState s) in Lo, Hi.
    change (lastError w) with (lastError s) in Lo, Hi.
    split; [reflexivity|]. split; intros H.
    + destruct (Lo H) as (A & B & _ & _ & _ & C & _). auto.
    + destruct (Hi H) as (A & B & C & _ & D & E).
      split; [exact A|]. split; [exact B|]. split; [exact C|]. split.
      * intros N. now destruct (D N) as [(? & _) _].
      * intros N. now destruct (E N).
  - intros Ht. unfold loop.
    change (ulong_sub (millis s) (stateStartTime s)) with (timeInState s).
    now rewrite (ltb_false _ _ Ht).
Qed.

Lemma loop_timeout_witness :
  (timeInState overdue = RESET_TIMEOUT + 11 /\
   currentState (loop quiet overdue) = currentState overdue /\
   lastError (loop quiet overdue) = lastError overdue /\
   errorCount (loop quiet overdue) = 1) /\
  (currentState (loop quiet overdueTwice) = STATE_WAITING_FOR_COIN /\
   errorCount (loop quiet overdueTwice) = 0 /\
   safeHardware (loop quiet overdueTwice) /\
   lastError (loop quiet overdueTwice) = STATUS_OK) /\
  (timeInState onTheDot = RESET_TIMEOUT /\
   loop quiet onTheDot =
     delay 10 (processSerialCommands quiet (handleCoinDetected onTheDot))).
Proof.
  assert (T1 : RESET_TIMEOUT < timeInState overdue) by (vm_compute; reflexivity).
  assert (T2 : RESET_TIMEOUT < timeInState overdueTwice)
    by (vm_compute; reflexivity).
  assert (T3 : timeInState onTheDot <= RESET_TIMEOUT)
    by (vm_compute; discriminate).
  assert (S3 : currentState onTheDot = STATE_COIN_DETECTED)
    by (vm_compute; reflexivity).
  destruct (loop_timeout quiet overdue) as [A _].
  destruct (A T1) as (_ & A1 & _).
  destruct (loop_timeout quiet overdueTwice) as [B _].
  destruct (B T2) as (_ & _ & B1).
  destruct (loop_timeout quiet onTheDot) as [_ C].
  pose proof (C T3) as C1. rewrite S3 in C1.
  split; [split; [vm_compute; reflexivity|]; apply A1; vm_compute; reflexivity|].
  split.
  - destruct B1 as (B2 & B3 & B4 & B5 & _); [vm_compute; discriminate|].
    split; [exact B2|]. split; [exact B3|]. split; [exact B4|].
    apply B5. vm_compute. discriminate.
  - split; [vm_compute; reflexivity | exact C1].
Defined.
(** ** A failed capture, and what it prints *)




(** ** The debounce rule *)

Lemma counted_bounds (gaps : list Z) :
  forall a : Z, 0 <= counted a gaps <= Z.of_nat (List.length gaps).
Proof.
  induction gaps as [|g gaps IH]; intros a; cbn [counted]; [simpl; lia|].
  rewrite List.length_cons, Nat2Z.inj_succ.
  destruct (a + g <? SENSOR_DEBOUNCE_TIME);
    [specialize (IH (a + g)) | specialize (IH 0)]; lia.
Qed.

(** The count after a burst of edges, whatever their spacing: each edge is
    measured against the last counted one. *)
Lemma burst_counted (gaps : list Z) :
  forall s : Machine,
  sensorAttached s = true ->
  Forall (fun g => 0 <= g) gaps ->
  ulong_sub (uptime s) (lastSensorTrigger s) + total gaps < ULONG_RANGE ->
  0 < sensorTriggerCount s ->
  sensorTriggerCount s + Z.of_nat (List.length gaps) < 2 ^ 31 ->
  sensorTriggerCount (run (burst gaps) s) =
    sensorTriggerCount s
    + counted (ulong_sub (uptime s) (lastSensorTrigger s)) gaps /\
  sensorWindowStart (run (burst gaps) s) = sensorWindowStart s.
Proof.
  induction gaps as [|g gaps IH]; intros s Ha Hg Hb Hc Hn.
  { simpl. split; [lia | reflexivity]. }
  inversion Hg as [|? ? Pg Pgaps]; subst. simpl total in Hb.
  assert (Pt : 0 <= total gaps).
  { clear -Pgaps. induction Pgaps; simpl; lia. }
  pose proof (to_ulong_range (uptime s - lastSensorTrigger s)) as Hr.
  change (to_ulong (uptime s - lastSensorTrigger s))
    with (ulong_sub (uptime s) (lastSensorTrigger s)) in Hr.
  set (a := ulong_sub (uptime s) (lastSensorTrigger s)) in *.
  rewrite List.length_cons, Nat2Z.inj_succ in Hn.
  simpl burst. rewrite !(run_gap_edge g _ s Ha).
  assert (E : ulong_sub (uptime (delay g s)) (lastSensorTrigger (delay g s))
              = a + g).
  { unfold delay. fields. rewrite ulong_sub_later. apply to_ulong_small.
    fold a. lia. }
  cbn [counted]. destruct (a + g <? SENSOR_DEBOUNCE_TIME) eqn:D.
  - apply Z.ltb_lt in D.
    rewrite sensorInterrupt_bounce
      by (unfold pastDebounce, millis; rewrite E; lia).
    destruct (IH (delay g s)) as [A B]; try assumption;
      try (rewrite E; lia); try (fields; lia).
    rewrite E in A. split; [exact A | exact B].
  - apply Z.ltb_ge in D.
    assert (P : pastDebounce (delay g s))
      by (unfold pastDebounce, millis; rewrite E; exact D).
    rewrite (sensorInterrupt_counted _ P).
    change (sensorTriggerCount (delay g s)) with (sensorTriggerCount s).
    assert (Z0 : (sensorTriggerCount s =? 0) = false)
      by (apply Z.eqb_neq; lia).
    rewrite Z0. rewrite to_int_small by lia.
    match goal with |- context [run (burst gaps) ?x] => set (x1 := x) end.
    assert (E1 : ulong_sub (uptime x1) (lastSensorTrigger x1) = 0)
      by (subst x1; fields; apply ulong_sub_diag).
    destruct (IH x1) as [A B].
    + exact Ha.
    + exact Pgaps.
    + rewrite E1. lia.
    + subst x1. fields. lia.
    + subst x1. fields. lia.
    + rewrite A, B, E1. subst x1. fields. split; [lia | reflexivity].
Qed.

(** C5, amended. The detector starting with an empty window, and the first
    edge of the sequence being counted: an edge is counted exactly if it
    arrives at least the debounce interval after the last counted edge (not
    after the edge before it), so that the count after the sequence is 1
    plus the number of later edges that the rule [counted] keeps. In
    particular, if all the later edges arrive less than the debounce
    interval after the first edge, the count after the sequence is 1; and if
    the edges are each at least the debounce interval after the one before
    and all arrive within [MULTI_COIN_TIMEOUT] of the first, the count after
    the sequence, and from then on until the controller resets it, is the
    number of edges, all in the window opened by the first. *)
Theorem edges_counted (gaps : list Z) (d : Z) (s : Machine) :
  sensorAttached s = true ->
  sensorTriggerCount s = 0 ->
  pastDebounce s ->
  Forall (fun g => 0 <= g) gaps ->
  (total gaps < ULONG_RANGE ->
   Z.of_nat (List.length gaps) < 2 ^ 31 - 1 ->
   sensorTriggerCount (run (Edge :: burst gaps) s) = 1 + counted 0 gaps) /\
  (total gaps < SENSOR_DEBOUNCE_TIME ->
   sensorTriggerCount (run (Edge :: burst gaps) s) = 1) /\
  (Forall (fun g => SENSOR_DEBOUNCE_TIME <= g) gaps ->
   total gaps <= MULTI_COIN_TIMEOUT ->
   sensorTriggerCount (run (Edge :: burst gaps ++ [Tick d]) s) =
     1 + Z.of_nat (List.length gaps) /\
   sensorWindowStart (run (Edge :: burst gaps ++ [Tick d]) s) = millis s).
Proof.
  intros Ha H0 Hp Hg.
  rewrite !run_cons, (step_edge s Ha), (sensorInterrupt_counted s Hp).
  rewrite H0. change (0 =? 0) with true. cbv iota.
  change (to_int (0 + 1)) with 1.
  match goal with |- context [run (burst gaps) ?x] => set (s1 := x) end.
  assert (E : ulong_sub (uptime s1) (lastSensorTrigger s1) = 0)
    by apply ulong_sub_diag.
  split; [|split].
  - intros Ht Hn.
    destruct (burst_counted gaps s1 Ha Hg) as [A _];
      rewrite ?E; try (subst s1; fields; lia).
    rewrite A, E. reflexivity.
  - intros Ht.
    destruct (bounces_ignored gaps s1 Ha Hg) as [A _]; rewrite ?E; try lia.
    rewrite A. reflexivity.
  - intros Hs Ht.
    destruct (total_bounds gaps SENSOR_DEBOUNCE_TIME) as [L B];
      [unfold SENSOR_DEBOUNCE_TIME; lia | exact Hs |].
    unfold SENSOR_DEBOUNCE_TIME, MULTI_COIN_TIMEOUT in *.
    destruct (spaced_edges_counted gaps s1) as [A W].
    + exact Ha.
    + rewrite Forall_forall in *. intros g I.
      specialize (Hs g I). specialize (B g I).
      unfold SENSOR_DEBOUNCE_TIME, ULONG_RANGE. lia.
    + reflexivity.
    + subst s1. fields. lia.
    + subst s1. fields. lia.
    + rewrite !run_app. unfold run at 1 3. simpl fold_left. unfold step.
      fields. rewrite A, W. subst s1. fields. split; reflexivity.
Qed.

Lemma edges_counted_witness :
  sensorTriggerCount (run (Edge :: burst [40; 40]) ready) = 2 /\
  sensorTriggerCount (run (Edge :: burst [40; 40; 9; 41; 50]) ready) = 4 /\
  sensorTriggerCount (run (Edge :: burst [10; 10; 20]) ready) = 1 /\
  sensorTriggerCount (run (Edge :: burst [50; 60; 70] ++ [Tick 820]) ready) = 4 /\
  sensorWindowStart (run (Edge :: burst [50; 60; 70] ++ [Tick 820]) ready)
    = millis ready.
Proof.
  assert (A : sensorAttached ready = true) by by_run.
  assert (C : sensorTriggerCount ready = 0) by by_run.
  assert (P : pastDebounce ready) by (vm_compute; discriminate).
  destruct (edges_counted [40; 40] 0 ready A C P) as [G1 _];
    [repeat constructor; lia|].
  destruct (edges_counted [40; 40; 9; 41; 50] 0 ready A C P) as [G2 _];
    [repeat constructor; lia|].
  destruct (edges_counted [10; 10; 20] 0 ready A C P) as (_ & H1 & _);
    [repeat constructor; lia|].
  destruct (edges_counted [50; 60; 70] 820 ready A C P) as (_ & _ & H2);
    [repeat constructor; lia|].
  split; [apply G1; vm_compute; reflexivity|].
  split; [apply G2; vm_compute; reflexivity|].
  split; [apply H1; vm_compute; reflexivity|].
  apply H2; [repeat constructor; vm_compute; discriminate
            | vm_compute; discriminate].
Defined.
(** ** The worked example, for every phase of the loop *)


(** ** Recovery, and where it does not resume *)






(** A pass that finds the delay of the current photo step elapsed, the
    camera working. *)
Lemma photo_act (e : Env) (s : Machine) :
  serialLine e = None ->
  capture e = CaptureOk ->
  currentState s = STATE_PHOTOGRAPHING ->
  0 <= currentPhotoStep s <= 5 ->
  stepDelay (currentPhotoStep s) <= waited s ->
  timeInState s <= PROCESSING_TIMEOUT ->
  let k := currentPhotoStep s in
  let s' := loop e s in
  currentState s' =
    (if k =? 5 then STATE_WAITING_FOR_COIN else STATE_PHOTOGRAPHING) /\
  currentPhotoStep s' = (if k =? 5 then 0 else k + 1) /\
  statusLED s' = LED_BUSY /\
  uptime s' = to_ulong (uptime s + (if shoots k then 110 else 10)) /\
  (k <> 5 -> waited s' = 10 /\ stateStartTime s' = stateStartTime s) /\
  errorCount s' = errorCount s /\
  imageCounter s' =
    (if shoots k then to_int (imageCounter s + 1) else imageCounter s) /\
  currentImageFilename1 s' =
    (if k =? 1 then imageName (millis s) (to_int (imageCounter s + 1))
     else currentImageFilename1 s) /\
  currentImageFilename2 s' =
    (if k =? 3 then imageName (millis s) (to_int (imageCounter s + 1))
     else currentImageFilename2 s).
Proof.
  intros Hq Hc Hs R W T k s'. subst k s'.
  assert (currentPhotoStep s = 0 \/ currentPhotoStep s = 1 \/
          currentPhotoStep s = 2 \/ currentPhotoStep s = 3 \/
          currentPhotoStep s = 4 \/ currentPhotoStep s = 5) as K by lia.
  rewrite (loop_quiet e s Hq)
    by (unfold RESET_TIMEOUT, PROCESSING_TIMEOUT in *; lia).
  rewrite Hs, Hc.
  unfold handlePhotographing, photoStep, generateImageFilename,
    captureAndSaveImage, changeState, timeInState, millis in *.
  unfold waited, millis in W.
  cbv zeta. fields.
  destruct K as [K|[K|[K|[K|[K|K]]]]]; rewrite K in *;
    simpl stepDelay in W; cbv beta iota;
    try rewrite (leb_true _ _ W); cbv beta iota; fields;
    rewrite ?Hs; fields; cbv beta iota;
    rewrite (ltb_false _ _ T); fields;
    split_ands; try reflexivity; try exact Hs;
    try (unfold CAMERA_WARMUP_TIME; rewrite ?to_ulong_delay; reflexivity);
    intros N; try (now elim N);
    (split; [|reflexivity]); unfold waited, millis; fields;
    apply ulong_sub_elapsed; unfold ULONG_RANGE; lia.
Qed.
(** The passes that wait out the delay of a photo step, and the pass that
    then acts. *)
Lemma photo_stage (e : Env) (m : nat) (s : Machine) :
  serialLine e = None ->
  capture e = CaptureOk ->
  currentState s = STATE_PHOTOGRAPHING ->
  1 <= currentPhotoStep s <= 5 ->
  statusLED s = LED_BUSY ->
  waited s = 10 ->
  stepDelay (currentPhotoStep s) = 10 * Z.of_nat (S m) + 10 ->
  timeInState s + 10 * Z.of_nat (S m) <= PROCESSING_TIMEOUT ->
  let k := currentPhotoStep s in
  let w := 10 * Z.of_nat (S m) in
  let c := if shoots k then 110 else 10 in
  let s' := run [Poll e] (run (repeat (Poll e) (S m)) s) in
  currentState (run (repeat (Poll e) (S m)) s) = STATE_PHOTOGRAPHING /\
  currentState s' =
    (if k =? 5 then STATE_WAITING_FOR_COIN else STATE_PHOTOGRAPHING) /\
  currentPhotoStep s' = (if k =? 5 then 0 else k + 1) /\
  statusLED s' = LED_BUSY /\
  uptime s' = to_ulong (uptime s + (w + c)) /\
  (k <> 5 -> waited s' = 10 /\ timeInState s' = timeInState s + (w + c)) /\
  errorCount s' = errorCount s /\
  imageCounter s' =
    (if shoots k then to_int (imageCounter s + 1) else imageCounter s) /\
  (exists t : Z,
     currentImageFilename1 s' =
       if k =? 1 then imageName t (to_int (imageCounter s + 1))
       else currentImageFilename1 s) /\
  (exists t : Z,
     currentImageFilename2 s' =
       if k =? 3 then imageName t (to_int (imageCounter s + 1))
       else currentImageFilename2 s).
Proof.
  intros Hq Hc Hs R Hl Hw Hd Ht k w c s'. subst s'.
  pose proof (to_ulong_range (millis s - stateStartTime s)) as Tr.
  change (to_ulong (millis s - stateStartTime s)) with (timeInState s) in Tr.
  rewrite (photo_waits e m s Hq Hs Hl R)
    by (rewrite ?Hw, ?Hd; rewrite ?Nat2Z.inj_succ in *; lia).
  fold w. set (sd := delay w s).
  assert (Wd : waited sd = stepDelay (currentPhotoStep s)).
  { unfold sd, waited, delay, millis. fields. rewrite ulong_sub_later.
    change (ulong_sub (uptime s) (flipperMoveTime s)) with (waited s).
    rewrite Hw, Hd. unfold w.
    rewrite to_ulong_small; [lia|].
    unfold ULONG_RANGE, PROCESSING_TIMEOUT in *. lia. }
  assert (Td : timeInState sd = timeInState s + w).
  { unfold sd, timeInState, delay, millis. fields. rewrite ulong_sub_later.
    change (ulong_sub (uptime s) (stateStartTime s)) with (timeInState s).
    apply to_ulong_small. unfold w, ULONG_RANGE, PROCESSING_TIMEOUT in *. lia. }
  destruct (photo_act e sd Hq Hc Hs) as (A1 & A2 & A3 & A4 & A5 & A6 & A7 & A8 & A9).
  { change (currentPhotoStep sd) with (currentPhotoStep s). lia. }
  { change (currentPhotoStep sd) with (currentPhotoStep s). lia. }
  { unfold w in Td. lia. }
  change (currentPhotoStep sd) with k in *.
  change (imageCounter sd) with (imageCounter s) in *.
  change (errorCount sd) with (errorCount s) in *.
  change (currentImageFilename1 sd) with (currentImageFilename1 s) in *.
  change (currentImageFilename2 sd) with (currentImageFilename2 s) in *.
  change (stateStartTime sd) with (stateStartTime s) in *.
  change (run [Poll e] sd) with (loop e sd). fold c in A4.
  split; [exact Hs|]. split; [exact A1|]. split; [exact A2|].
  split; [exact A3|]. split.
  { rewrite A4. unfold sd, delay. fields. apply to_ulong_delay. }
  split.
  { intros N. destruct (A5 N) as [B1 B2]. split; [exact B1|].
    unfold timeInState, millis. rewrite A4, B2.
    rewrite ulong_sub_later.
    change (ulong_sub (uptime sd) (stateStartTime s)) with (timeInState sd).
    rewrite Td. unfold c.
    change (ulong_sub (uptime s) (stateStartTime s)) with (timeInState s).
    destruct (shoots k);
      (rewrite to_ulong_small;
       [lia | unfold w, ULONG_RANGE, PROCESSING_TIMEOUT in *; lia]). }
  split; [exact A6|]. split; [exact A7|].
  split; [exists (millis sd); exact A8 | exists (millis sd); exact A9].
Qed.

(** The five stages of the photo sequence after its first pass, each under
    the same assumptions: a quiet console, a working camera, the machine
    photographing with the busy colour shown, 10 ms after the flipper was
    moved or a photo taken. *)
Lemma photo_stage_shoot (e : Env) (s : Machine) :
  serialLine e = None ->
  capture e = CaptureOk ->
  currentState s = STATE_PHOTOGRAPHING ->
  currentPhotoStep s = 1 \/ currentPhotoStep s = 3 ->
  statusLED s = LED_BUSY ->
  waited s = 10 ->
  timeInState s + 490 <= PROCESSING_TIMEOUT ->
  let s' := run [Poll e] (run (repeat (Poll e) 49) s) in
  currentState s' = STATE_PHOTOGRAPHING /\
  currentPhotoStep s' = currentPhotoStep s + 1 /\
  statusLED s' = LED_BUSY /\
  waited s' = 10 /\
  timeInState s' = timeInState s + 600 /\
  uptime s' = to_ulong (uptime s + 600) /\
  errorCount s' = errorCount s /\
  imageCounter s' = to_int (imageCounter s + 1) /\
  (currentPhotoStep s = 1 ->
   (exists t : Z,
      currentImageFilename1 s' = imageName t (to_int (imageCounter s + 1))) /\
   currentImageFilename2 s' = currentImageFilename2 s) /\
  (currentPhotoStep s = 3 ->
   (exists t : Z,
      currentImageFilename2 s' = imageName t (to_int (imageCounter s + 1))) /\
   currentImageFilename1 s' = currentImageFilename1 s).
Proof.
  intros Hq Hc Hs K Hl Hw Ht s'. subst s'.
  destruct (photo_stage e 48 s Hq Hc Hs)
    as (_ & A1 & A2 & A3 & A4 & A5 & A6 & A7 & [t1 A8] & [t2 A9]);
    [lia | exact Hl | exact Hw
     | destruct K as [K|K]; rewrite K; reflexivity
     | unfold PROCESSING_TIMEOUT in *; lia |].
  destruct K as [K|K]; rewrite K in *;
    (destruct A5 as [A5 A5']; [discriminate|]);
    (split; [exact A1|]); (split; [exact A2|]); (split; [exact A3|]);
    (split; [exact A5|]); (split; [exact A5'|]); (split; [exact A4|]);
    (split; [exact A6|]); (split; [exact A7|]).
  - split; [|intros N; discriminate N].
    intros _. split; [exists t1; exact A8 | exact A9].
  - split; [intros N; discriminate N|].
    intros _. split; [exists t2; exact A9 | exact A8].
Qed.

Lemma photo_stage_move (e : Env) (s : Machine) :
  serialLine e = None ->
  capture e = CaptureOk ->
  currentState s = STATE_PHOTOGRAPHING ->
  currentPhotoStep s = 2 \/ currentPhotoStep s = 4 ->
  statusLED s = LED_BUSY ->
  waited s = 10 ->
  timeInState s + 290 <= PROCESSING_TIMEOUT ->
  let s' := run [Poll e] (run (repeat (Poll e) 29) s) in
  currentState s' = STATE_PHOTOGRAPHING /\
  currentPhotoStep s' = currentPhotoStep s + 1 /\
  statusLED s' = LED_BUSY /\
  waited s' = 10 /\
  timeInState s' = timeInState s + 300 /\
  uptime s' = to_ulong (uptime s + 300) /\
  errorCount s' = errorCount s /\
  imageCounter s' = imageCounter s /\
  currentImageFilename1 s' = currentImageFilename1 s /\
  currentImageFilename2 s' = currentImageFilename2 s.
Proof.
  intros Hq Hc Hs K Hl Hw Ht s'. subst s'.
  destruct (photo_stage e 28 s Hq Hc Hs)
    as (_ & A1 & A2 & A3 & A4 & A5 & A6 & A7 & [t1 A8] & [t2 A9]);
    [lia | exact Hl | exact Hw
     | destruct K as [K|K]; rewrite K; reflexivity
     | unfold PROCESSING_TIMEOUT in *; lia |].
  destruct K as [K|K]; rewrite K in *;
    (destruct A5 as [A5 A5']; [discriminate|]);
    exact (conj A1 (conj A2 (conj A3 (conj A5 (conj A5' (conj A4
            (conj A6 (conj A7 (conj A8 A9))))))))).
Qed.

Lemma photo_stage_done (e : Env) (s : Machine) :
  serialLine e = None ->
  capture e = CaptureOk ->
  currentState s = STATE_PHOTOGRAPHING ->
  currentPhotoStep s = 5 ->
  statusLED s = LED_BUSY ->
  waited s = 10 ->
  timeInState s + 490 <= PROCESSING_TIMEOUT ->
  let s' := run [Poll e] (run (repeat (Poll e) 49) s) in
  currentState (run (repeat (Poll e) 49) s) = STATE_PHOTOGRAPHING /\
  currentState s' = STATE_WAITING_FOR_COIN /\
  currentPhotoStep s' = 0 /\
  uptime s' = to_ulong (uptime s + 500) /\
  errorCount s' = errorCount s /\
  imageCounter s' = imageCounter s /\
  currentImageFilename1 s' = currentImageFilename1 s /\
  currentImageFilename2 s' = currentImageFilename2 s.
Proof.
  intros Hq Hc Hs K Hl Hw Ht s'. subst s'.
  destruct (photo_stage e 48 s Hq Hc Hs)
    as (A0 & A1 & A2 & A3 & A4 & A5 & A6 & A7 & [t1 A8] & [t2 A9]);
    [lia | exact Hl | exact Hw | rewrite K; reflexivity
     | unfold PROCESSING_TIMEOUT in *; lia |].
  rewrite K in *.
  exact (conj A0 (conj A1 (conj A2 (conj A4 (conj A6 (conj A7
          (conj A8 A9))))))).
Qed.

Lemma photo_stage_start (e : Env) (s : Machine) :
  serialLine e = None ->
  capture e = CaptureOk ->
  currentState s = STATE_PHOTOGRAPHING ->
  currentPhotoStep s = 0 ->
  timeInState s + 10 <= PROCESSING_TIMEOUT ->
  let s' := run [Poll e] s in
  currentState s' = STATE_PHOTOGRAPHING /\
  currentPhotoStep s' = 1 /\
  statusLED s' = LED_BUSY /\
  waited s' = 10 /\
  timeInState s' = timeInState s + 10 /\
  uptime s' = to_ulong (uptime s + 10) /\
  errorCount s' = errorCount s /\
  imageCounter s' = imageCounter s.
Proof.
  intros Hq Hc Hs K Ht s'. subst s'.
  pose proof (to_ulong_range (millis s - stateStartTime s)) as Tr.
  change (to_ulong (millis s - stateStartTime s)) with (timeInState s) in Tr.
  pose proof (to_ulong_range (millis s - flipperMoveTime s)) as Wr.
  change (to_ulong (millis s - flipperMoveTime s)) with (waited s) in Wr.
  change (run [Poll e] s) with (loop e s).
  destruct (photo_act e s Hq Hc Hs)
    as (A1 & A2 & A3 & A4 & A5 & A6 & A7 & _);
    [lia | rewrite K; change (stepDelay 0) with 0; lia
     | unfold PROCESSING_TIMEOUT in *; lia |].
  rewrite K in *. destruct A5 as [A5 A5']; [discriminate|].
  split; [exact A1|]. split; [exact A2|]. split; [exact A3|].
  split; [exact A5|]. split; [|exact (conj A4 (conj A6 A7))].
  unfold timeInState, millis. rewrite A4, A5', ulong_sub_later.
  change (ulong_sub (uptime s) (stateStartTime s)) with (timeInState s).
  apply to_ulong_small. unfold ULONG_RANGE, PROCESSING_TIMEOUT in *. lia.
Qed.
Lemma imageName_inj (t c t' c' : Z) :
  imageName t c = imageName t' c' -> t = t' /\ c = c'.
Proof.
  unfold imageName. intros H.
  rewrite !append_assoc in H. apply append_inj_l in H.
  change ("_" ++ ?x)%string with (String "_" x) in H.
  apply append_cut in H; try (apply string_of_Z_plain; auto).
  destruct H as [A B]. apply string_of_Z_inj in A.
  unfold IMAGE_FILENAME_SUFFIX in B.
  apply append_cut in B; try (apply string_of_Z_plain; auto).
  destruct B as [B _]. apply string_of_Z_inj in B. auto.
Qed.

(** X14. A photo sequence that starts in time, with a working camera, a
    quiet console and the loop polling without a pause, completes: after
    210 passes the machine is still in [STATE_PHOTOGRAPHING], and the
    211th, 2300 ms after the first, returns it to [STATE_WAITING_FOR_COIN]
    with the photo step back at 0. The sequence has taken 2310 ms, no error
    has been counted, the image counter has advanced by two and the two
    file names differ. *)
Theorem photo_sequence_completes (e : Env) (s : Machine) :
  serialLine e = None ->
  capture e = CaptureOk ->
  currentState s = STATE_PHOTOGRAPHING ->
  currentPhotoStep s = 0 ->
  timeInState s + 2300 <= PROCESSING_TIMEOUT ->
  let s' := run (repeat (Poll e) 211) s in
  currentState (run (repeat (Poll e) 210) s) = STATE_PHOTOGRAPHING /\
  currentState s' = STATE_WAITING_FOR_COIN /\
  currentPhotoStep s' = 0 /\
  uptime s' = to_ulong (uptime s + 2310) /\
  errorCount s' = errorCount s /\
  imageCounter s' = to_int (to_int (imageCounter s + 1) + 1) /\
  currentImageFilename1 s' <> currentImageFilename2 s'.
Proof.
  intros Hq Hc Hs K0 Ht s'. subst s'.
  assert (L1 : repeat (Poll e) 211 =
               [Poll e] ++ repeat (Poll e) 49 ++ [Poll e]
               ++ repeat (Poll e) 29 ++ [Poll e]
               ++ repeat (Poll e) 49 ++ [Poll e]
               ++ repeat (Poll e) 29 ++ [Poll e]
               ++ repeat (Poll e) 49 ++ [Poll e]) by reflexivity.
  assert (L0 : repeat (Poll e) 210 =
               [Poll e] ++ repeat (Poll e) 49 ++ [Poll e]
               ++ repeat (Poll e) 29 ++ [Poll e]
               ++ repeat (Poll e) 49 ++ [Poll e]
               ++ repeat (Poll e) 29 ++ [Poll e]
               ++ repeat (Poll e) 49) by reflexivity.
  rewrite L1, L0. clear L1 L0. rewrite !run_app.
  (* step 0: the flipper is sent to the first side *)
  destruct (photo_stage_start e s Hq Hc Hs K0)
    as (A1 & A2 & A3 & A4 & A5 & A6 & A7 & A8);
    [unfold PROCESSING_TIMEOUT in *; lia|].
  (* step 1: the first photo *)
  destruct (photo_stage_shoot e _ Hq Hc A1 (or_introl A2) A3 A4)
    as (B1 & B2 & B3 & B4 & B5 & B6 & B7 & B8 & B9 & _);
    [rewrite A5; unfold PROCESSING_TIMEOUT in *; lia|].
  rewrite A2 in B2. destruct (B9 A2) as [[t1 N1] _]. clear B9.
  (* step 2: the flipper is sent to the second side *)
  destruct (photo_stage_move e _ Hq Hc B1 (or_introl B2) B3 B4)
    as (C1 & C2 & C3 & C4 & C5 & C6 & C7 & C8 & C9 & C10);
    [rewrite B5, A5; unfold PROCESSING_TIMEOUT in *; lia|].
  rewrite B2 in C2.
  (* step 3: the second photo *)
  destruct (photo_stage_shoot e _ Hq Hc C1 (or_intror C2) C3 C4)
    as (D1 & D2 & D3 & D4 & D5 & D6 & D7 & D8 & _ & D9);
    [rewrite C5, B5, A5; unfold PROCESSING_TIMEOUT in *; lia|].
  rewrite C2 in D2. destruct (D9 C2) as [[t2 N2] N1']. clear D9.
  (* step 4: the flipper is sent home *)
  destruct (photo_stage_move e _ Hq Hc D1 (or_intror D2) D3 D4)
    as (E1 & E2 & E3 & E4 & E5 & E6 & E7 & E8 & E9 & E10);
    [rewrite D5, C5, B5, A5; unfold PROCESSING_TIMEOUT in *; lia|].
  rewrite D2 in E2.
  (* step 5: the sequence completes *)
  destruct (photo_stage_done e _ Hq Hc E1 E2 E3 E4)
    as (F0 & F1 & F2 & F4 & F6 & F7 & F8 & F9);
    [rewrite E5, D5, C5, B5, A5; unfold PROCESSING_TIMEOUT in *; lia|].
  split; [exact F0|]. split; [exact F1|]. split; [exact F2|].
  split.
  { rewrite F4, E6, D6, C6, B6, A6. rewrite !to_ulong_delay. reflexivity. }
  split; [rewrite F6, E7, D7, C7, B7; exact A7|].
  split; [rewrite F7, E8, D8, C8, B8, A8; reflexivity|].
  rewrite F8, E9, N1', C9, N1, F9, E10, N2, C8, B8.
  intros N. apply imageName_inj in N.
  destruct N as [_ N]. symmetry in N. revert N.
  apply to_int_succ_differs, to_int_range.
Qed.

Lemma photo_sequence_completes_witness :
  let start := run [Edge; Tick 3; Poll quiet; Tick 1000; Poll quiet; Tick 500;
                    Poll quiet] ready in
  (currentState start = STATE_PHOTOGRAPHING /\
   currentPhotoStep start = 0 /\
   timeInState start = 10) /\
  currentState (run (polls 210) start) = STATE_PHOTOGRAPHING /\
  currentState (run (polls 211) start) = STATE_WAITING_FOR_COIN /\
  imageCounter (run (polls 211) start) = 2 /\
  currentImageFilename1 (run (polls 211) start)
    <> currentImageFilename2 (run (polls 211) start).
Proof.
  intros start.
  assert (Hs : currentState start = STATE_PHOTOGRAPHING)
    by (vm_compute; reflexivity).
  assert (Hk : currentPhotoStep start = 0) by (vm_compute; reflexivity).
  assert (Ht : timeInState start = 10) by (vm_compute; reflexivity).
  assert (Hi : imageCounter start = 0) by (vm_compute; reflexivity).
  destruct (photo_sequence_completes quiet start eq_refl eq_refl Hs Hk)
    as (A & B & _ & _ & _ & C & D);
    [rewrite Ht; vm_compute; discriminate|].
  rewrite Hi in C.
  exact (conj (conj Hs (conj Hk Ht)) (conj A (conj B (conj C D)))).
Defined.
